(** * Lerian MCP server: schema registry, request builder and dispatcher

    A shallow embedding of the dispatch layer of the server
    ([src/api/schemas/*.js], [src/api/client.js], [src/api/router.js] and the
    two tool handlers [midaz-discover] and [midaz-execute]) together with the
    part of the JavaScript runtime these files rely on.

    Conventions of the embedding:
    - a JavaScript string is the [string] of its UTF-8 bytes (ill-formed
      strings, i.e. lone surrogates, are outside the model);
    - a number is an integer [Z] when it is a safe integer (below 2^53 in
      absolute value), which JavaScript prints in full decimal; every other
      number (a fraction, a larger number, [NaN], an infinity) is given by
      the text [Number::toString] yields for it;
    - a plain object is the list of its own enumerable properties in the order
      [Object.entries] yields them; a property read additionally falls back
      to [Object.prototype];
    - the [Map] of the registry is a [gmap];
    - [async] functions are computations in a small monad that threads the log
      of [fetch] calls and may throw. *)

From Stdlib Require Import String Ascii List ZArith Bool Lia DecimalString Permutation.
From stdpp Require Import base option list gmap strings.
Import ListNotations.

Local Open Scope Z_scope.
Set Warnings "-register-all".

(** ** JavaScript runtime *)

Module JS.

(** JavaScript values as they travel through the dispatcher: JSON data plus
    [undefined].  [VNum n] is the safe integer [n]; [VNumber text] is a number
    that is not a safe integer, given by the text [Number::toString] yields
    for it, as in [0.5], [1e+21], [NaN] or [-Infinity]. *)
Inductive value : Type :=
| VUndefined
| VNull
| VBool (b : bool)
| VNum (n : Z)
| VNumber (text : string)
| VStr (s : string)
| VArr (items : list value)
| VObj (props : list (string * value)).

(** [typeof v === 'object'] *)
Definition typeof_object (v : value) : bool :=
  match v with
  | VNull | VArr _ | VObj _ => true
  | _ => false
  end.

(** ToBoolean *)
Definition truthy (v : value) : bool :=
  match v with
  | VUndefined | VNull => false
  | VBool b => b
  | VNum n => negb (n =? 0)
  | VNumber text => negb (String.eqb text "NaN")
  | VStr s => negb (String.eqb s "")
  | VArr _ | VObj _ => true
  end.

Definition truthy_string (s : string) : bool := negb (String.eqb s "").

(** Number::toString for safe integers *)
Definition string_of_Z (n : Z) : string := NilZero.string_of_int (Z.to_int n).

(** [Number.isSafeInteger] *)
Definition safe_integer (n : Z) : bool := Z.abs n <? 2 ^ 53.

(** The numbers [JSON.stringify] writes as [null]. *)
Definition non_finite (text : string) : bool :=
  existsb (String.eqb text) ["NaN"; "Infinity"; "-Infinity"].

(** [Array.prototype.join] on strings *)
Fixpoint join (sep : string) (l : list string) : string :=
  match l with
  | [] => ""
  | [x] => x
  | x :: l' => x +:+ sep +:+ join sep l'
  end.

(** [String(v)] *)
Fixpoint to_string (v : value) : string :=
  match v with
  | VUndefined => "undefined"
  | VNull => "null"
  | VBool true => "true"
  | VBool false => "false"
  | VNum n => string_of_Z n
  | VNumber text => text
  | VStr s => s
  | VArr items =>
      join "," (map (fun x => match x with
                              | VUndefined | VNull => ""
                              | _ => to_string x
                              end) items)
  | VObj _ => "[object Object]"
  end.

(** *** Characters *)

Definition code (c : ascii) : N := N_of_ascii c.

Definition in_range (lo hi : N) (c : ascii) : bool :=
  ((lo <=? code c) && (code c <=? hi))%N.

Definition is_upper : ascii -> bool := in_range 65 90.
Definition is_lower : ascii -> bool := in_range 97 122.
Definition is_digit : ascii -> bool := in_range 48 57.
Definition is_alnum (c : ascii) : bool := is_upper c || is_lower c || is_digit c.

Definition mem_ascii (c : ascii) (s : string) : bool :=
  existsb (Ascii.eqb c) (list_ascii_of_string s).

Definition upper_char (c : ascii) : ascii :=
  if is_lower c then ascii_of_N (code c - 32) else c.
Definition lower_char (c : ascii) : ascii :=
  if is_upper c then ascii_of_N (code c + 32) else c.

Fixpoint map_string (f : ascii -> ascii) (s : string) : string :=
  match s with
  | EmptyString => EmptyString
  | String c s' => String (f c) (map_string f s')
  end.

(** [String.prototype.toUpperCase] / [toLowerCase] (ASCII letters; the bytes
    of other characters are kept). *)
Definition toUpperCase : string -> string := map_string upper_char.
Definition toLowerCase : string -> string := map_string lower_char.

Definition hex_upper (n : N) : ascii :=
  nth (N.to_nat n) (list_ascii_of_string "0123456789ABCDEF") "0"%char.
Definition hex_lower (n : N) : ascii :=
  nth (N.to_nat n) (list_ascii_of_string "0123456789abcdef") "0"%char.

(** [%XX] for one byte *)
Definition percent_byte (c : ascii) : string :=
  String "%" (String (hex_upper (code c / 16)) (String (hex_upper (code c mod 16)) "")).

(** *** encodeURIComponent *)

(** uriUnescaped: alphanumerics and [-_.!~*'()] *)
Definition uri_unreserved (c : ascii) : bool :=
  is_alnum c || mem_ascii c "-_.!~*'()".

Definition encode_uri_char (c : ascii) : string :=
  if uri_unreserved c then String c "" else percent_byte c.

Fixpoint encodeURIComponent (s : string) : string :=
  match s with
  | EmptyString => ""
  | String c s' => encode_uri_char c +:+ encodeURIComponent s'
  end.

(** *** String search and replace *)

Fixpoint skip (n : nat) (s : string) : string :=
  match n, s with
  | O, _ => s
  | S n', String _ s' => skip n' s'
  | S _, EmptyString => EmptyString
  end.

(** First occurrence of [pat] in [s]: the text before it and the text after
    it. *)
Fixpoint find (pat s : string) : option (string * string) :=
  if String.prefix pat s then Some ("", skip (String.length pat) s)
  else match s with
       | EmptyString => None
       | String c s' =>
           match find pat s' with
           | Some (pre, post) => Some (String c pre, post)
           | None => None
           end
       end.

(** [String.prototype.includes] *)
Definition includes (s pat : string) : bool :=
  match find pat s with Some _ => true | None => false end.

(** GetSubstitution for a string pattern (no captures): [$$], [$&], [$`] and
    [$'] are expanded in the replacement text, everything else is literal. *)
Fixpoint getSubstitution (matched pre post rep : string) : string :=
  match rep with
  | EmptyString => ""
  | String c r =>
      if Ascii.eqb c "$" then
        match r with
        | EmptyString => "$"
        | String d r' =>
            if Ascii.eqb d "$" then "$" +:+ getSubstitution matched pre post r'
            else if Ascii.eqb d "&" then matched +:+ getSubstitution matched pre post r'
            else if Ascii.eqb d "`" then pre +:+ getSubstitution matched pre post r'
            else if Ascii.eqb d "'" then post +:+ getSubstitution matched pre post r'
            else String c (getSubstitution matched pre post r)
        end
      else String c (getSubstitution matched pre post r)
  end.

(** [s.replace(pat, rep)] with a string pattern: only the first occurrence. *)
Definition replace (s pat rep : string) : string :=
  match find pat s with
  | None => s
  | Some (pre, post) => pre +:+ getSubstitution pat pre post rep +:+ post
  end.

(** *** JSON.stringify *)

Definition dquote : ascii := "034"%char.

Definition json_escape_char (c : ascii) : string :=
  if Ascii.eqb c dquote then String "\" (String dquote "")
  else if Ascii.eqb c "\" then "\\"
  else if (code c =? 8)%N then "\b"
  else if (code c =? 9)%N then "\t"
  else if (code c =? 10)%N then "\n"
  else if (code c =? 12)%N then "\f"
  else if (code c =? 13)%N then "\r"
  else if (code c <? 32)%N then
    "\u00" +:+ String (hex_lower (code c / 16)) (String (hex_lower (code c mod 16)) "")
  else String c "".

Fixpoint json_escape (s : string) : string :=
  match s with
  | EmptyString => ""
  | String c s' => json_escape_char c +:+ json_escape s'
  end.

(** QuoteJSONString *)
Definition json_quote (s : string) : string :=
  String dquote (json_escape s) +:+ String dquote "".

(** SerializeJSONProperty: [None] stands for the result [undefined]. *)
Fixpoint json_property (v : value) : option string :=
  match v with
  | VUndefined => None
  | VNull => Some "null"
  | VBool true => Some "true"
  | VBool false => Some "false"
  | VNum n => Some (string_of_Z n)
  | VNumber text => Some (if non_finite text then "null" else text)
  | VStr s => Some (json_quote s)
  | VArr items =>
      Some ("[" +:+ join "," (map (fun x => match json_property x with
                                            | Some t => t
                                            | None => "null"
                                            end) items) +:+ "]")
  | VObj props =>
      Some ("{" +:+ join "," (flat_map (fun kv => match json_property (snd kv) with
                                                 | Some t => [json_quote (fst kv) +:+ ":" +:+ t]
                                                 | None => []
                                                 end) props) +:+ "}")
  end.

(** [`${JSON.stringify(v)}`]: the text, or ["undefined"]. *)
Definition JSON_stringify (v : value) : string :=
  match json_property v with Some t => t | None => "undefined" end.

(** A value in which every [VNum] is a safe integer.  Every JavaScript value
    of the kinds above is written as one such value: a number is a safe
    integer or it is not. *)
Fixpoint well_formed (v : value) : bool :=
  match v with
  | VNum n => safe_integer n
  | VArr items => forallb well_formed items
  | VObj props => forallb (fun kv => well_formed (snd kv)) props
  | _ => true
  end.

(** [validateUint32]: what [AbortSignal.timeout] accepts as a delay. *)
Definition uint32 (n : Z) : bool := (0 <=? n) && (n <=? 4294967295).

(** *** URLSearchParams *)

(** application/x-www-form-urlencoded byte serializer: alphanumerics and
    [*-._] are kept, a space becomes [+], any other byte is percent-encoded. *)
Definition form_encode_char (c : ascii) : string :=
  if is_alnum c || mem_ascii c "*-._" then String c ""
  else if Ascii.eqb c " " then "+"
  else percent_byte c.

Fixpoint form_encode (s : string) : string :=
  match s with
  | EmptyString => ""
  | String c s' => form_encode_char c +:+ form_encode s'
  end.

Definition URLSearchParams := list (string * string).

Definition has_name (name : string) (l : URLSearchParams) : bool :=
  existsb (fun kv => String.eqb (fst kv) name) l.

(** The tuples after the first one named [name] are removed and the first one
    gets the new value. *)
Fixpoint set_existing (name val : string) (l : URLSearchParams) : URLSearchParams :=
  match l with
  | [] => []
  | (k, v) :: l' =>
      if String.eqb k name
      then (k, val) :: List.filter (fun kv => negb (String.eqb (fst kv) name)) l'
      else (k, v) :: set_existing name val l'
  end.

(** [params.set(name, value)] *)
Definition params_set (name val : string) (l : URLSearchParams) : URLSearchParams :=
  if has_name name l then set_existing name val l else l ++ [(name, val)].

(** [params.toString()] *)
Definition params_toString (l : URLSearchParams) : string :=
  join "&" (map (fun kv => form_encode (fst kv) +:+ "=" +:+ form_encode (snd kv)) l).

(** *** Property reads on plain objects *)

(** The properties every plain object inherits from [Object.prototype]; each
    of them is a function or an object, hence truthy. *)
Definition Object_prototype_keys : list string :=
  [ "constructor"; "__defineGetter__"; "__defineSetter__"; "hasOwnProperty";
    "__lookupGetter__"; "__lookupSetter__"; "isPrototypeOf";
    "propertyIsEnumerable"; "toString"; "valueOf"; "__proto__";
    "toLocaleString" ].

Definition is_inherited (k : string) : bool :=
  existsb (String.eqb k) Object_prototype_keys.

(** Result of [obj[k]] on a plain object whose own properties have type [A]. *)
Inductive prop (A : Type) : Type :=
| Own (a : A)
| Inherited (k : string)
| Absent.
Arguments Own {A} a.
Arguments Inherited {A} k.
Arguments Absent {A}.

Fixpoint own {A : Type} (o : list (string * A)) (k : string) : option A :=
  match o with
  | [] => None
  | (k', a) :: o' => if String.eqb k' k then Some a else own o' k
  end.

Definition get {A : Type} (o : list (string * A)) (k : string) : prop A :=
  match own o k with
  | Some a => Own a
  | None => if is_inherited k then Inherited k else Absent
  end.

(** [Object.keys] *)
Definition keys {A : Type} (o : list (string * A)) : list string := map fst o.

(** Text of an inherited member inside a template literal. *)
Definition inherited_to_string (k : string) : string :=
  if String.eqb k "__proto__" then "[object Object]"
  else if String.eqb k "constructor" then "function Object() { [native code] }"
  else "function " +:+ k +:+ "() { [native code] }".

End JS.

(** ** Data model of the schema registry *)

(** [{ type, required, description }] of one path parameter *)
Module ParamDef.
Record t : Type := mk { type : string; required : bool; description : string }.
End ParamDef.

(** [{ type, description }] of one query parameter *)
Module QueryParamDef.
Record t : Type := mk { type : string; description : string }.
End QueryParamDef.

(** One action of a resource.  [pathParams], [queryParams], [input] and
    [example] are optional properties of the literal; [input] and [example]
    are free-form object literals. *)
Module ActionDef.
Record t : Type := mk {
  method : string;
  path : string;
  pathParams : option (list (string * ParamDef.t));
  queryParams : option (list (string * QueryParamDef.t));
  input : option JS.value;
  description : string;
  example : option JS.value }.
End ActionDef.

Module ResourceSchema.
Record t : Type := mk {
  resource : string;
  component : string;
  description : string;
  actions : list (string * ActionDef.t) }.
End ResourceSchema.

(** ** The static resource schemas ([src/api/schemas/*.js]) *)

Module Schemas.
Import JS.

Definition dq : string := String dquote "".

(** [organizationsSchema] of [schemas/organizations.js] *)
Definition organizationsSchema : ResourceSchema.t :=
  {| ResourceSchema.resource := "organizations";
     ResourceSchema.component := "onboarding";
     ResourceSchema.description :=
       "Top-level entities representing companies or business units in Midaz";
     ResourceSchema.actions :=
     [ ("create",
        {| ActionDef.method := "POST";
           ActionDef.path :=
             "/v1/organizations";
           ActionDef.pathParams := None;
           ActionDef.queryParams := None;
           ActionDef.input :=
             Some (VObj
                     [ ("legalName", VObj
                         [ ("type", VStr "string");
                           ("required", VBool true);
                           ("description", VStr "Official legal name (max 256 chars)") ]);
                       ("legalDocument", VObj
                         [ ("type", VStr "string");
                           ("required", VBool true);
                           ("description", VStr "Tax ID or registration number (max 256 chars)") ]);
                       ("parentOrganizationId", VObj
                         [ ("type", VStr "string");
                           ("required", VBool false);
                           ("description", VStr "UUID of parent organization") ]);
                       ("doingBusinessAs", VObj
                         [ ("type", VStr "string");
                           ("required", VBool false);
                           ("description", VStr "Trading/brand name (max 256 chars)") ]);
                       ("address", VObj
                         [ ("type", VStr "object");
                           ("required", VBool false);
                           ("description", VStr "Physical address");
                           ("properties", VObj
                             [ ("line1", VObj
                                 [ ("type", VStr "string");
                                   ("description", VStr "Street address") ]);
                               ("line2", VObj
                                 [ ("type", VStr "string");
                                   ("description", VStr "Suite/apartment") ]);
                               ("zipCode", VObj
                                 [ ("type", VStr "string");
                                   ("description", VStr "Postal code") ]);
                               ("city", VObj [("type", VStr "string"); ("description", VStr "City")]);
                               ("state", VObj
                                 [ ("type", VStr "string");
                                   ("description", VStr "State/province") ]);
                               ("country", VObj
                                 [ ("type", VStr "string");
                                   ("description", VStr "ISO 3166-1 alpha-2 country code (2 chars)") ]) ]) ]);
                       ("status", VObj
                         [ ("type", VStr "object");
                           ("required", VBool false);
                           ("description", VStr ("Status object with code field (e.g. {code: " +:+ dq +:+ "ACTIVE" +:+ dq +:+ "})")) ]);
                       ("metadata", VObj
                         [ ("type", VStr "object");
                           ("required", VBool false);
                           ("description", VStr "Custom key-value pairs") ]) ]);
           ActionDef.description := "Create a new organization";
           ActionDef.example :=
             Some (VObj
                     [ ("legalName", VStr "Acme Corp");
                       ("legalDocument", VStr "12345678000195");
                       ("doingBusinessAs", VStr "Acme");
                       ("address", VObj
                         [ ("line1", VStr "123 Main St");
                           ("city", VStr "New York");
                           ("state", VStr "NY");
                           ("country", VStr "US");
                           ("zipCode", VStr "10001") ]);
                       ("metadata", VObj [("industry", VStr "fintech")]) ]) |});
       ("get",
        {| ActionDef.method := "GET";
           ActionDef.path :=
             "/v1/organizations/:id";
           ActionDef.pathParams :=
             Some [ ("id", ParamDef.mk "string" true "Organization UUID") ];
           ActionDef.queryParams := None;
           ActionDef.input := None;
           ActionDef.description := "Get organization by ID";
           ActionDef.example := None |});
       ("list",
        {| ActionDef.method := "GET";
           ActionDef.path :=
             "/v1/organizations";
           ActionDef.pathParams := None;
           ActionDef.queryParams :=
             Some [ ("limit", QueryParamDef.mk "number" "Items per page (1-100, default 10)");
                    ("page", QueryParamDef.mk "number" "Page number (default 1)");
                    ("metadata", QueryParamDef.mk "object" "Filter by metadata key-value pairs") ];
           ActionDef.input := None;
           ActionDef.description := "List all organizations";
           ActionDef.example := None |});
       ("update",
        {| ActionDef.method := "PATCH";
           ActionDef.path :=
             "/v1/organizations/:id";
           ActionDef.pathParams :=
             Some [ ("id", ParamDef.mk "string" true "Organization UUID") ];
           ActionDef.queryParams := None;
           ActionDef.input :=
             Some (VObj
                     [ ("legalName", VObj
                         [ ("type", VStr "string");
                           ("required", VBool false);
                           ("description", VStr "Updated legal name") ]);
                       ("parentOrganizationId", VObj
                         [ ("type", VStr "string");
                           ("required", VBool false);
                           ("description", VStr "Updated parent org UUID") ]);
                       ("doingBusinessAs", VObj
                         [ ("type", VStr "string");
                           ("required", VBool false);
                           ("description", VStr "Updated trading name") ]);
                       ("address", VObj
                         [ ("type", VStr "object");
                           ("required", VBool false);
                           ("description", VStr "Updated address") ]);
                       ("status", VObj
                         [ ("type", VStr "object");
                           ("required", VBool false);
                           ("description", VStr "Updated status") ]);
                       ("metadata", VObj
                         [ ("type", VStr "object");
                           ("required", VBool false);
                           ("description", VStr "Updated metadata") ]) ]);
           ActionDef.description := "Update an organization (partial update)";
           ActionDef.example := None |});
       ("delete",
        {| ActionDef.method := "DELETE";
           ActionDef.path :=
             "/v1/organizations/:id";
           ActionDef.pathParams :=
             Some [ ("id", ParamDef.mk "string" true "Organization UUID") ];
           ActionDef.queryParams := None;
           ActionDef.input := None;
           ActionDef.description := "Delete an organization";
           ActionDef.example := None |});
       ("count",
        {| ActionDef.method := "HEAD";
           ActionDef.path :=
             "/v1/organizations/metrics/count";
           ActionDef.pathParams := None;
           ActionDef.queryParams := None;
           ActionDef.input := None;
           ActionDef.description := "Count organizations (returns count in Midaz-Total-Count header)";
           ActionDef.example := None |}) ] |}.

(** [ledgersSchema] of [schemas/ledgers.js] *)
Definition ledgersSchema : ResourceSchema.t :=
  {| ResourceSchema.resource := "ledgers";
     ResourceSchema.component := "onboarding";
     ResourceSchema.description :=
       "Organizational units within an organization that group related financial accounts and assets";
     ResourceSchema.actions :=
     [ ("create",
        {| ActionDef.method := "POST";
           ActionDef.path :=
             "/v1/organizations/:organizationId/ledgers";
           ActionDef.pathParams :=
             Some [ ("organizationId", ParamDef.mk "string" true "Organization UUID") ];
           ActionDef.queryParams := None;
           ActionDef.input :=
             Some (VObj
                     [ ("name", VObj
                         [ ("type", VStr "string");
                           ("required", VBool true);
                           ("description", VStr "Ledger name (max 256 chars)") ]);
                       ("status", VObj
                         [ ("type", VStr "object");
                           ("required", VBool false);
                           ("description", VStr "Status object with code field") ]);
                       ("metadata", VObj
                         [ ("type", VStr "object");
                           ("required", VBool false);
                           ("description", VStr "Custom key-value pairs") ]) ]);
           ActionDef.description := "Create a new ledger";
           ActionDef.example :=
             Some (VObj
                     [ ("name", VStr "Treasury Operations");
                       ("metadata", VObj [("department", VStr "Finance")]) ]) |});
       ("get",
        {| ActionDef.method := "GET";
           ActionDef.path :=
             "/v1/organizations/:organizationId/ledgers/:id";
           ActionDef.pathParams :=
             Some [ ("organizationId", ParamDef.mk "string" true "Organization UUID");
                    ("id", ParamDef.mk "string" true "Ledger UUID") ];
           ActionDef.queryParams := None;
           ActionDef.input := None;
           ActionDef.description := "Get ledger by ID";
           ActionDef.example := None |});
       ("list",
        {| ActionDef.method := "GET";
           ActionDef.path :=
             "/v1/organizations/:organizationId/ledgers";
           ActionDef.pathParams :=
             Some [ ("organizationId", ParamDef.mk "string" true "Organization UUID") ];
           ActionDef.queryParams :=
             Some [ ("limit", QueryParamDef.mk "number" "Items per page (1-100)");
                    ("page", QueryParamDef.mk "number" "Page number");
                    ("metadata", QueryParamDef.mk "object" "Filter by metadata") ];
           ActionDef.input := None;
           ActionDef.description := "List ledgers in an organization";
           ActionDef.example := None |});
       ("update",
        {| ActionDef.method := "PATCH";
           ActionDef.path :=
             "/v1/organizations/:organizationId/ledgers/:id";
           ActionDef.pathParams :=
             Some [ ("organizationId", ParamDef.mk "string" true "Organization UUID");
                    ("id", ParamDef.mk "string" true "Ledger UUID") ];
           ActionDef.queryParams := None;
           ActionDef.input :=
             Some (VObj
                     [ ("name", VObj
                         [ ("type", VStr "string");
                           ("required", VBool false);
                           ("description", VStr "Updated name") ]);
                       ("status", VObj
                         [ ("type", VStr "object");
                           ("required", VBool false);
                           ("description", VStr "Updated status") ]);
                       ("metadata", VObj
                         [ ("type", VStr "object");
                           ("required", VBool false);
                           ("description", VStr "Updated metadata") ]) ]);
           ActionDef.description := "Update a ledger";
           ActionDef.example := None |});
       ("delete",
        {| ActionDef.method := "DELETE";
           ActionDef.path :=
             "/v1/organizations/:organizationId/ledgers/:id";
           ActionDef.pathParams :=
             Some [ ("organizationId", ParamDef.mk "string" true "Organization UUID");
                    ("id", ParamDef.mk "string" true "Ledger UUID") ];
           ActionDef.queryParams := None;
           ActionDef.input := None;
           ActionDef.description := "Delete a ledger";
           ActionDef.example := None |});
       ("count",
        {| ActionDef.method := "HEAD";
           ActionDef.path :=
             "/v1/organizations/:organizationId/ledgers/metrics/count";
           ActionDef.pathParams :=
             Some [ ("organizationId", ParamDef.mk "string" true "Organization UUID") ];
           ActionDef.queryParams := None;
           ActionDef.input := None;
           ActionDef.description := "Count ledgers in an organization";
           ActionDef.example := None |}) ] |}.

(** [assetsSchema] of [schemas/assets.js] *)
Definition assetsSchema : ResourceSchema.t :=
  {| ResourceSchema.resource := "assets";
     ResourceSchema.component := "onboarding";
     ResourceSchema.description :=
       "Financial instruments within a ledger (currencies, crypto, commodities, etc.)";
     ResourceSchema.actions :=
     [ ("create",
        {| ActionDef.method := "POST";
           ActionDef.path :=
             "/v1/organizations/:organizationId/ledgers/:ledgerId/assets";
           ActionDef.pathParams :=
             Some [ ("organizationId", ParamDef.mk "string" true "Organization UUID");
                    ("ledgerId", ParamDef.mk "string" true "Ledger UUID") ];
           ActionDef.queryParams := None;
           ActionDef.input :=
             Some (VObj
                     [ ("name", VObj
                         [ ("type", VStr "string");
                           ("required", VBool true);
                           ("description", VStr "Asset name (max 256 chars)") ]);
                       ("type", VObj
                         [ ("type", VStr "string");
                           ("required", VBool true);
                           ("description", VStr "Asset type (e.g. currency, cryptocurrency, commodity)") ]);
                       ("code", VObj
                         [ ("type", VStr "string");
                           ("required", VBool true);
                           ("description", VStr "Unique asset code/symbol (max 100 chars, e.g. USD, BTC)") ]);
                       ("status", VObj
                         [ ("type", VStr "object");
                           ("required", VBool false);
                           ("description", VStr "Status object with code field") ]);
                       ("metadata", VObj
                         [ ("type", VStr "object");
                           ("required", VBool false);
                           ("description", VStr "Custom key-value pairs") ]) ]);
           ActionDef.description := "Create a new asset";
           ActionDef.example :=
             Some (VObj
                     [ ("name", VStr "US Dollar");
                       ("type", VStr "currency");
                       ("code", VStr "USD");
                       ("metadata", VObj [("symbol", VStr "$")]) ]) |});
       ("get",
        {| ActionDef.method := "GET";
           ActionDef.path :=
             "/v1/organizations/:organizationId/ledgers/:ledgerId/assets/:id";
           ActionDef.pathParams :=
             Some [ ("organizationId", ParamDef.mk "string" true "Organization UUID");
                    ("ledgerId", ParamDef.mk "string" true "Ledger UUID");
                    ("id", ParamDef.mk "string" true "Asset UUID") ];
           ActionDef.queryParams := None;
           ActionDef.input := None;
           ActionDef.description := "Get asset by ID";
           ActionDef.example := None |});
       ("list",
        {| ActionDef.method := "GET";
           ActionDef.path :=
             "/v1/organizations/:organizationId/ledgers/:ledgerId/assets";
           ActionDef.pathParams :=
             Some [ ("organizationId", ParamDef.mk "string" true "Organization UUID");
                    ("ledgerId", ParamDef.mk "string" true "Ledger UUID") ];
           ActionDef.queryParams :=
             Some [ ("limit", QueryParamDef.mk "number" "Items per page");
                    ("page", QueryParamDef.mk "number" "Page number");
                    ("metadata", QueryParamDef.mk "object" "Filter by metadata") ];
           ActionDef.input := None;
           ActionDef.description := "List assets in a ledger";
           ActionDef.example := None |});
       ("update",
        {| ActionDef.method := "PATCH";
           ActionDef.path :=
             "/v1/organizations/:organizationId/ledgers/:ledgerId/assets/:id";
           ActionDef.pathParams :=
             Some [ ("organizationId", ParamDef.mk "string" true "Organization UUID");
                    ("ledgerId", ParamDef.mk "string" true "Ledger UUID");
                    ("id", ParamDef.mk "string" true "Asset UUID") ];
           ActionDef.queryParams := None;
           ActionDef.input :=
             Some (VObj
                     [ ("name", VObj
                         [ ("type", VStr "string");
                           ("required", VBool false);
                           ("description", VStr "Updated name") ]);
                       ("status", VObj
                         [ ("type", VStr "object");
                           ("required", VBool false);
                           ("description", VStr "Updated status") ]);
                       ("metadata", VObj
                         [ ("type", VStr "object");
                           ("required", VBool false);
                           ("description", VStr "Updated metadata") ]) ]);
           ActionDef.description := "Update an asset";
           ActionDef.example := None |});
       ("delete",
        {| ActionDef.method := "DELETE";
           ActionDef.path :=
             "/v1/organizations/:organizationId/ledgers/:ledgerId/assets/:id";
           ActionDef.pathParams :=
             Some [ ("organizationId", ParamDef.mk "string" true "Organization UUID");
                    ("ledgerId", ParamDef.mk "string" true "Ledger UUID");
                    ("id", ParamDef.mk "string" true "Asset UUID") ];
           ActionDef.queryParams := None;
           ActionDef.input := None;
           ActionDef.description := "Delete an asset";
           ActionDef.example := None |});
       ("count",
        {| ActionDef.method := "HEAD";
           ActionDef.path :=
             "/v1/organizations/:organizationId/ledgers/:ledgerId/assets/metrics/count";
           ActionDef.pathParams :=
             Some [ ("organizationId", ParamDef.mk "string" true "Organization UUID");
                    ("ledgerId", ParamDef.mk "string" true "Ledger UUID") ];
           ActionDef.queryParams := None;
           ActionDef.input := None;
           ActionDef.description := "Count assets in a ledger";
           ActionDef.example := None |}) ] |}.

(** [portfoliosSchema] of [schemas/portfolios.js] *)
Definition portfoliosSchema : ResourceSchema.t :=
  {| ResourceSchema.resource := "portfolios";
     ResourceSchema.component := "onboarding";
     ResourceSchema.description :=
       "Collections of accounts grouped for organizational purposes (business units, departments, etc.)";
     ResourceSchema.actions :=
     [ ("create",
        {| ActionDef.method := "POST";
           ActionDef.path :=
             "/v1/organizations/:organizationId/ledgers/:ledgerId/portfolios";
           ActionDef.pathParams :=
             Some [ ("organizationId", ParamDef.mk "string" true "Organization UUID");
                    ("ledgerId", ParamDef.mk "string" true "Ledger UUID") ];
           ActionDef.queryParams := None;
           ActionDef.input :=
             Some (VObj
                     [ ("name", VObj
                         [ ("type", VStr "string");
                           ("required", VBool true);
                           ("description", VStr "Portfolio name (max 256 chars)") ]);
                       ("entityId", VObj
                         [ ("type", VStr "string");
                           ("required", VBool false);
                           ("description", VStr "External entity identifier (max 256 chars)") ]);
                       ("status", VObj
                         [ ("type", VStr "object");
                           ("required", VBool false);
                           ("description", VStr "Status object with code field") ]);
                       ("metadata", VObj
                         [ ("type", VStr "object");
                           ("required", VBool false);
                           ("description", VStr "Custom key-value pairs") ]) ]);
           ActionDef.description := "Create a new portfolio";
           ActionDef.example :=
             Some (VObj [("name", VStr "Treasury Portfolio"); ("entityId", VStr "EXT-001")]) |});
       ("get",
        {| ActionDef.method := "GET";
           ActionDef.path :=
             "/v1/organizations/:organizationId/ledgers/:ledgerId/portfolios/:id";
           ActionDef.pathParams :=
             Some [ ("organizationId", ParamDef.mk "string" true "Organization UUID");
                    ("ledgerId", ParamDef.mk "string" true "Ledger UUID");
                    ("id", ParamDef.mk "string" true "Portfolio UUID") ];
           ActionDef.queryParams := None;
           ActionDef.input := None;
           ActionDef.description := "Get portfolio by ID";
           ActionDef.example := None |});
       ("list",
        {| ActionDef.method := "GET";
           ActionDef.path :=
             "/v1/organizations/:organizationId/ledgers/:ledgerId/portfolios";
           ActionDef.pathParams :=
             Some [ ("organizationId", ParamDef.mk "string" true "Organization UUID");
                    ("ledgerId", ParamDef.mk "string" true "Ledger UUID") ];
           ActionDef.queryParams :=
             Some [ ("limit", QueryParamDef.mk "number" "Items per page");
                    ("page", QueryParamDef.mk "number" "Page number");
                    ("metadata", QueryParamDef.mk "object" "Filter by metadata") ];
           ActionDef.input := None;
           ActionDef.description := "List portfolios in a ledger";
           ActionDef.example := None |});
       ("update",
        {| ActionDef.method := "PATCH";
           ActionDef.path :=
             "/v1/organizations/:organizationId/ledgers/:ledgerId/portfolios/:id";
           ActionDef.pathParams :=
             Some [ ("organizationId", ParamDef.mk "string" true "Organization UUID");
                    ("ledgerId", ParamDef.mk "string" true "Ledger UUID");
                    ("id", ParamDef.mk "string" true "Portfolio UUID") ];
           ActionDef.queryParams := None;
           ActionDef.input :=
             Some (VObj
                     [ ("name", VObj
                         [ ("type", VStr "string");
                           ("required", VBool false);
                           ("description", VStr "Updated name") ]);
                       ("entityId", VObj
                         [ ("type", VStr "string");
                           ("required", VBool false);
                           ("description", VStr "Updated entity ID") ]);
                       ("status", VObj
                         [ ("type", VStr "object");
                           ("required", VBool false);
                           ("description", VStr "Updated status") ]);
                       ("metadata", VObj
                         [ ("type", VStr "object");
                           ("required", VBool false);
                           ("description", VStr "Updated metadata") ]) ]);
           ActionDef.description := "Update a portfolio";
           ActionDef.example := None |});
       ("delete",
        {| ActionDef.method := "DELETE";
           ActionDef.path :=
             "/v1/organizations/:organizationId/ledgers/:ledgerId/portfolios/:id";
           ActionDef.pathParams :=
             Some [ ("organizationId", ParamDef.mk "string" true "Organization UUID");
                    ("ledgerId", ParamDef.mk "string" true "Ledger UUID");
                    ("id", ParamDef.mk "string" true "Portfolio UUID") ];
           ActionDef.queryParams := None;
           ActionDef.input := None;
           ActionDef.description := "Delete a portfolio";
           ActionDef.example := None |});
       ("count",
        {| ActionDef.method := "HEAD";
           ActionDef.path :=
             "/v1/organizations/:organizationId/ledgers/:ledgerId/portfolios/metrics/count";
           ActionDef.pathParams :=
             Some [ ("organizationId", ParamDef.mk "string" true "Organization UUID");
                    ("ledgerId", ParamDef.mk "string" true "Ledger UUID") ];
           ActionDef.queryParams := None;
           ActionDef.input := None;
           ActionDef.description := "Count portfolios in a ledger";
           ActionDef.example := None |}) ] |}.

(** [segmentsSchema] of [schemas/segments.js] *)
Definition segmentsSchema : ResourceSchema.t :=
  {| ResourceSchema.resource := "segments";
     ResourceSchema.component := "onboarding";
     ResourceSchema.description :=
       "Logical divisions within a ledger (business areas, product lines, customer categories)";
     ResourceSchema.actions :=
     [ ("create",
        {| ActionDef.method := "POST";
           ActionDef.path :=
             "/v1/organizations/:organizationId/ledgers/:ledgerId/segments";
           ActionDef.pathParams :=
             Some [ ("organizationId", ParamDef.mk "string" true "Organization UUID");
                    ("ledgerId", ParamDef.mk "string" true "Ledger UUID") ];
           ActionDef.queryParams := None;
           ActionDef.input :=
             Some (VObj
                     [ ("name", VObj
                         [ ("type", VStr "string");
                           ("required", VBool true);
                           ("description", VStr "Segment name (max 256 chars)") ]);
                       ("status", VObj
                         [ ("type", VStr "object");
                           ("required", VBool false);
                           ("description", VStr "Status object with code field") ]);
                       ("metadata", VObj
                         [ ("type", VStr "object");
                           ("required", VBool false);
                           ("description", VStr "Custom key-value pairs") ]) ]);
           ActionDef.description := "Create a new segment";
           ActionDef.example :=
             Some (VObj
                     [ ("name", VStr "Retail Banking");
                       ("metadata", VObj [("region", VStr "LATAM")]) ]) |});
       ("get",
        {| ActionDef.method := "GET";
           ActionDef.path :=
             "/v1/organizations/:organizationId/ledgers/:ledgerId/segments/:id";
           ActionDef.pathParams :=
             Some [ ("organizationId", ParamDef.mk "string" true "Organization UUID");
                    ("ledgerId", ParamDef.mk "string" true "Ledger UUID");
                    ("id", ParamDef.mk "string" true "Segment UUID") ];
           ActionDef.queryParams := None;
           ActionDef.input := None;
           ActionDef.description := "Get segment by ID";
           ActionDef.example := None |});
       ("list",
        {| ActionDef.method := "GET";
           ActionDef.path :=
             "/v1/organizations/:organizationId/ledgers/:ledgerId/segments";
           ActionDef.pathParams :=
             Some [ ("organizationId", ParamDef.mk "string" true "Organization UUID");
                    ("ledgerId", ParamDef.mk "string" true "Ledger UUID") ];
           ActionDef.queryParams :=
             Some [ ("limit", QueryParamDef.mk "number" "Items per page");
                    ("page", QueryParamDef.mk "number" "Page number");
                    ("metadata", QueryParamDef.mk "object" "Filter by metadata") ];
           ActionDef.input := None;
           ActionDef.description := "List segments in a ledger";
           ActionDef.example := None |});
       ("update",
        {| ActionDef.method := "PATCH";
           ActionDef.path :=
             "/v1/organizations/:organizationId/ledgers/:ledgerId/segments/:id";
           ActionDef.pathParams :=
             Some [ ("organizationId", ParamDef.mk "string" true "Organization UUID");
                    ("ledgerId", ParamDef.mk "string" true "Ledger UUID");
                    ("id", ParamDef.mk "string" true "Segment UUID") ];
           ActionDef.queryParams := None;
           ActionDef.input :=
             Some (VObj
                     [ ("name", VObj
                         [ ("type", VStr "string");
                           ("required", VBool false);
                           ("description", VStr "Updated name") ]);
                       ("status", VObj
                         [ ("type", VStr "object");
                           ("required", VBool false);
                           ("description", VStr "Updated status") ]);
                       ("metadata", VObj
                         [ ("type", VStr "object");
                           ("required", VBool false);
                           ("description", VStr "Updated metadata") ]) ]);
           ActionDef.description := "Update a segment";
           ActionDef.example := None |});
       ("delete",
        {| ActionDef.method := "DELETE";
           ActionDef.path :=
             "/v1/organizations/:organizationId/ledgers/:ledgerId/segments/:id";
           ActionDef.pathParams :=
             Some [ ("organizationId", ParamDef.mk "string" true "Organization UUID");
                    ("ledgerId", ParamDef.mk "string" true "Ledger UUID");
                    ("id", ParamDef.mk "string" true "Segment UUID") ];
           ActionDef.queryParams := None;
           ActionDef.input := None;
           ActionDef.description := "Delete a segment";
           ActionDef.example := None |});
       ("count",
        {| ActionDef.method := "HEAD";
           ActionDef.path :=
             "/v1/organizations/:organizationId/ledgers/:ledgerId/segments/metrics/count";
           ActionDef.pathParams :=
             Some [ ("organizationId", ParamDef.mk "string" true "Organization UUID");
                    ("ledgerId", ParamDef.mk "string" true "Ledger UUID") ];
           ActionDef.queryParams := None;
           ActionDef.input := None;
           ActionDef.description := "Count segments in a ledger";
           ActionDef.example := None |}) ] |}.

(** [accountsSchema] of [schemas/accounts.js] *)
Definition accountsSchema : ResourceSchema.t :=
  {| ResourceSchema.resource := "accounts";
     ResourceSchema.component := "onboarding";
     ResourceSchema.description :=
       "Financial accounts within a ledger for tracking balances and transactions";
     ResourceSchema.actions :=
     [ ("create",
        {| ActionDef.method := "POST";
           ActionDef.path :=
             "/v1/organizations/:organizationId/ledgers/:ledgerId/accounts";
           ActionDef.pathParams :=
             Some [ ("organizationId", ParamDef.mk "string" true "Organization UUID");
                    ("ledgerId", ParamDef.mk "string" true "Ledger UUID") ];
           ActionDef.queryParams := None;
           ActionDef.input :=
             Some (VObj
                     [ ("assetCode", VObj
                         [ ("type", VStr "string");
                           ("required", VBool true);
                           ("description", VStr "Asset code for balances (e.g. USD)") ]);
                       ("type", VObj
                         [ ("type", VStr "string");
                           ("required", VBool true);
                           ("description", VStr ("Account type (e.g. deposit, savings). Cannot be " +:+ dq +:+ "external" +:+ dq)) ]);
                       ("name", VObj
                         [ ("type", VStr "string");
                           ("required", VBool false);
                           ("description", VStr "Account name (max 256 chars)") ]);
                       ("alias", VObj
                         [ ("type", VStr "string");
                           ("required", VBool false);
                           ("description", VStr "Unique alias (e.g. @treasury_checking, max 100 chars)") ]);
                       ("parentAccountId", VObj
                         [ ("type", VStr "string");
                           ("required", VBool false);
                           ("description", VStr "Parent account UUID for sub-accounts") ]);
                       ("entityId", VObj
                         [ ("type", VStr "string");
                           ("required", VBool false);
                           ("description", VStr "External system identifier (max 256 chars)") ]);
                       ("portfolioId", VObj
                         [ ("type", VStr "string");
                           ("required", VBool false);
                           ("description", VStr "Portfolio UUID to assign") ]);
                       ("segmentId", VObj
                         [ ("type", VStr "string");
                           ("required", VBool false);
                           ("description", VStr "Segment UUID to assign") ]);
                       ("blocked", VObj
                         [ ("type", VStr "boolean");
                           ("required", VBool false);
                           ("description", VStr "Whether account starts blocked (default false)") ]);
                       ("status", VObj
                         [ ("type", VStr "object");
                           ("required", VBool false);
                           ("description", VStr "Status object with code field") ]);
                       ("metadata", VObj
                         [ ("type", VStr "object");
                           ("required", VBool false);
                           ("description", VStr "Custom key-value pairs") ]) ]);
           ActionDef.description := "Create a new account";
           ActionDef.example :=
             Some (VObj
                     [ ("name", VStr "Corporate Checking");
                       ("assetCode", VStr "USD");
                       ("type", VStr "deposit");
                       ("alias", VStr "@corp_checking");
                       ("metadata", VObj [("department", VStr "Treasury")]) ]) |});
       ("get",
        {| ActionDef.method := "GET";
           ActionDef.path :=
             "/v1/organizations/:organizationId/ledgers/:ledgerId/accounts/:id";
           ActionDef.pathParams :=
             Some [ ("organizationId", ParamDef.mk "string" true "Organization UUID");
                    ("ledgerId", ParamDef.mk "string" true "Ledger UUID");
                    ("id", ParamDef.mk "string" true "Account UUID") ];
           ActionDef.queryParams := None;
           ActionDef.input := None;
           ActionDef.description := "Get account by ID";
           ActionDef.example := None |});
       ("getByAlias",
        {| ActionDef.method := "GET";
           ActionDef.path :=
             "/v1/organizations/:organizationId/ledgers/:ledgerId/accounts/aliases/:alias";
           ActionDef.pathParams :=
             Some [ ("organizationId", ParamDef.mk "string" true "Organization UUID");
                    ("ledgerId", ParamDef.mk "string" true "Ledger UUID");
                    ("alias", ParamDef.mk "string" true "Account alias (e.g. @treasury_checking)") ];
           ActionDef.queryParams := None;
           ActionDef.input := None;
           ActionDef.description := "Get account by alias";
           ActionDef.example := None |});
       ("getByExternalId",
        {| ActionDef.method := "GET";
           ActionDef.path :=
             "/v1/organizations/:organizationId/ledgers/:ledgerId/accounts/external/:externalId";
           ActionDef.pathParams :=
             Some [ ("organizationId", ParamDef.mk "string" true "Organization UUID");
                    ("ledgerId", ParamDef.mk "string" true "Ledger UUID");
                    ("externalId", ParamDef.mk "string" true "External system identifier") ];
           ActionDef.queryParams := None;
           ActionDef.input := None;
           ActionDef.description := "Get account by external ID";
           ActionDef.example := None |});
       ("list",
        {| ActionDef.method := "GET";
           ActionDef.path :=
             "/v1/organizations/:organizationId/ledgers/:ledgerId/accounts";
           ActionDef.pathParams :=
             Some [ ("organizationId", ParamDef.mk "string" true "Organization UUID");
                    ("ledgerId", ParamDef.mk "string" true "Ledger UUID") ];
           ActionDef.queryParams :=
             Some [ ("limit", QueryParamDef.mk "number" "Items per page");
                    ("page", QueryParamDef.mk "number" "Page number");
                    ("metadata", QueryParamDef.mk "object" "Filter by metadata") ];
           ActionDef.input := None;
           ActionDef.description := "List accounts in a ledger";
           ActionDef.example := None |});
       ("update",
        {| ActionDef.method := "PATCH";
           ActionDef.path :=
             "/v1/organizations/:organizationId/ledgers/:ledgerId/accounts/:id";
           ActionDef.pathParams :=
             Some [ ("organizationId", ParamDef.mk "string" true "Organization UUID");
                    ("ledgerId", ParamDef.mk "string" true "Ledger UUID");
                    ("id", ParamDef.mk "string" true "Account UUID") ];
           ActionDef.queryParams := None;
           ActionDef.input :=
             Some (VObj
                     [ ("name", VObj
                         [ ("type", VStr "string");
                           ("required", VBool false);
                           ("description", VStr "Updated name") ]);
                       ("segmentId", VObj
                         [ ("type", VStr "string");
                           ("required", VBool false);
                           ("description", VStr "Updated segment UUID") ]);
                       ("portfolioId", VObj
                         [ ("type", VStr "string");
                           ("required", VBool false);
                           ("description", VStr "Updated portfolio UUID") ]);
                       ("entityId", VObj
                         [ ("type", VStr "string");
                           ("required", VBool false);
                           ("description", VStr "Updated external ID") ]);
                       ("blocked", VObj
                         [ ("type", VStr "boolean");
                           ("required", VBool false);
                           ("description", VStr "Block/unblock account") ]);
                       ("status", VObj
                         [ ("type", VStr "object");
                           ("required", VBool false);
                           ("description", VStr "Updated status") ]);
                       ("metadata", VObj
                         [ ("type", VStr "object");
                           ("required", VBool false);
                           ("description", VStr "Updated metadata") ]) ]);
           ActionDef.description := "Update an account";
           ActionDef.example := None |});
       ("delete",
        {| ActionDef.method := "DELETE";
           ActionDef.path :=
             "/v1/organizations/:organizationId/ledgers/:ledgerId/accounts/:id";
           ActionDef.pathParams :=
             Some [ ("organizationId", ParamDef.mk "string" true "Organization UUID");
                    ("ledgerId", ParamDef.mk "string" true "Ledger UUID");
                    ("id", ParamDef.mk "string" true "Account UUID") ];
           ActionDef.queryParams := None;
           ActionDef.input := None;
           ActionDef.description := "Delete an account";
           ActionDef.example := None |});
       ("count",
        {| ActionDef.method := "HEAD";
           ActionDef.path :=
             "/v1/organizations/:organizationId/ledgers/:ledgerId/accounts/metrics/count";
           ActionDef.pathParams :=
             Some [ ("organizationId", ParamDef.mk "string" true "Organization UUID");
                    ("ledgerId", ParamDef.mk "string" true "Ledger UUID") ];
           ActionDef.queryParams := None;
           ActionDef.input := None;
           ActionDef.description := "Count accounts in a ledger";
           ActionDef.example := None |}) ] |}.

(** [accountTypesSchema] of [schemas/account-types.js] *)
Definition accountTypesSchema : ResourceSchema.t :=
  {| ResourceSchema.resource := "account-types";
     ResourceSchema.component := "onboarding";
     ResourceSchema.description :=
       "Custom account type taxonomies with name, description, and unique key value";
     ResourceSchema.actions :=
     [ ("create",
        {| ActionDef.method := "POST";
           ActionDef.path :=
             "/v1/organizations/:organizationId/ledgers/:ledgerId/account-types";
           ActionDef.pathParams :=
             Some [ ("organizationId", ParamDef.mk "string" true "Organization UUID");
                    ("ledgerId", ParamDef.mk "string" true "Ledger UUID") ];
           ActionDef.queryParams := None;
           ActionDef.input :=
             Some (VObj
                     [ ("name", VObj
                         [ ("type", VStr "string");
                           ("required", VBool true);
                           ("description", VStr "Account type name (max 100 chars)") ]);
                       ("keyValue", VObj
                         [ ("type", VStr "string");
                           ("required", VBool true);
                           ("description", VStr "Unique key identifier (max 50 chars, e.g. current_assets)") ]);
                       ("description", VObj
                         [ ("type", VStr "string");
                           ("required", VBool false);
                           ("description", VStr "Detailed description (max 500 chars)") ]);
                       ("metadata", VObj
                         [ ("type", VStr "object");
                           ("required", VBool false);
                           ("description", VStr "Custom key-value pairs") ]) ]);
           ActionDef.description := "Create a new account type";
           ActionDef.example :=
             Some (VObj
                     [ ("name", VStr "Current Assets");
                       ("keyValue", VStr "current_assets");
                       ("description", VStr "Assets expected to be converted to cash within one year") ]) |});
       ("get",
        {| ActionDef.method := "GET";
           ActionDef.path :=
             "/v1/organizations/:organizationId/ledgers/:ledgerId/account-types/:id";
           ActionDef.pathParams :=
             Some [ ("organizationId", ParamDef.mk "string" true "Organization UUID");
                    ("ledgerId", ParamDef.mk "string" true "Ledger UUID");
                    ("id", ParamDef.mk "string" true "Account Type UUID") ];
           ActionDef.queryParams := None;
           ActionDef.input := None;
           ActionDef.description := "Get account type by ID";
           ActionDef.example := None |});
       ("list",
        {| ActionDef.method := "GET";
           ActionDef.path :=
             "/v1/organizations/:organizationId/ledgers/:ledgerId/account-types";
           ActionDef.pathParams :=
             Some [ ("organizationId", ParamDef.mk "string" true "Organization UUID");
                    ("ledgerId", ParamDef.mk "string" true "Ledger UUID") ];
           ActionDef.queryParams :=
             Some [ ("limit", QueryParamDef.mk "number" "Items per page");
                    ("page", QueryParamDef.mk "number" "Page number") ];
           ActionDef.input := None;
           ActionDef.description := "List account types in a ledger";
           ActionDef.example := None |});
       ("update",
        {| ActionDef.method := "PATCH";
           ActionDef.path :=
             "/v1/organizations/:organizationId/ledgers/:ledgerId/account-types/:id";
           ActionDef.pathParams :=
             Some [ ("organizationId", ParamDef.mk "string" true "Organization UUID");
                    ("ledgerId", ParamDef.mk "string" true "Ledger UUID");
                    ("id", ParamDef.mk "string" true "Account Type UUID") ];
           ActionDef.queryParams := None;
           ActionDef.input :=
             Some (VObj
                     [ ("name", VObj
                         [ ("type", VStr "string");
                           ("required", VBool false);
                           ("description", VStr "Updated name") ]);
                       ("description", VObj
                         [ ("type", VStr "string");
                           ("required", VBool false);
                           ("description", VStr "Updated description") ]);
                       ("metadata", VObj
                         [ ("type", VStr "object");
                           ("required", VBool false);
                           ("description", VStr "Updated metadata") ]) ]);
           ActionDef.description := "Update an account type";
           ActionDef.example := None |});
       ("delete",
        {| ActionDef.method := "DELETE";
           ActionDef.path :=
             "/v1/organizations/:organizationId/ledgers/:ledgerId/account-types/:id";
           ActionDef.pathParams :=
             Some [ ("organizationId", ParamDef.mk "string" true "Organization UUID");
                    ("ledgerId", ParamDef.mk "string" true "Ledger UUID");
                    ("id", ParamDef.mk "string" true "Account Type UUID") ];
           ActionDef.queryParams := None;
           ActionDef.input := None;
           ActionDef.description := "Delete an account type";
           ActionDef.example := None |}) ] |}.

(** [transactionsSchema] of [schemas/transactions.js] *)
Definition transactionsSchema : ResourceSchema.t :=
  {| ResourceSchema.resource := "transactions";
     ResourceSchema.component := "transaction";
     ResourceSchema.description :=
       "Financial transactions with double-entry accounting (source/destination operations)";
     ResourceSchema.actions :=
     [ ("create",
        {| ActionDef.method := "POST";
           ActionDef.path :=
             "/v1/organizations/:organizationId/ledgers/:ledgerId/transactions";
           ActionDef.pathParams :=
             Some [ ("organizationId", ParamDef.mk "string" true "Organization UUID");
                    ("ledgerId", ParamDef.mk "string" true "Ledger UUID") ];
           ActionDef.queryParams := None;
           ActionDef.input :=
             Some (VObj
                     [ ("send", VObj
                         [ ("type", VStr "object");
                           ("required", VBool true);
                           ("description", VStr "Send operation with asset, value, source and distribute");
                           ("properties", VObj
                             [ ("asset", VObj
                                 [ ("type", VStr "string");
                                   ("required", VBool true);
                                   ("description", VStr "Asset code (e.g. USD)") ]);
                               ("value", VObj
                                 [ ("type", VStr "string");
                                   ("required", VBool true);
                                   ("description", VStr ("Transaction amount (e.g. " +:+ dq +:+ "100.00" +:+ dq +:+ ")")) ]);
                               ("source", VObj
                                 [ ("type", VStr "object");
                                   ("required", VBool true);
                                   ("description", VStr "Source accounts");
                                   ("properties", VObj
                                     [ ("from", VObj
                                         [ ("type", VStr "array");
                                           ("description", VStr "List of source operations");
                                           ("items", VObj
                                             [ ("account", VObj
                                                 [ ("type", VStr "string");
                                                   ("description", VStr "Account alias or @external/{asset}") ]);
                                               ("amount", VObj
                                                 [ ("type", VStr "object");
                                                   ("description", VStr "{ asset, value }") ]);
                                               ("description", VObj
                                                 [ ("type", VStr "string");
                                                   ("description", VStr "Operation description") ]);
                                               ("chartOfAccounts", VObj
                                                 [ ("type", VStr "string");
                                                   ("description", VStr "Chart of accounts code") ]);
                                               ("metadata", VObj
                                                 [ ("type", VStr "object");
                                                   ("description", VStr "Operation metadata") ]) ]) ]) ]) ]);
                               ("distribute", VObj
                                 [ ("type", VStr "object");
                                   ("required", VBool true);
                                   ("description", VStr "Destination accounts");
                                   ("properties", VObj
                                     [ ("to", VObj
                                         [ ("type", VStr "array");
                                           ("description", VStr "List of destination operations");
                                           ("items", VObj
                                             [ ("account", VObj
                                                 [ ("type", VStr "string");
                                                   ("description", VStr "Account alias") ]);
                                               ("amount", VObj
                                                 [ ("type", VStr "object");
                                                   ("description", VStr "{ asset, value }") ]);
                                               ("description", VObj
                                                 [ ("type", VStr "string");
                                                   ("description", VStr "Operation description") ]);
                                               ("chartOfAccounts", VObj
                                                 [ ("type", VStr "string");
                                                   ("description", VStr "Chart of accounts code") ]);
                                               ("metadata", VObj
                                                 [ ("type", VStr "object");
                                                   ("description", VStr "Operation metadata") ]) ]) ]) ]) ]) ]) ]);
                       ("chartOfAccountsGroupName", VObj
                         [ ("type", VStr "string");
                           ("required", VBool false);
                           ("description", VStr "Accounting group name") ]);
                       ("description", VObj
                         [ ("type", VStr "string");
                           ("required", VBool false);
                           ("description", VStr "Transaction description (max 256)") ]);
                       ("code", VObj
                         [ ("type", VStr "string");
                           ("required", VBool false);
                           ("description", VStr "Reference code (max 100)") ]);
                       ("pending", VObj
                         [ ("type", VStr "boolean");
                           ("required", VBool false);
                           ("description", VStr "Create in pending state (default false)") ]);
                       ("route", VObj
                         [ ("type", VStr "string");
                           ("required", VBool false);
                           ("description", VStr "Transaction route UUID") ]);
                       ("transactionDate", VObj
                         [ ("type", VStr "string");
                           ("required", VBool false);
                           ("description", VStr "Transaction date (ISO 8601)") ]);
                       ("metadata", VObj
                         [ ("type", VStr "object");
                           ("required", VBool false);
                           ("description", VStr "Custom key-value pairs") ]) ]);
           ActionDef.description := "Create a transaction using JSON (full source+destination specification)";
           ActionDef.example :=
             Some (VObj
                     [ ("description", VStr "Fund transfer");
                       ("send", VObj
                         [ ("asset", VStr "USD");
                           ("value", VStr "100.00");
                           ("source", VObj
                             [ ("from", VArr
                                 [ VObj
                                   [ ("account", VStr "@source_account");
                                     ("amount", VObj [("asset", VStr "USD"); ("value", VStr "100.00")]) ] ]) ]);
                           ("distribute", VObj
                             [ ("to", VArr
                                 [ VObj
                                   [ ("account", VStr "@dest_account");
                                     ("amount", VObj [("asset", VStr "USD"); ("value", VStr "100.00")]) ] ]) ]) ]) ]) |});
       ("createDSL",
        {| ActionDef.method := "POST";
           ActionDef.path :=
             "/v1/organizations/:organizationId/ledgers/:ledgerId/transactions/dsl";
           ActionDef.pathParams :=
             Some [ ("organizationId", ParamDef.mk "string" true "Organization UUID");
                    ("ledgerId", ParamDef.mk "string" true "Ledger UUID") ];
           ActionDef.queryParams := None;
           ActionDef.input :=
             Some (VObj
                     [ ("transactionType", VObj
                         [ ("type", VStr "string");
                           ("required", VBool true);
                           ("description", VStr "Transaction type UUID") ]);
                       ("transactionTypeCode", VObj
                         [ ("type", VStr "string");
                           ("required", VBool false);
                           ("description", VStr "Transaction type code (e.g. PAYMENT)") ]);
                       ("variables", VObj
                         [ ("type", VStr "object");
                           ("required", VBool false);
                           ("description", VStr "Variables to substitute in the template") ]) ]);
           ActionDef.description := "Create a transaction using DSL template with variable substitution";
           ActionDef.example := None |});
       ("createInflow",
        {| ActionDef.method := "POST";
           ActionDef.path :=
             "/v1/organizations/:organizationId/ledgers/:ledgerId/transactions/inflow";
           ActionDef.pathParams :=
             Some [ ("organizationId", ParamDef.mk "string" true "Organization UUID");
                    ("ledgerId", ParamDef.mk "string" true "Ledger UUID") ];
           ActionDef.queryParams := None;
           ActionDef.input :=
             Some (VObj
                     [ ("send", VObj
                         [ ("type", VStr "object");
                           ("required", VBool true);
                           ("description", VStr "Send with asset, value, and distribute only (source auto-generated as @external/{asset})");
                           ("properties", VObj
                             [ ("asset", VObj
                                 [ ("type", VStr "string");
                                   ("required", VBool true);
                                   ("description", VStr "Asset code") ]);
                               ("value", VObj
                                 [ ("type", VStr "string");
                                   ("required", VBool true);
                                   ("description", VStr "Amount") ]);
                               ("distribute", VObj
                                 [ ("type", VStr "object");
                                   ("required", VBool true);
                                   ("description", VStr "Destination accounts { to: [...] }") ]) ]) ]);
                       ("chartOfAccountsGroupName", VObj
                         [ ("type", VStr "string");
                           ("required", VBool false);
                           ("description", VStr "Accounting group") ]);
                       ("description", VObj
                         [ ("type", VStr "string");
                           ("required", VBool false);
                           ("description", VStr "Description") ]);
                       ("code", VObj
                         [ ("type", VStr "string");
                           ("required", VBool false);
                           ("description", VStr "Reference code") ]);
                       ("route", VObj
                         [ ("type", VStr "string");
                           ("required", VBool false);
                           ("description", VStr "Route UUID") ]);
                       ("transactionDate", VObj
                         [ ("type", VStr "string");
                           ("required", VBool false);
                           ("description", VStr "Transaction date") ]);
                       ("metadata", VObj
                         [ ("type", VStr "object");
                           ("required", VBool false);
                           ("description", VStr "Metadata") ]) ]);
           ActionDef.description := "Create an inflow transaction (funds coming in from external, only specify destination)";
           ActionDef.example :=
             Some (VObj
                     [ ("description", VStr "Deposit");
                       ("send", VObj
                         [ ("asset", VStr "USD");
                           ("value", VStr "500.00");
                           ("distribute", VObj
                             [ ("to", VArr
                                 [ VObj
                                   [ ("account", VStr "@savings");
                                     ("amount", VObj [("asset", VStr "USD"); ("value", VStr "500.00")]) ] ]) ]) ]) ]) |});
       ("createOutflow",
        {| ActionDef.method := "POST";
           ActionDef.path :=
             "/v1/organizations/:organizationId/ledgers/:ledgerId/transactions/outflow";
           ActionDef.pathParams :=
             Some [ ("organizationId", ParamDef.mk "string" true "Organization UUID");
                    ("ledgerId", ParamDef.mk "string" true "Ledger UUID") ];
           ActionDef.queryParams := None;
           ActionDef.input :=
             Some (VObj
                     [ ("send", VObj
                         [ ("type", VStr "object");
                           ("required", VBool true);
                           ("description", VStr "Send with asset, value, and source only (destination auto-generated as @external/{asset})");
                           ("properties", VObj
                             [ ("asset", VObj
                                 [ ("type", VStr "string");
                                   ("required", VBool true);
                                   ("description", VStr "Asset code") ]);
                               ("value", VObj
                                 [ ("type", VStr "string");
                                   ("required", VBool true);
                                   ("description", VStr "Amount") ]);
                               ("source", VObj
                                 [ ("type", VStr "object");
                                   ("required", VBool true);
                                   ("description", VStr "Source accounts { from: [...] }") ]) ]) ]);
                       ("chartOfAccountsGroupName", VObj
                         [ ("type", VStr "string");
                           ("required", VBool false);
                           ("description", VStr "Accounting group") ]);
                       ("description", VObj
                         [ ("type", VStr "string");
                           ("required", VBool false);
                           ("description", VStr "Description") ]);
                       ("code", VObj
                         [ ("type", VStr "string");
                           ("required", VBool false);
                           ("description", VStr "Reference code") ]);
                       ("pending", VObj
                         [ ("type", VStr "boolean");
                           ("required", VBool false);
                           ("description", VStr "Create in pending state") ]);
                       ("route", VObj
                         [ ("type", VStr "string");
                           ("required", VBool false);
                           ("description", VStr "Route UUID") ]);
                       ("transactionDate", VObj
                         [ ("type", VStr "string");
                           ("required", VBool false);
                           ("description", VStr "Transaction date") ]);
                       ("metadata", VObj
                         [ ("type", VStr "object");
                           ("required", VBool false);
                           ("description", VStr "Metadata") ]) ]);
           ActionDef.description := "Create an outflow transaction (funds going out to external, only specify source)";
           ActionDef.example := None |});
       ("createAnnotation",
        {| ActionDef.method := "POST";
           ActionDef.path :=
             "/v1/organizations/:organizationId/ledgers/:ledgerId/transactions/annotation";
           ActionDef.pathParams :=
             Some [ ("organizationId", ParamDef.mk "string" true "Organization UUID");
                    ("ledgerId", ParamDef.mk "string" true "Ledger UUID") ];
           ActionDef.queryParams := None;
           ActionDef.input :=
             Some (VObj
                     [ ("send", VObj
                         [ ("type", VStr "object");
                           ("required", VBool true);
                           ("description", VStr "Same structure as regular transaction") ]);
                       ("chartOfAccountsGroupName", VObj
                         [ ("type", VStr "string");
                           ("required", VBool false);
                           ("description", VStr "Accounting group") ]);
                       ("description", VObj
                         [ ("type", VStr "string");
                           ("required", VBool false);
                           ("description", VStr "Description") ]);
                       ("code", VObj
                         [ ("type", VStr "string");
                           ("required", VBool false);
                           ("description", VStr "Reference code") ]);
                       ("metadata", VObj
                         [ ("type", VStr "object");
                           ("required", VBool false);
                           ("description", VStr "Metadata") ]) ]);
           ActionDef.description := "Create an annotation transaction (bookkeeping entry that does NOT affect balances)";
           ActionDef.example := None |});
       ("commit",
        {| ActionDef.method := "POST";
           ActionDef.path :=
             "/v1/organizations/:organizationId/ledgers/:ledgerId/transactions/:id/commit";
           ActionDef.pathParams :=
             Some [ ("organizationId", ParamDef.mk "string" true "Organization UUID");
                    ("ledgerId", ParamDef.mk "string" true "Ledger UUID");
                    ("id", ParamDef.mk "string" true "Transaction UUID") ];
           ActionDef.queryParams := None;
           ActionDef.input := None;
           ActionDef.description := "Commit a pending transaction (applies balance changes)";
           ActionDef.example := None |});
       ("cancel",
        {| ActionDef.method := "POST";
           ActionDef.path :=
             "/v1/organizations/:organizationId/ledgers/:ledgerId/transactions/:id/cancel";
           ActionDef.pathParams :=
             Some [ ("organizationId", ParamDef.mk "string" true "Organization UUID");
                    ("ledgerId", ParamDef.mk "string" true "Ledger UUID");
                    ("id", ParamDef.mk "string" true "Transaction UUID") ];
           ActionDef.queryParams := None;
           ActionDef.input := None;
           ActionDef.description := "Cancel a pending transaction (releases held balances)";
           ActionDef.example := None |});
       ("revert",
        {| ActionDef.method := "POST";
           ActionDef.path :=
             "/v1/organizations/:organizationId/ledgers/:ledgerId/transactions/:id/revert";
           ActionDef.pathParams :=
             Some [ ("organizationId", ParamDef.mk "string" true "Organization UUID");
                    ("ledgerId", ParamDef.mk "string" true "Ledger UUID");
                    ("id", ParamDef.mk "string" true "Transaction UUID") ];
           ActionDef.queryParams := None;
           ActionDef.input := None;
           ActionDef.description := "Revert a committed transaction (creates a reversal transaction)";
           ActionDef.example := None |});
       ("get",
        {| ActionDef.method := "GET";
           ActionDef.path :=
             "/v1/organizations/:organizationId/ledgers/:ledgerId/transactions/:id";
           ActionDef.pathParams :=
             Some [ ("organizationId", ParamDef.mk "string" true "Organization UUID");
                    ("ledgerId", ParamDef.mk "string" true "Ledger UUID");
                    ("id", ParamDef.mk "string" true "Transaction UUID") ];
           ActionDef.queryParams := None;
           ActionDef.input := None;
           ActionDef.description := "Get transaction by ID (includes operations)";
           ActionDef.example := None |});
       ("list",
        {| ActionDef.method := "GET";
           ActionDef.path :=
             "/v1/organizations/:organizationId/ledgers/:ledgerId/transactions";
           ActionDef.pathParams :=
             Some [ ("organizationId", ParamDef.mk "string" true "Organization UUID");
                    ("ledgerId", ParamDef.mk "string" true "Ledger UUID") ];
           ActionDef.queryParams :=
             Some [ ("limit", QueryParamDef.mk "number" "Items per page");
                    ("page", QueryParamDef.mk "number" "Page number");
                    ("metadata", QueryParamDef.mk "object" "Filter by metadata") ];
           ActionDef.input := None;
           ActionDef.description := "List transactions in a ledger";
           ActionDef.example := None |});
       ("update",
        {| ActionDef.method := "PATCH";
           ActionDef.path :=
             "/v1/organizations/:organizationId/ledgers/:ledgerId/transactions/:id";
           ActionDef.pathParams :=
             Some [ ("organizationId", ParamDef.mk "string" true "Organization UUID");
                    ("ledgerId", ParamDef.mk "string" true "Ledger UUID");
                    ("id", ParamDef.mk "string" true "Transaction UUID") ];
           ActionDef.queryParams := None;
           ActionDef.input :=
             Some (VObj
                     [ ("description", VObj
                         [ ("type", VStr "string");
                           ("required", VBool false);
                           ("description", VStr "Updated description") ]);
                       ("metadata", VObj
                         [ ("type", VStr "object");
                           ("required", VBool false);
                           ("description", VStr "Updated metadata") ]) ]);
           ActionDef.description := "Update a transaction (description and metadata only)";
           ActionDef.example := None |}) ] |}.

(** [operationsSchema] of [schemas/operations.js] *)
Definition operationsSchema : ResourceSchema.t :=
  {| ResourceSchema.resource := "operations";
     ResourceSchema.component := "transaction";
     ResourceSchema.description :=
       "Individual debit/credit entries within a transaction affecting account balances";
     ResourceSchema.actions :=
     [ ("getByAccount",
        {| ActionDef.method := "GET";
           ActionDef.path :=
             "/v1/organizations/:organizationId/ledgers/:ledgerId/accounts/:accountId/operations";
           ActionDef.pathParams :=
             Some [ ("organizationId", ParamDef.mk "string" true "Organization UUID");
                    ("ledgerId", ParamDef.mk "string" true "Ledger UUID");
                    ("accountId", ParamDef.mk "string" true "Account UUID") ];
           ActionDef.queryParams :=
             Some [ ("limit", QueryParamDef.mk "number" "Items per page");
                    ("page", QueryParamDef.mk "number" "Page number");
                    ("metadata", QueryParamDef.mk "object" "Filter by metadata") ];
           ActionDef.input := None;
           ActionDef.description := "List operations for a specific account";
           ActionDef.example := None |});
       ("get",
        {| ActionDef.method := "GET";
           ActionDef.path :=
             "/v1/organizations/:organizationId/ledgers/:ledgerId/accounts/:accountId/operations/:id";
           ActionDef.pathParams :=
             Some [ ("organizationId", ParamDef.mk "string" true "Organization UUID");
                    ("ledgerId", ParamDef.mk "string" true "Ledger UUID");
                    ("accountId", ParamDef.mk "string" true "Account UUID");
                    ("id", ParamDef.mk "string" true "Operation UUID") ];
           ActionDef.queryParams := None;
           ActionDef.input := None;
           ActionDef.description := "Get a specific operation";
           ActionDef.example := None |});
       ("update",
        {| ActionDef.method := "PATCH";
           ActionDef.path :=
             "/v1/organizations/:organizationId/ledgers/:ledgerId/accounts/:accountId/operations/:id";
           ActionDef.pathParams :=
             Some [ ("organizationId", ParamDef.mk "string" true "Organization UUID");
                    ("ledgerId", ParamDef.mk "string" true "Ledger UUID");
                    ("accountId", ParamDef.mk "string" true "Account UUID");
                    ("id", ParamDef.mk "string" true "Operation UUID") ];
           ActionDef.queryParams := None;
           ActionDef.input :=
             Some (VObj
                     [ ("description", VObj
                         [ ("type", VStr "string");
                           ("required", VBool false);
                           ("description", VStr "Updated description") ]);
                       ("metadata", VObj
                         [ ("type", VStr "object");
                           ("required", VBool false);
                           ("description", VStr "Updated metadata") ]) ]);
           ActionDef.description := "Update an operation (description and metadata only)";
           ActionDef.example := None |}) ] |}.

(** [balancesSchema] of [schemas/balances.js] *)
Definition balancesSchema : ResourceSchema.t :=
  {| ResourceSchema.resource := "balances";
     ResourceSchema.component := "transaction";
     ResourceSchema.description :=
       "Account balances tracking available/onHold amounts per asset with multi-key support";
     ResourceSchema.actions :=
     [ ("get",
        {| ActionDef.method := "GET";
           ActionDef.path :=
             "/v1/organizations/:organizationId/ledgers/:ledgerId/accounts/:accountId/balances/:id";
           ActionDef.pathParams :=
             Some [ ("organizationId", ParamDef.mk "string" true "Organization UUID");
                    ("ledgerId", ParamDef.mk "string" true "Ledger UUID");
                    ("accountId", ParamDef.mk "string" true "Account UUID");
                    ("id", ParamDef.mk "string" true "Balance UUID") ];
           ActionDef.queryParams := None;
           ActionDef.input := None;
           ActionDef.description := "Get balance by ID";
           ActionDef.example := None |});
       ("getByAccount",
        {| ActionDef.method := "GET";
           ActionDef.path :=
             "/v1/organizations/:organizationId/ledgers/:ledgerId/accounts/:accountId/balances";
           ActionDef.pathParams :=
             Some [ ("organizationId", ParamDef.mk "string" true "Organization UUID");
                    ("ledgerId", ParamDef.mk "string" true "Ledger UUID");
                    ("accountId", ParamDef.mk "string" true "Account UUID") ];
           ActionDef.queryParams :=
             Some [ ("limit", QueryParamDef.mk "number" "Items per page");
                    ("page", QueryParamDef.mk "number" "Page number") ];
           ActionDef.input := None;
           ActionDef.description := "List balances for a specific account";
           ActionDef.example := None |});
       ("getByAlias",
        {| ActionDef.method := "GET";
           ActionDef.path :=
             "/v1/organizations/:organizationId/ledgers/:ledgerId/balances/aliases/:alias";
           ActionDef.pathParams :=
             Some [ ("organizationId", ParamDef.mk "string" true "Organization UUID");
                    ("ledgerId", ParamDef.mk "string" true "Ledger UUID");
                    ("alias", ParamDef.mk "string" true "Account alias (e.g. @treasury)") ];
           ActionDef.queryParams := None;
           ActionDef.input := None;
           ActionDef.description := "Get balances by account alias";
           ActionDef.example := None |});
       ("getByExternalId",
        {| ActionDef.method := "GET";
           ActionDef.path :=
             "/v1/organizations/:organizationId/ledgers/:ledgerId/balances/external/:externalId";
           ActionDef.pathParams :=
             Some [ ("organizationId", ParamDef.mk "string" true "Organization UUID");
                    ("ledgerId", ParamDef.mk "string" true "Ledger UUID");
                    ("externalId", ParamDef.mk "string" true "External system identifier") ];
           ActionDef.queryParams := None;
           ActionDef.input := None;
           ActionDef.description := "Get balances by external ID";
           ActionDef.example := None |});
       ("list",
        {| ActionDef.method := "GET";
           ActionDef.path :=
             "/v1/organizations/:organizationId/ledgers/:ledgerId/balances";
           ActionDef.pathParams :=
             Some [ ("organizationId", ParamDef.mk "string" true "Organization UUID");
                    ("ledgerId", ParamDef.mk "string" true "Ledger UUID") ];
           ActionDef.queryParams :=
             Some [ ("limit", QueryParamDef.mk "number" "Items per page");
                    ("page", QueryParamDef.mk "number" "Page number") ];
           ActionDef.input := None;
           ActionDef.description := "List all balances in a ledger";
           ActionDef.example := None |});
       ("createAdditional",
        {| ActionDef.method := "POST";
           ActionDef.path :=
             "/v1/organizations/:organizationId/ledgers/:ledgerId/accounts/:accountId/balances";
           ActionDef.pathParams :=
             Some [ ("organizationId", ParamDef.mk "string" true "Organization UUID");
                    ("ledgerId", ParamDef.mk "string" true "Ledger UUID");
                    ("accountId", ParamDef.mk "string" true "Account UUID") ];
           ActionDef.queryParams := None;
           ActionDef.input :=
             Some (VObj
                     [ ("key", VObj
                         [ ("type", VStr "string");
                           ("required", VBool true);
                           ("description", VStr ("Unique balance key (max 100, no whitespace, e.g. " +:+ dq +:+ "asset-freeze" +:+ dq +:+ ")")) ]);
                       ("allowSending", VObj
                         [ ("type", VStr "boolean");
                           ("required", VBool false);
                           ("description", VStr "Allow sending from this balance") ]);
                       ("allowReceiving", VObj
                         [ ("type", VStr "boolean");
                           ("required", VBool false);
                           ("description", VStr "Allow receiving to this balance") ]) ]);
           ActionDef.description := "Create an additional balance with a custom key (e.g. asset-freeze)";
           ActionDef.example :=
             Some (VObj
                     [ ("key", VStr "asset-freeze");
                       ("allowSending", VBool false);
                       ("allowReceiving", VBool true) ]) |});
       ("update",
        {| ActionDef.method := "PATCH";
           ActionDef.path :=
             "/v1/organizations/:organizationId/ledgers/:ledgerId/accounts/:accountId/balances/:id";
           ActionDef.pathParams :=
             Some [ ("organizationId", ParamDef.mk "string" true "Organization UUID");
                    ("ledgerId", ParamDef.mk "string" true "Ledger UUID");
                    ("accountId", ParamDef.mk "string" true "Account UUID");
                    ("id", ParamDef.mk "string" true "Balance UUID") ];
           ActionDef.queryParams := None;
           ActionDef.input :=
             Some (VObj
                     [ ("allowSending", VObj
                         [ ("type", VStr "boolean");
                           ("required", VBool false);
                           ("description", VStr "Allow sending from this balance") ]);
                       ("allowReceiving", VObj
                         [ ("type", VStr "boolean");
                           ("required", VBool false);
                           ("description", VStr "Allow receiving to this balance") ]) ]);
           ActionDef.description := "Update balance permissions";
           ActionDef.example := None |});
       ("delete",
        {| ActionDef.method := "DELETE";
           ActionDef.path :=
             "/v1/organizations/:organizationId/ledgers/:ledgerId/accounts/:accountId/balances/:id";
           ActionDef.pathParams :=
             Some [ ("organizationId", ParamDef.mk "string" true "Organization UUID");
                    ("ledgerId", ParamDef.mk "string" true "Ledger UUID");
                    ("accountId", ParamDef.mk "string" true "Account UUID");
                    ("id", ParamDef.mk "string" true "Balance UUID") ];
           ActionDef.queryParams := None;
           ActionDef.input := None;
           ActionDef.description := "Delete a balance";
           ActionDef.example := None |}) ] |}.

(** [assetRatesSchema] of [schemas/asset-rates.js] *)
Definition assetRatesSchema : ResourceSchema.t :=
  {| ResourceSchema.resource := "asset-rates";
     ResourceSchema.component := "transaction";
     ResourceSchema.description :=
       "Currency/asset conversion rates for cross-asset transactions";
     ResourceSchema.actions :=
     [ ("createOrUpdate",
        {| ActionDef.method := "PUT";
           ActionDef.path :=
             "/v1/organizations/:organizationId/ledgers/:ledgerId/asset-rates";
           ActionDef.pathParams :=
             Some [ ("organizationId", ParamDef.mk "string" true "Organization UUID");
                    ("ledgerId", ParamDef.mk "string" true "Ledger UUID") ];
           ActionDef.queryParams := None;
           ActionDef.input :=
             Some (VObj
                     [ ("from", VObj
                         [ ("type", VStr "string");
                           ("required", VBool true);
                           ("description", VStr "Source asset code (e.g. USD)") ]);
                       ("to", VObj
                         [ ("type", VStr "string");
                           ("required", VBool true);
                           ("description", VStr "Target asset code (e.g. BRL)") ]);
                       ("rate", VObj
                         [ ("type", VStr "number");
                           ("required", VBool true);
                           ("description", VStr "Conversion rate value") ]);
                       ("scale", VObj
                         [ ("type", VStr "number");
                           ("required", VBool false);
                           ("description", VStr "Decimal places for the rate") ]);
                       ("source", VObj
                         [ ("type", VStr "string");
                           ("required", VBool false);
                           ("description", VStr ("Rate source (e.g. " +:+ dq +:+ "Central Bank" +:+ dq +:+ ")")) ]);
                       ("ttl", VObj
                         [ ("type", VStr "number");
                           ("required", VBool false);
                           ("description", VStr "Time-to-live in seconds") ]);
                       ("externalId", VObj
                         [ ("type", VStr "string");
                           ("required", VBool false);
                           ("description", VStr "External identifier (UUID)") ]);
                       ("metadata", VObj
                         [ ("type", VStr "object");
                           ("required", VBool false);
                           ("description", VStr "Custom key-value pairs") ]) ]);
           ActionDef.description := "Create or update an asset rate (upsert)";
           ActionDef.example :=
             Some (VObj
                     [ ("from", VStr "USD");
                       ("to", VStr "BRL");
                       ("rate", VNum 500);
                       ("scale", VNum 2);
                       ("source", VStr "Central Bank");
                       ("ttl", VNum 3600) ]) |});
       ("getByExternalId",
        {| ActionDef.method := "GET";
           ActionDef.path :=
             "/v1/organizations/:organizationId/ledgers/:ledgerId/asset-rates/external/:externalId";
           ActionDef.pathParams :=
             Some [ ("organizationId", ParamDef.mk "string" true "Organization UUID");
                    ("ledgerId", ParamDef.mk "string" true "Ledger UUID");
                    ("externalId", ParamDef.mk "string" true "External ID") ];
           ActionDef.queryParams := None;
           ActionDef.input := None;
           ActionDef.description := "Get asset rate by external ID";
           ActionDef.example := None |});
       ("getByAssetCode",
        {| ActionDef.method := "GET";
           ActionDef.path :=
             "/v1/organizations/:organizationId/ledgers/:ledgerId/asset-rates/:assetCode";
           ActionDef.pathParams :=
             Some [ ("organizationId", ParamDef.mk "string" true "Organization UUID");
                    ("ledgerId", ParamDef.mk "string" true "Ledger UUID");
                    ("assetCode", ParamDef.mk "string" true "Asset code to look up rates for") ];
           ActionDef.queryParams := None;
           ActionDef.input := None;
           ActionDef.description := "Get asset rate by asset code";
           ActionDef.example := None |}) ] |}.

(** [operationRoutesSchema] of [schemas/operation-routes.js] *)
Definition operationRoutesSchema : ResourceSchema.t :=
  {| ResourceSchema.resource := "operation-routes";
     ResourceSchema.component := "transaction";
     ResourceSchema.description :=
       "Rule-based routing for operations with account selection rules (alias or account_type matching)";
     ResourceSchema.actions :=
     [ ("create",
        {| ActionDef.method := "POST";
           ActionDef.path :=
             "/v1/organizations/:organizationId/ledgers/:ledgerId/operation-routes";
           ActionDef.pathParams :=
             Some [ ("organizationId", ParamDef.mk "string" true "Organization UUID");
                    ("ledgerId", ParamDef.mk "string" true "Ledger UUID") ];
           ActionDef.queryParams := None;
           ActionDef.input :=
             Some (VObj
                     [ ("title", VObj
                         [ ("type", VStr "string");
                           ("required", VBool true);
                           ("description", VStr "Route title (max 256 chars)") ]);
                       ("operationType", VObj
                         [ ("type", VStr "string");
                           ("required", VBool true);
                           ("description", VStr ("Operation type: " +:+ dq +:+ "source" +:+ dq +:+ " or " +:+ dq +:+ "destination" +:+ dq)) ]);
                       ("code", VObj
                         [ ("type", VStr "string");
                           ("required", VBool false);
                           ("description", VStr "Route code (max 100 chars)") ]);
                       ("description", VObj
                         [ ("type", VStr "string");
                           ("required", VBool false);
                           ("description", VStr "Route description (max 500 chars)") ]);
                       ("account", VObj
                         [ ("type", VStr "object");
                           ("required", VBool false);
                           ("description", VStr "Account selection rule");
                           ("properties", VObj
                             [ ("ruleType", VObj
                                 [ ("type", VStr "string");
                                   ("description", VStr (dq +:+ "alias" +:+ dq +:+ " (match by alias) or " +:+ dq +:+ "account_type" +:+ dq +:+ " (match by type)")) ]);
                               ("validIf", VObj
                                 [ ("type", VStr "any");
                                   ("description", VStr "For alias: string pattern. For account_type: array of type key values") ]) ]) ]);
                       ("metadata", VObj
                         [ ("type", VStr "object");
                           ("required", VBool false);
                           ("description", VStr "Custom key-value pairs") ]) ]);
           ActionDef.description := "Create an operation route with account selection rules";
           ActionDef.example :=
             Some (VObj
                     [ ("title", VStr "Source from checking accounts");
                       ("operationType", VStr "source");
                       ("code", VStr "SRC_CHECKING");
                       ("account", VObj
                         [ ("ruleType", VStr "account_type");
                           ("validIf", VArr [VStr "checking"; VStr "savings"]) ]) ]) |});
       ("get",
        {| ActionDef.method := "GET";
           ActionDef.path :=
             "/v1/organizations/:organizationId/ledgers/:ledgerId/operation-routes/:id";
           ActionDef.pathParams :=
             Some [ ("organizationId", ParamDef.mk "string" true "Organization UUID");
                    ("ledgerId", ParamDef.mk "string" true "Ledger UUID");
                    ("id", ParamDef.mk "string" true "Operation Route UUID") ];
           ActionDef.queryParams := None;
           ActionDef.input := None;
           ActionDef.description := "Get operation route by ID";
           ActionDef.example := None |});
       ("list",
        {| ActionDef.method := "GET";
           ActionDef.path :=
             "/v1/organizations/:organizationId/ledgers/:ledgerId/operation-routes";
           ActionDef.pathParams :=
             Some [ ("organizationId", ParamDef.mk "string" true "Organization UUID");
                    ("ledgerId", ParamDef.mk "string" true "Ledger UUID") ];
           ActionDef.queryParams :=
             Some [ ("limit", QueryParamDef.mk "number" "Items per page");
                    ("page", QueryParamDef.mk "number" "Page number") ];
           ActionDef.input := None;
           ActionDef.description := "List operation routes in a ledger";
           ActionDef.example := None |});
       ("update",
        {| ActionDef.method := "PATCH";
           ActionDef.path :=
             "/v1/organizations/:organizationId/ledgers/:ledgerId/operation-routes/:id";
           ActionDef.pathParams :=
             Some [ ("organizationId", ParamDef.mk "string" true "Organization UUID");
                    ("ledgerId", ParamDef.mk "string" true "Ledger UUID");
                    ("id", ParamDef.mk "string" true "Operation Route UUID") ];
           ActionDef.queryParams := None;
           ActionDef.input :=
             Some (VObj
                     [ ("title", VObj
                         [ ("type", VStr "string");
                           ("required", VBool false);
                           ("description", VStr "Updated title") ]);
                       ("description", VObj
                         [ ("type", VStr "string");
                           ("required", VBool false);
                           ("description", VStr "Updated description") ]);
                       ("account", VObj
                         [ ("type", VStr "object");
                           ("required", VBool false);
                           ("description", VStr "Updated account rule") ]);
                       ("metadata", VObj
                         [ ("type", VStr "object");
                           ("required", VBool false);
                           ("description", VStr "Updated metadata") ]) ]);
           ActionDef.description := "Update an operation route";
           ActionDef.example := None |});
       ("delete",
        {| ActionDef.method := "DELETE";
           ActionDef.path :=
             "/v1/organizations/:organizationId/ledgers/:ledgerId/operation-routes/:id";
           ActionDef.pathParams :=
             Some [ ("organizationId", ParamDef.mk "string" true "Organization UUID");
                    ("ledgerId", ParamDef.mk "string" true "Ledger UUID");
                    ("id", ParamDef.mk "string" true "Operation Route UUID") ];
           ActionDef.queryParams := None;
           ActionDef.input := None;
           ActionDef.description := "Delete an operation route";
           ActionDef.example := None |}) ] |}.

(** [transactionRoutesSchema] of [schemas/transaction-routes.js] *)
Definition transactionRoutesSchema : ResourceSchema.t :=
  {| ResourceSchema.resource := "transaction-routes";
     ResourceSchema.component := "transaction";
     ResourceSchema.description :=
       "Composite routing that combines multiple operation routes for transaction processing";
     ResourceSchema.actions :=
     [ ("create",
        {| ActionDef.method := "POST";
           ActionDef.path :=
             "/v1/organizations/:organizationId/ledgers/:ledgerId/transaction-routes";
           ActionDef.pathParams :=
             Some [ ("organizationId", ParamDef.mk "string" true "Organization UUID");
                    ("ledgerId", ParamDef.mk "string" true "Ledger UUID") ];
           ActionDef.queryParams := None;
           ActionDef.input :=
             Some (VObj
                     [ ("title", VObj
                         [ ("type", VStr "string");
                           ("required", VBool true);
                           ("description", VStr "Route title (max 256 chars)") ]);
                       ("operationRoutes", VObj
                         [ ("type", VStr "array");
                           ("required", VBool true);
                           ("description", VStr "Array of Operation Route UUIDs to combine") ]);
                       ("description", VObj
                         [ ("type", VStr "string");
                           ("required", VBool false);
                           ("description", VStr "Route description (max 500 chars)") ]);
                       ("metadata", VObj
                         [ ("type", VStr "object");
                           ("required", VBool false);
                           ("description", VStr "Custom key-value pairs") ]) ]);
           ActionDef.description := "Create a transaction route from existing operation routes";
           ActionDef.example :=
             Some (VObj
                     [ ("title", VStr "Checking-to-Savings Transfer");
                       ("operationRoutes", VArr [VStr "<source-op-route-uuid>"; VStr "<dest-op-route-uuid>"]);
                       ("description", VStr "Route for internal transfers between checking and savings accounts") ]) |});
       ("get",
        {| ActionDef.method := "GET";
           ActionDef.path :=
             "/v1/organizations/:organizationId/ledgers/:ledgerId/transaction-routes/:id";
           ActionDef.pathParams :=
             Some [ ("organizationId", ParamDef.mk "string" true "Organization UUID");
                    ("ledgerId", ParamDef.mk "string" true "Ledger UUID");
                    ("id", ParamDef.mk "string" true "Transaction Route UUID") ];
           ActionDef.queryParams := None;
           ActionDef.input := None;
           ActionDef.description := "Get transaction route by ID";
           ActionDef.example := None |});
       ("list",
        {| ActionDef.method := "GET";
           ActionDef.path :=
             "/v1/organizations/:organizationId/ledgers/:ledgerId/transaction-routes";
           ActionDef.pathParams :=
             Some [ ("organizationId", ParamDef.mk "string" true "Organization UUID");
                    ("ledgerId", ParamDef.mk "string" true "Ledger UUID") ];
           ActionDef.queryParams :=
             Some [ ("limit", QueryParamDef.mk "number" "Items per page");
                    ("page", QueryParamDef.mk "number" "Page number") ];
           ActionDef.input := None;
           ActionDef.description := "List transaction routes in a ledger";
           ActionDef.example := None |});
       ("update",
        {| ActionDef.method := "PATCH";
           ActionDef.path :=
             "/v1/organizations/:organizationId/ledgers/:ledgerId/transaction-routes/:id";
           ActionDef.pathParams :=
             Some [ ("organizationId", ParamDef.mk "string" true "Organization UUID");
                    ("ledgerId", ParamDef.mk "string" true "Ledger UUID");
                    ("id", ParamDef.mk "string" true "Transaction Route UUID") ];
           ActionDef.queryParams := None;
           ActionDef.input :=
             Some (VObj
                     [ ("title", VObj
                         [ ("type", VStr "string");
                           ("required", VBool false);
                           ("description", VStr "Updated title") ]);
                       ("description", VObj
                         [ ("type", VStr "string");
                           ("required", VBool false);
                           ("description", VStr "Updated description") ]);
                       ("operationRoutes", VObj
                         [ ("type", VStr "array");
                           ("required", VBool false);
                           ("description", VStr "Updated operation route UUIDs") ]);
                       ("metadata", VObj
                         [ ("type", VStr "object");
                           ("required", VBool false);
                           ("description", VStr "Updated metadata") ]) ]);
           ActionDef.description := "Update a transaction route";
           ActionDef.example := None |});
       ("delete",
        {| ActionDef.method := "DELETE";
           ActionDef.path :=
             "/v1/organizations/:organizationId/ledgers/:ledgerId/transaction-routes/:id";
           ActionDef.pathParams :=
             Some [ ("organizationId", ParamDef.mk "string" true "Organization UUID");
                    ("ledgerId", ParamDef.mk "string" true "Ledger UUID");
                    ("id", ParamDef.mk "string" true "Transaction Route UUID") ];
           ActionDef.queryParams := None;
           ActionDef.input := None;
           ActionDef.description := "Delete a transaction route";
           ActionDef.example := None |}) ] |}.

(** [metadataIndexesSchema] of [schemas/metadata-indexes.js] *)
Definition metadataIndexesSchema : ResourceSchema.t :=
  {| ResourceSchema.resource := "metadata-indexes";
     ResourceSchema.component := "ledger";
     ResourceSchema.description :=
       "MongoDB indexes on custom metadata fields for optimized querying (supports transaction, operation, operation_route, transaction_route entities)";
     ResourceSchema.actions :=
     [ ("create",
        {| ActionDef.method := "POST";
           ActionDef.path :=
             "/v1/organizations/:organizationId/ledgers/:ledgerId/metadata-indexes/:entityName";
           ActionDef.pathParams :=
             Some [ ("organizationId", ParamDef.mk "string" true "Organization UUID");
                    ("ledgerId", ParamDef.mk "string" true "Ledger UUID");
                    ("entityName", ParamDef.mk "string" true "Entity type: transaction, operation, operation_route, or transaction_route") ];
           ActionDef.queryParams := None;
           ActionDef.input :=
             Some (VObj
                     [ ("metadataKey", VObj
                         [ ("type", VStr "string");
                           ("required", VBool true);
                           ("description", VStr ("Metadata key to index (max 100 chars, without " +:+ dq +:+ "metadata." +:+ dq +:+ " prefix)")) ]);
                       ("unique", VObj
                         [ ("type", VStr "boolean");
                           ("required", VBool false);
                           ("description", VStr "Enforce uniqueness (default false)") ]);
                       ("sparse", VObj
                         [ ("type", VStr "boolean");
                           ("required", VBool false);
                           ("description", VStr "Only include documents with the field (default true)") ]) ]);
           ActionDef.description := "Create a metadata index on an entity collection";
           ActionDef.example :=
             Some (VObj
                     [ ("metadataKey", VStr "tier");
                       ("unique", VBool false);
                       ("sparse", VBool true) ]) |});
       ("list",
        {| ActionDef.method := "GET";
           ActionDef.path :=
             "/v1/organizations/:organizationId/ledgers/:ledgerId/metadata-indexes";
           ActionDef.pathParams :=
             Some [ ("organizationId", ParamDef.mk "string" true "Organization UUID");
                    ("ledgerId", ParamDef.mk "string" true "Ledger UUID") ];
           ActionDef.queryParams :=
             Some [ ("limit", QueryParamDef.mk "number" "Items per page");
                    ("page", QueryParamDef.mk "number" "Page number") ];
           ActionDef.input := None;
           ActionDef.description := "List all metadata indexes in a ledger (includes usage statistics)";
           ActionDef.example := None |});
       ("delete",
        {| ActionDef.method := "DELETE";
           ActionDef.path :=
             "/v1/organizations/:organizationId/ledgers/:ledgerId/metadata-indexes/:entityName/:metadataKey";
           ActionDef.pathParams :=
             Some [ ("organizationId", ParamDef.mk "string" true "Organization UUID");
                    ("ledgerId", ParamDef.mk "string" true "Ledger UUID");
                    ("entityName", ParamDef.mk "string" true "Entity type");
                    ("metadataKey", ParamDef.mk "string" true "Metadata key to remove index for") ];
           ActionDef.queryParams := None;
           ActionDef.input := None;
           ActionDef.description := "Delete a metadata index";
           ActionDef.example := None |}) ] |}.

(** [holdersSchema] of [schemas/holders.js] *)
Definition holdersSchema : ResourceSchema.t :=
  {| ResourceSchema.resource := "holders";
     ResourceSchema.component := "crm";
     ResourceSchema.description :=
       "Customer/entity management - natural persons or legal persons with addresses, contacts, and documents";
     ResourceSchema.actions :=
     [ ("create",
        {| ActionDef.method := "POST";
           ActionDef.path :=
             "/v1/organizations/:organizationId/ledgers/:ledgerId/holders";
           ActionDef.pathParams :=
             Some [ ("organizationId", ParamDef.mk "string" true "Organization UUID");
                    ("ledgerId", ParamDef.mk "string" true "Ledger UUID") ];
           ActionDef.queryParams := None;
           ActionDef.input :=
             Some (VObj
                     [ ("name", VObj
                         [ ("type", VStr "string");
                           ("required", VBool true);
                           ("description", VStr "Full name (max 256 chars)") ]);
                       ("type", VObj
                         [ ("type", VStr "string");
                           ("required", VBool true);
                           ("description", VStr "NATURAL_PERSON or LEGAL_PERSON") ]);
                       ("document", VObj
                         [ ("type", VStr "string");
                           ("required", VBool true);
                           ("description", VStr "Primary identification document (max 256 chars)") ]);
                       ("externalId", VObj
                         [ ("type", VStr "string");
                           ("required", VBool false);
                           ("description", VStr "External system identifier") ]);
                       ("addresses", VObj
                         [ ("type", VStr "object");
                           ("required", VBool false);
                           ("description", VStr "Addresses (primary, additional1, additional2)");
                           ("properties", VObj
                             [ ("primary", VObj
                                 [ ("type", VStr "object");
                                   ("description", VStr "{ line1, line2, zipCode, city, state, country }") ]);
                               ("additional1", VObj
                                 [ ("type", VStr "object");
                                   ("description", VStr "Second address (same structure)") ]);
                               ("additional2", VObj
                                 [ ("type", VStr "object");
                                   ("description", VStr "Third address (same structure)") ]) ]) ]);
                       ("contact", VObj
                         [ ("type", VStr "object");
                           ("required", VBool false);
                           ("description", VStr "Contact information");
                           ("properties", VObj
                             [ ("primaryEmail", VObj
                                 [ ("type", VStr "string");
                                   ("description", VStr "Primary email") ]);
                               ("secondaryEmail", VObj
                                 [ ("type", VStr "string");
                                   ("description", VStr "Secondary email") ]);
                               ("mobilePhone", VObj
                                 [ ("type", VStr "string");
                                   ("description", VStr "Mobile phone number") ]);
                               ("otherPhone", VObj
                                 [ ("type", VStr "string");
                                   ("description", VStr "Other phone number") ]) ]) ]);
                       ("naturalPerson", VObj
                         [ ("type", VStr "object");
                           ("required", VBool false);
                           ("description", VStr "Natural person details (only for NATURAL_PERSON type)");
                           ("properties", VObj
                             [ ("favoriteName", VObj
                                 [ ("type", VStr "string");
                                   ("description", VStr "Preferred name") ]);
                               ("socialName", VObj
                                 [ ("type", VStr "string");
                                   ("description", VStr "Social/chosen name") ]);
                               ("gender", VObj [("type", VStr "string"); ("description", VStr "Gender")]);
                               ("birthDate", VObj
                                 [ ("type", VStr "string");
                                   ("description", VStr "Birth date (YYYY-MM-DD)") ]);
                               ("civilStatus", VObj
                                 [ ("type", VStr "string");
                                   ("description", VStr "Marital status") ]);
                               ("nationality", VObj
                                 [ ("type", VStr "string");
                                   ("description", VStr "Nationality") ]);
                               ("motherName", VObj
                                 [ ("type", VStr "string");
                                   ("description", VStr "Mother's name") ]);
                               ("fatherName", VObj
                                 [ ("type", VStr "string");
                                   ("description", VStr "Father's name") ]);
                               ("status", VObj
                                 [ ("type", VStr "string");
                                   ("description", VStr "Person status") ]) ]) ]);
                       ("legalPerson", VObj
                         [ ("type", VStr "object");
                           ("required", VBool false);
                           ("description", VStr "Legal person details (only for LEGAL_PERSON type)");
                           ("properties", VObj
                             [ ("tradeName", VObj
                                 [ ("type", VStr "string");
                                   ("description", VStr "Trading name") ]);
                               ("activity", VObj
                                 [ ("type", VStr "string");
                                   ("description", VStr "Business activity") ]);
                               ("type", VObj
                                 [ ("type", VStr "string");
                                   ("description", VStr "Company type") ]);
                               ("foundingDate", VObj
                                 [ ("type", VStr "string");
                                   ("description", VStr "Founding date (YYYY-MM-DD)") ]);
                               ("size", VObj
                                 [ ("type", VStr "string");
                                   ("description", VStr "Company size") ]);
                               ("status", VObj
                                 [ ("type", VStr "string");
                                   ("description", VStr "Company status") ]);
                               ("representative", VObj
                                 [ ("type", VStr "object");
                                   ("description", VStr "Legal representative");
                                   ("properties", VObj
                                     [ ("name", VObj [("type", VStr "string")]);
                                       ("document", VObj [("type", VStr "string")]);
                                       ("email", VObj [("type", VStr "string")]);
                                       ("role", VObj [("type", VStr "string")]) ]) ]) ]) ]);
                       ("metadata", VObj
                         [ ("type", VStr "object");
                           ("required", VBool false);
                           ("description", VStr "Custom key-value pairs") ]) ]);
           ActionDef.description := "Create a new holder (customer/entity)";
           ActionDef.example :=
             Some (VObj
                     [ ("name", VStr "John Doe");
                       ("type", VStr "NATURAL_PERSON");
                       ("document", VStr "123.456.789-00");
                       ("contact", VObj
                         [ ("primaryEmail", VStr "john@example.com");
                           ("mobilePhone", VStr "+5511999999999") ]);
                       ("naturalPerson", VObj [("birthDate", VStr "1990-01-15"); ("nationality", VStr "BR")]) ]) |});
       ("get",
        {| ActionDef.method := "GET";
           ActionDef.path :=
             "/v1/organizations/:organizationId/ledgers/:ledgerId/holders/:id";
           ActionDef.pathParams :=
             Some [ ("organizationId", ParamDef.mk "string" true "Organization UUID");
                    ("ledgerId", ParamDef.mk "string" true "Ledger UUID");
                    ("id", ParamDef.mk "string" true "Holder UUID") ];
           ActionDef.queryParams := None;
           ActionDef.input := None;
           ActionDef.description := "Get holder by ID";
           ActionDef.example := None |});
       ("list",
        {| ActionDef.method := "GET";
           ActionDef.path :=
             "/v1/organizations/:organizationId/ledgers/:ledgerId/holders";
           ActionDef.pathParams :=
             Some [ ("organizationId", ParamDef.mk "string" true "Organization UUID");
                    ("ledgerId", ParamDef.mk "string" true "Ledger UUID") ];
           ActionDef.queryParams :=
             Some [ ("limit", QueryParamDef.mk "number" "Items per page");
                    ("page", QueryParamDef.mk "number" "Page number") ];
           ActionDef.input := None;
           ActionDef.description := "List holders in a ledger";
           ActionDef.example := None |});
       ("update",
        {| ActionDef.method := "PATCH";
           ActionDef.path :=
             "/v1/organizations/:organizationId/ledgers/:ledgerId/holders/:id";
           ActionDef.pathParams :=
             Some [ ("organizationId", ParamDef.mk "string" true "Organization UUID");
                    ("ledgerId", ParamDef.mk "string" true "Ledger UUID");
                    ("id", ParamDef.mk "string" true "Holder UUID") ];
           ActionDef.queryParams := None;
           ActionDef.input :=
             Some (VObj
                     [ ("name", VObj
                         [ ("type", VStr "string");
                           ("required", VBool false);
                           ("description", VStr "Updated name") ]);
                       ("addresses", VObj
                         [ ("type", VStr "object");
                           ("required", VBool false);
                           ("description", VStr "Updated addresses") ]);
                       ("contact", VObj
                         [ ("type", VStr "object");
                           ("required", VBool false);
                           ("description", VStr "Updated contact") ]);
                       ("naturalPerson", VObj
                         [ ("type", VStr "object");
                           ("required", VBool false);
                           ("description", VStr "Updated natural person details") ]);
                       ("legalPerson", VObj
                         [ ("type", VStr "object");
                           ("required", VBool false);
                           ("description", VStr "Updated legal person details") ]);
                       ("metadata", VObj
                         [ ("type", VStr "object");
                           ("required", VBool false);
                           ("description", VStr "Updated metadata") ]) ]);
           ActionDef.description := "Update a holder";
           ActionDef.example := None |});
       ("delete",
        {| ActionDef.method := "DELETE";
           ActionDef.path :=
             "/v1/organizations/:organizationId/ledgers/:ledgerId/holders/:id";
           ActionDef.pathParams :=
             Some [ ("organizationId", ParamDef.mk "string" true "Organization UUID");
                    ("ledgerId", ParamDef.mk "string" true "Ledger UUID");
                    ("id", ParamDef.mk "string" true "Holder UUID") ];
           ActionDef.queryParams := None;
           ActionDef.input := None;
           ActionDef.description := "Delete a holder";
           ActionDef.example := None |}) ] |}.

(** [aliasesSchema] of [schemas/aliases.js] *)
Definition aliasesSchema : ResourceSchema.t :=
  {| ResourceSchema.resource := "aliases";
     ResourceSchema.component := "crm";
     ResourceSchema.description :=
       "Banking aliases for holders with banking details, regulatory fields, and related parties";
     ResourceSchema.actions :=
     [ ("create",
        {| ActionDef.method := "POST";
           ActionDef.path :=
             "/v1/organizations/:organizationId/ledgers/:ledgerId/holders/:holderId/aliases";
           ActionDef.pathParams :=
             Some [ ("organizationId", ParamDef.mk "string" true "Organization UUID");
                    ("ledgerId", ParamDef.mk "string" true "Ledger UUID");
                    ("holderId", ParamDef.mk "string" true "Holder UUID") ];
           ActionDef.queryParams := None;
           ActionDef.input :=
             Some (VObj
                     [ ("ledgerId", VObj
                         [ ("type", VStr "string");
                           ("required", VBool true);
                           ("description", VStr "Ledger UUID for the alias") ]);
                       ("accountId", VObj
                         [ ("type", VStr "string");
                           ("required", VBool true);
                           ("description", VStr "Account UUID to associate") ]);
                       ("bankingDetails", VObj
                         [ ("type", VStr "object");
                           ("required", VBool false);
                           ("description", VStr "Banking information");
                           ("properties", VObj
                             [ ("branch", VObj
                                 [ ("type", VStr "string");
                                   ("description", VStr "Bank branch code") ]);
                               ("account", VObj
                                 [ ("type", VStr "string");
                                   ("description", VStr "Bank account number") ]);
                               ("type", VObj
                                 [ ("type", VStr "string");
                                   ("description", VStr "Account type (e.g. checking, savings)") ]);
                               ("openingDate", VObj
                                 [ ("type", VStr "string");
                                   ("description", VStr "Account opening date (YYYY-MM-DD)") ]);
                               ("closingDate", VObj
                                 [ ("type", VStr "string");
                                   ("description", VStr "Account closing date (YYYY-MM-DD)") ]);
                               ("iban", VObj
                                 [ ("type", VStr "string");
                                   ("description", VStr "International Bank Account Number") ]);
                               ("countryCode", VObj
                                 [ ("type", VStr "string");
                                   ("description", VStr "Country code (ISO 3166-1 alpha-2)") ]);
                               ("bankId", VObj
                                 [ ("type", VStr "string");
                                   ("description", VStr "Bank identifier code") ]) ]) ]);
                       ("regulatoryFields", VObj
                         [ ("type", VStr "object");
                           ("required", VBool false);
                           ("description", VStr "Regulatory compliance fields");
                           ("properties", VObj
                             [ ("participantDocument", VObj
                                 [ ("type", VStr "string");
                                   ("description", VStr "Participant document number") ]) ]) ]);
                       ("relatedParties", VObj
                         [ ("type", VStr "array");
                           ("required", VBool false);
                           ("description", VStr "List of related parties");
                           ("items", VObj
                             [ ("id", VObj
                                 [ ("type", VStr "string");
                                   ("description", VStr "Party identifier") ]);
                               ("document", VObj
                                 [ ("type", VStr "string");
                                   ("description", VStr "Party document") ]);
                               ("name", VObj
                                 [ ("type", VStr "string");
                                   ("description", VStr "Party name") ]);
                               ("role", VObj
                                 [ ("type", VStr "string");
                                   ("description", VStr "Relationship role") ]);
                               ("startDate", VObj
                                 [ ("type", VStr "string");
                                   ("description", VStr "Relationship start date") ]);
                               ("endDate", VObj
                                 [ ("type", VStr "string");
                                   ("description", VStr "Relationship end date") ]) ]) ]);
                       ("metadata", VObj
                         [ ("type", VStr "object");
                           ("required", VBool false);
                           ("description", VStr "Custom key-value pairs") ]) ]);
           ActionDef.description := "Create an alias for a holder";
           ActionDef.example :=
             Some (VObj
                     [ ("ledgerId", VStr "<ledger-uuid>");
                       ("accountId", VStr "<account-uuid>");
                       ("bankingDetails", VObj
                         [ ("branch", VStr "0001");
                           ("account", VStr "12345-6");
                           ("type", VStr "checking");
                           ("countryCode", VStr "BR") ]) ]) |});
       ("get",
        {| ActionDef.method := "GET";
           ActionDef.path :=
             "/v1/organizations/:organizationId/ledgers/:ledgerId/holders/:holderId/aliases/:id";
           ActionDef.pathParams :=
             Some [ ("organizationId", ParamDef.mk "string" true "Organization UUID");
                    ("ledgerId", ParamDef.mk "string" true "Ledger UUID");
                    ("holderId", ParamDef.mk "string" true "Holder UUID");
                    ("id", ParamDef.mk "string" true "Alias UUID") ];
           ActionDef.queryParams := None;
           ActionDef.input := None;
           ActionDef.description := "Get alias by ID";
           ActionDef.example := None |});
       ("listByHolder",
        {| ActionDef.method := "GET";
           ActionDef.path :=
             "/v1/organizations/:organizationId/ledgers/:ledgerId/holders/:holderId/aliases";
           ActionDef.pathParams :=
             Some [ ("organizationId", ParamDef.mk "string" true "Organization UUID");
                    ("ledgerId", ParamDef.mk "string" true "Ledger UUID");
                    ("holderId", ParamDef.mk "string" true "Holder UUID") ];
           ActionDef.queryParams :=
             Some [ ("limit", QueryParamDef.mk "number" "Items per page");
                    ("page", QueryParamDef.mk "number" "Page number") ];
           ActionDef.input := None;
           ActionDef.description := "List aliases for a specific holder";
           ActionDef.example := None |});
       ("listAll",
        {| ActionDef.method := "GET";
           ActionDef.path :=
             "/v1/organizations/:organizationId/ledgers/:ledgerId/aliases";
           ActionDef.pathParams :=
             Some [ ("organizationId", ParamDef.mk "string" true "Organization UUID");
                    ("ledgerId", ParamDef.mk "string" true "Ledger UUID") ];
           ActionDef.queryParams :=
             Some [ ("limit", QueryParamDef.mk "number" "Items per page");
                    ("page", QueryParamDef.mk "number" "Page number") ];
           ActionDef.input := None;
           ActionDef.description := "List all aliases in a ledger";
           ActionDef.example := None |});
       ("update",
        {| ActionDef.method := "PATCH";
           ActionDef.path :=
             "/v1/organizations/:organizationId/ledgers/:ledgerId/holders/:holderId/aliases/:id";
           ActionDef.pathParams :=
             Some [ ("organizationId", ParamDef.mk "string" true "Organization UUID");
                    ("ledgerId", ParamDef.mk "string" true "Ledger UUID");
                    ("holderId", ParamDef.mk "string" true "Holder UUID");
                    ("id", ParamDef.mk "string" true "Alias UUID") ];
           ActionDef.queryParams := None;
           ActionDef.input :=
             Some (VObj
                     [ ("bankingDetails", VObj
                         [ ("type", VStr "object");
                           ("required", VBool false);
                           ("description", VStr "Updated banking details") ]);
                       ("regulatoryFields", VObj
                         [ ("type", VStr "object");
                           ("required", VBool false);
                           ("description", VStr "Updated regulatory fields") ]);
                       ("relatedParties", VObj
                         [ ("type", VStr "array");
                           ("required", VBool false);
                           ("description", VStr "Updated related parties") ]);
                       ("metadata", VObj
                         [ ("type", VStr "object");
                           ("required", VBool false);
                           ("description", VStr "Updated metadata") ]) ]);
           ActionDef.description := "Update an alias";
           ActionDef.example := None |});
       ("delete",
        {| ActionDef.method := "DELETE";
           ActionDef.path :=
             "/v1/organizations/:organizationId/ledgers/:ledgerId/holders/:holderId/aliases/:id";
           ActionDef.pathParams :=
             Some [ ("organizationId", ParamDef.mk "string" true "Organization UUID");
                    ("ledgerId", ParamDef.mk "string" true "Ledger UUID");
                    ("holderId", ParamDef.mk "string" true "Holder UUID");
                    ("id", ParamDef.mk "string" true "Alias UUID") ];
           ActionDef.queryParams := None;
           ActionDef.input := None;
           ActionDef.description := "Delete an alias";
           ActionDef.example := None |});
       ("deleteRelatedParty",
        {| ActionDef.method := "DELETE";
           ActionDef.path :=
             "/v1/organizations/:organizationId/ledgers/:ledgerId/holders/:holderId/aliases/:id/related-parties/:partyId";
           ActionDef.pathParams :=
             Some [ ("organizationId", ParamDef.mk "string" true "Organization UUID");
                    ("ledgerId", ParamDef.mk "string" true "Ledger UUID");
                    ("holderId", ParamDef.mk "string" true "Holder UUID");
                    ("id", ParamDef.mk "string" true "Alias UUID");
                    ("partyId", ParamDef.mk "string" true "Related party ID") ];
           ActionDef.queryParams := None;
           ActionDef.input := None;
           ActionDef.description := "Delete a specific related party from an alias";
           ActionDef.example := None |}) ] |}.

End Schemas.

(** ** Registry ([src/api/schemas/index.js]) *)

Module Registry.
Import Schemas.

Definition allSchemas : list ResourceSchema.t :=
  [ organizationsSchema;
    ledgersSchema;
    assetsSchema;
    portfoliosSchema;
    segmentsSchema;
    accountsSchema;
    accountTypesSchema;
    transactionsSchema;
    operationsSchema;
    balancesSchema;
    assetRatesSchema;
    operationRoutesSchema;
    transactionRoutesSchema;
    metadataIndexesSchema;
    holdersSchema;
    aliasesSchema ].

(** [for (const schema of allSchemas) schemaMap.set(schema.resource, schema)] *)
Definition schemaMap : gmap string ResourceSchema.t :=
  foldl (fun m schema => <[ResourceSchema.resource schema := schema]> m) ∅ allSchemas.

(** [schemaMap.get(resource) || null] *)
Definition getSchema (resource : string) : option ResourceSchema.t :=
  schemaMap !! resource.

Definition getAllSchemas : list ResourceSchema.t := allSchemas.

Definition getSchemasByComponent (component : string) : list ResourceSchema.t :=
  List.filter (fun s => String.eqb (ResourceSchema.component s) component) allSchemas.

Definition findSchemas (query : string) : list ResourceSchema.t :=
  let q := JS.toLowerCase query in
  List.filter (fun s =>
            JS.includes (JS.toLowerCase (ResourceSchema.resource s)) q
            || JS.includes (JS.toLowerCase (ResourceSchema.description s)) q
            || JS.includes (JS.toLowerCase (ResourceSchema.component s)) q
            || existsb (fun a => JS.includes (JS.toLowerCase a) q)
                       (JS.keys (ResourceSchema.actions s)))
         allSchemas.

Record ResourceSummary : Type := mkSummary {
  sum_resource : string;
  sum_component : string;
  sum_description : string;
  sum_actions : list string }.

Definition listResources : list ResourceSummary :=
  map (fun s => {| sum_resource := ResourceSchema.resource s;
                   sum_component := ResourceSchema.component s;
                   sum_description := ResourceSchema.description s;
                   sum_actions := JS.keys (ResourceSchema.actions s) |})
      allSchemas.

End Registry.

(** ** Effects: thrown errors and the log of network calls *)

(** An [Error] object with the properties the dispatcher attaches and reads. *)
Module JsError.
Record t : Type := mk {
  name : string;
  message : string;
  status : option Z;
  statusText : option string;
  body : option JS.value;
  url : option string }.
End JsError.

(** [new Error(message)] *)
Definition Error (message : string) : JsError.t :=
  JsError.mk "Error" message None None None None.

(** The [TypeError] of a method call on [undefined]. *)
Definition TypeError_undefined (member : string) : JsError.t :=
  JsError.mk "TypeError"
    ("Cannot read properties of undefined (reading '" +:+ member +:+ "')")
    None None None None.

(** Node's [addNumericalSeparator], on the digits from the right: an [_]
    before every group of three digits but the leading one. *)
Fixpoint group_digits (n : nat) (digits : list ascii) : list ascii :=
  match digits with
  | [] => []
  | d :: rest =>
      match n, rest with
      | 2%nat, _ :: _ => d :: "_"%char :: group_digits 0 rest
      | _, _ => d :: group_digits (S n) rest
      end
  end.

Definition addNumericalSeparator (n : Z) : string :=
  (if n <? 0 then "-" else "")
  +:+ string_of_list_ascii
        (rev (group_digits 0 (rev (list_ascii_of_string (JS.string_of_Z (Z.abs n)))))).

(** The [RangeError] (code [ERR_OUT_OF_RANGE]) that [AbortSignal.timeout]
    raises for an integer delay [validateUint32] refuses, with the message of
    Node. *)
Definition RangeError_delay (delay : Z) : JsError.t :=
  JsError.mk "RangeError"
    ("The value of " +:+ String JS.dquote "delay" +:+ String JS.dquote ""
     +:+ " is out of range. It must be >= 0 && <= 4294967295. Received "
     +:+ (if 2 ^ 32 <? Z.abs delay then addNumericalSeparator delay
          else JS.string_of_Z delay))
    None None None None.

Inductive outcome (A : Type) : Type :=
| Return (a : A)
| Throw (e : JsError.t).
Arguments Return {A} a.
Arguments Throw {A} e.

(** The options object handed to [fetch]; [timeout] is the delay of
    [AbortSignal.timeout]. *)
Module FetchOptions.
Record t : Type := mk {
  method : string;
  headers : list (string * string);
  timeout : Z;
  body : option string }.
End FetchOptions.

(** The [Response] of [fetch].  Header names are lower-case, as the [Headers]
    class stores them; [json] and [text] are the results of reading the
    body. *)
Module Response.
Record t : Type := mk {
  status : Z;
  statusText : string;
  headers : list (string * string);
  json : outcome JS.value;
  text : outcome string }.

(** [response.ok] *)
Definition ok (r : t) : bool := (200 <=? status r) && (status r <=? 299).

(** [response.headers.get(name)] *)
Definition headers_get (r : t) (name : string) : option string :=
  JS.own (headers r) (JS.toLowerCase name).
End Response.

Definition FetchCall : Type := string * FetchOptions.t.

(** An asynchronous computation: it extends the log of [fetch] calls and
    either returns or throws. *)
Definition M (A : Type) : Type := list FetchCall -> outcome A * list FetchCall.

Definition ret {A : Type} (a : A) : M A := fun log => (Return a, log).
Definition throw {A : Type} (e : JsError.t) : M A := fun log => (Throw e, log).
Definition bind {A B : Type} (m : M A) (k : A -> M B) : M B :=
  fun log => match m log with
             | (Return a, log') => k a log'
             | (Throw e, log') => (Throw e, log')
             end.
Definition try_catch {A : Type} (m : M A) (handler : JsError.t -> M A) : M A :=
  fun log => match m log with
             | (Return a, log') => (Return a, log')
             | (Throw e, log') => handler e log'
             end.
Definition lift {A : Type} (o : outcome A) : M A := fun log => (o, log).

Notation "x <- m ;; k" := (bind m (fun x => k))
  (at level 100, m at next level, right associativity).

(** Runs a computation from an empty log. *)
Definition run {A : Type} (m : M A) : outcome A * list FetchCall := m [].

(** ** HTTP client ([src/api/client.js]) *)

Module Client.

(** The [midazApi] section of the configuration; an unset property is
    [None].  The timeout is an integer number of milliseconds. *)
Record MidazApi : Type := mkMidazApi {
  onboardingUrl : option string;
  transactionUrl : option string;
  crmUrl : option string;
  ledgerUrl : option string;
  timeout : option Z;
  authToken : option string }.

Record Config : Type := mkConfig { midazApi : option MidazApi }.

(** [config.midazApi || {}] *)
Definition midazApi_or_empty (config : Config) : MidazApi :=
  match midazApi config with
  | Some m => m
  | None => mkMidazApi None None None None None None
  end.

(** What [getComponentUrl] returns: a configured string, [undefined], or a
    member inherited by the [urlMap] literal. *)
Inductive UrlValue : Type :=
| UrlString (s : string)
| UrlUndefined
| UrlInherited (k : string).

(** [`${baseUrl}`] *)
Definition url_text (u : UrlValue) : string :=
  match u with
  | UrlString s => s
  | UrlUndefined => "undefined"
  | UrlInherited k => JS.inherited_to_string k
  end.

Definition getComponentUrl (midazApi : MidazApi) (component : string) : UrlValue :=
  let urlMap :=
    [ ("onboarding", onboardingUrl midazApi);
      ("transaction", transactionUrl midazApi);
      ("crm", crmUrl midazApi);
      ("ledger", ledgerUrl midazApi) ] in
  let fallback :=
    match onboardingUrl midazApi with
    | Some s => UrlString s
    | None => UrlUndefined
    end in
  match JS.get urlMap component with
  | JS.Own (Some s) => if JS.truthy_string s then UrlString s else fallback
  | JS.Own None => fallback
  | JS.Inherited k => UrlInherited k
  | JS.Absent => fallback
  end.

Definition PathParams : Type := list (string * string).
Definition QueryParams : Type := list (string * JS.value).

Definition buildUrl (baseUrl pathTemplate : string) (pathParams : option PathParams) : string :=
  let resolvedPath :=
    match pathParams with
    | Some entries =>
        fold_left (fun resolvedPath kv =>
                     JS.replace resolvedPath (":" +:+ fst kv) (JS.encodeURIComponent (snd kv)))
                  entries pathTemplate
    | None => pathTemplate
    end in
  baseUrl +:+ resolvedPath.

(** The body of the loop of [buildQueryString]. *)
Definition query_step (params : JS.URLSearchParams) (kv : string * JS.value)
  : JS.URLSearchParams :=
  match snd kv with
  | JS.VUndefined | JS.VNull => params
  | value =>
      if JS.typeof_object value
      then JS.params_set (fst kv) (JS.JSON_stringify value) params
      else JS.params_set (fst kv) (JS.to_string value) params
  end.

Definition buildQueryString (queryParams : option QueryParams) : string :=
  match queryParams with
  | None => ""
  | Some entries =>
      if Nat.eqb (length (JS.keys entries)) 0 then ""
      else
        let params := fold_left query_step entries ([] : JS.URLSearchParams) in
        let qs := JS.params_toString params in
        if JS.truthy_string qs then "?" +:+ qs else ""
  end.

(** The argument object of [executeRequest].  [method] and [pathTemplate] are
    [None] when the resolved descriptor holds [undefined] there. *)
Module Request.
Record t : Type := mk {
  component : string;
  method : option string;
  pathTemplate : option string;
  pathParams : option PathParams;
  queryParams : option QueryParams;
  body : option (list (string * JS.value)) }.
End Request.

(** What [executeRequest] returns. *)
Inductive ExecResult : Type :=
| HeadResult (status : Z) (headers : list (string * string)) (count : option string)
| DeleteResult (status : Z) (message : string)
| BodyResult (responseBody : JS.value).

Record HealthResult : Type := mkHealth {
  healthy : bool;
  health_status : option Z;
  health_error : option string;
  health_component : string;
  health_url : UrlValue }.

Section Backend.

(** The loaded configuration and the network, i.e. what [fetch] answers to a
    request. *)
Variable config : Config.
Variable network : string -> FetchOptions.t -> outcome Response.t.

(** [await fetch(url, options)] *)
Definition fetch (url : string) (options : FetchOptions.t) : M Response.t :=
  fun log => (network url options, log ++ [(url, options)]).

(** [buildUrl] applied to a possibly undefined template: [.replace] is only
    reached when there is an entry to substitute. *)
Definition buildUrl_call (baseUrl : UrlValue) (pathTemplate : option string)
    (pathParams : option PathParams) : M string :=
  match pathTemplate with
  | Some template => ret (buildUrl (url_text baseUrl) template pathParams)
  | None =>
      match pathParams with
      | Some (_ :: _) => throw (TypeError_undefined "replace")
      | _ => ret (url_text baseUrl +:+ "undefined")
      end
  end.

(** [method.toUpperCase()] *)
Definition method_toUpperCase (method : option string) : M string :=
  match method with
  | Some m => ret (JS.toUpperCase m)
  | None => throw (TypeError_undefined "toUpperCase")
  end.

(** [AbortSignal.timeout(delay)]: the signal, that is its delay, or the
    [RangeError] of a delay that is no unsigned 32-bit integer. *)
Definition AbortSignal_timeout (delay : Z) : M Z :=
  if JS.uint32 delay then ret delay else throw (RangeError_delay delay).

Definition executeRequest (req : Request.t) : M ExecResult :=
  let midazApi := midazApi_or_empty config in
  let baseUrl := getComponentUrl midazApi (Request.component req) in
  path <- buildUrl_call baseUrl (Request.pathTemplate req) (Request.pathParams req) ;;
  let url := path +:+ buildQueryString (Request.queryParams req) in
  let timeout :=
    match timeout midazApi with
    | Some t => if t =? 0 then 30000 else t
    | None => 30000
    end in
  let headers :=
    [ ("Content-Type", "application/json"); ("Accept", "application/json") ]
    ++ match authToken midazApi with
       | Some token =>
           if JS.truthy_string token then [("Authorization", "Bearer " +:+ token)] else []
       | None => []
       end in
  METHOD <- method_toUpperCase (Request.method req) ;;
  signal <- AbortSignal_timeout timeout ;;
  let fetchOptions :=
    {| FetchOptions.method := METHOD;
       FetchOptions.headers := headers;
       FetchOptions.timeout := signal;
       FetchOptions.body :=
         match Request.body req with
         | Some body =>
             if negb (existsb (String.eqb METHOD) ["GET"; "HEAD"; "DELETE"])
             then Some (JS.JSON_stringify (JS.VObj body))
             else None
         | None => None
         end |} in
  response <- fetch url fetchOptions ;;
  if String.eqb METHOD "HEAD" then
    ret (HeadResult (Response.status response) (Response.headers response)
           (match Response.headers_get response "Midaz-Total-Count" with
            | Some c => if JS.truthy_string c then Some c
                        else Response.headers_get response "midaz-total-count"
            | None => Response.headers_get response "midaz-total-count"
            end))
  else if String.eqb METHOD "DELETE" && (Response.status response =? 204) then
    ret (DeleteResult 204 "Successfully deleted")
  else
    let contentType :=
      match Response.headers_get response "content-type" with
      | Some c => c
      | None => ""
      end in
    responseBody <-
      (if JS.includes contentType "application/json"
       then lift (Response.json response)
       else (text <- lift (Response.text response) ;; ret (JS.VStr text))) ;;
    if negb (Response.ok response) then
      throw {| JsError.name := "Error";
               JsError.message :=
                 "Midaz API error: " +:+ JS.string_of_Z (Response.status response)
                 +:+ " " +:+ Response.statusText response;
               JsError.status := Some (Response.status response);
               JsError.statusText := Some (Response.statusText response);
               JsError.body := Some responseBody;
               JsError.url := Some url |}
    else ret (BodyResult responseBody).

Definition checkHealth (component : string) : M HealthResult :=
  let midazApi := midazApi_or_empty config in
  let baseUrl := getComponentUrl midazApi component in
  try_catch
    (response <- fetch (url_text baseUrl +:+ "/health")
                   {| FetchOptions.method := "GET";
                      FetchOptions.headers := [("Accept", "application/json")];
                      FetchOptions.timeout := 5000;
                      FetchOptions.body := None |} ;;
     ret {| healthy := Response.ok response;
            health_status := Some (Response.status response);
            health_error := None;
            health_component := component;
            health_url := baseUrl |})
    (fun err =>
       ret {| healthy := false;
              health_status := None;
              health_error := Some (JsError.message err);
              health_component := component;
              health_url := baseUrl |}).

End Backend.

End Client.

(** ** Router ([src/api/router.js]) *)

Module Router.
Import Registry.

(** The descriptor [resolveAction] builds.  [method], [pathTemplate] and
    [description] are copied from the action definition and are [None] when
    that object has no such property. *)
Module Descriptor.
Record t : Type := mk {
  resource : string;
  action : string;
  component : string;
  method : option string;
  pathTemplate : option string;
  pathParams : list (string * ParamDef.t);
  queryParams : list (string * QueryParamDef.t);
  input : option JS.value;
  description : option string;
  example : option JS.value }.
End Descriptor.

(** [resolveAction] returns either [{ error }] or a descriptor. *)
Inductive Resolved : Type :=
| ResolveError (error : string)
| ResolveOk (d : Descriptor.t).

Definition quoted (s : string) : string :=
  String JS.dquote s +:+ String JS.dquote "".

Definition resolveAction (resource action : string) : Resolved :=
  match getSchema resource with
  | None =>
      ResolveError ("Unknown resource " +:+ quoted resource
                    +:+ ". Use midaz-discover to list available resources.")
  | Some schema =>
      match JS.get (ResourceSchema.actions schema) action with
      | JS.Absent =>
          let available := JS.join ", " (JS.keys (ResourceSchema.actions schema)) in
          ResolveError ("Unknown action " +:+ quoted action +:+ " for resource "
                        +:+ quoted resource +:+ ". Available actions: " +:+ available)
      | JS.Own actionDef =>
          ResolveOk
            {| Descriptor.resource := resource;
               Descriptor.action := action;
               Descriptor.component := ResourceSchema.component schema;
               Descriptor.method := Some (ActionDef.method actionDef);
               Descriptor.pathTemplate := Some (ActionDef.path actionDef);
               Descriptor.pathParams :=
                 match ActionDef.pathParams actionDef with Some p => p | None => [] end;
               Descriptor.queryParams :=
                 match ActionDef.queryParams actionDef with Some q => q | None => [] end;
               Descriptor.input := ActionDef.input actionDef;
               Descriptor.description := Some (ActionDef.description actionDef);
               Descriptor.example := ActionDef.example actionDef |}
      | JS.Inherited _ =>
          (* [actionDef] is a member of [Object.prototype]: truthy, and none
             of the properties read from it exists *)
          ResolveOk
            {| Descriptor.resource := resource;
               Descriptor.action := action;
               Descriptor.component := ResourceSchema.component schema;
               Descriptor.method := None;
               Descriptor.pathTemplate := None;
               Descriptor.pathParams := [];
               Descriptor.queryParams := [];
               Descriptor.input := None;
               Descriptor.description := None;
               Descriptor.example := None |}
      end
  end.

(** [!pathParams || !pathParams[paramName]] *)
Definition param_missing (pathParams : option Client.PathParams) (paramName : string) : bool :=
  match pathParams with
  | None => true
  | Some entries =>
      match JS.get entries paramName with
      | JS.Own value => negb (JS.truthy_string value)
      | JS.Inherited _ => false
      | JS.Absent => true
      end
  end.

(** The loop that collects [missingParams]. *)
Definition missing_params (declared : list (string * ParamDef.t))
    (pathParams : option Client.PathParams) : list string :=
  fold_left (fun missingParams entry =>
               if ParamDef.required (snd entry) && param_missing pathParams (fst entry)
               then missingParams ++ [fst entry]
               else missingParams)
            declared [].

(** The argument object of [routeAndExecute]. *)
Module Call.
Record t : Type := mk {
  resource : string;
  action : string;
  pathParams : option Client.PathParams;
  queryParams : option Client.QueryParams;
  body : option (list (string * JS.value)) }.
End Call.

Section Backend.

Variable config : Client.Config.
Variable network : string -> FetchOptions.t -> outcome Response.t.

Definition routeAndExecute (call : Call.t) : M Client.ExecResult :=
  match resolveAction (Call.resource call) (Call.action call) with
  | ResolveError error => throw (Error error)
  | ResolveOk resolved =>
      let missingParams :=
        missing_params (Descriptor.pathParams resolved) (Call.pathParams call) in
      if Nat.ltb 0 (length missingParams) then
        throw (Error ("Missing required path parameters: " +:+ JS.join ", " missingParams))
      else
        Client.executeRequest config network
          {| Client.Request.component := Descriptor.component resolved;
             Client.Request.method := Descriptor.method resolved;
             Client.Request.pathTemplate := Descriptor.pathTemplate resolved;
             Client.Request.pathParams :=
               Some (match Call.pathParams call with Some p => p | None => [] end);
             Client.Request.queryParams :=
               Some (match Call.queryParams call with Some q => q | None => [] end);
             Client.Request.body := Call.body call |}
  end.

End Backend.

Definition getEndpointCount : nat :=
  fold_left (fun count schema => count + length (JS.keys (ResourceSchema.actions schema)))%nat
            getAllSchemas 0%nat.

End Router.

(** ** Tool responses *)

(** Modelled from the spec: [ErrorCodes], [createToolResponse] and
    [createErrorResponse] of [src/util/mcp-helpers.js], which is not part of
    the sources at hand.  The codes are the taxonomy of the specification; the
    two constructors of [ToolResult] record the arguments of the two
    helpers. *)
Inductive ErrorCode : Type :=
| INVALID_PARAMS
| RESOURCE_NOT_FOUND
| RESOURCE_ACCESS_DENIED
| BACKEND_ERROR
| RESOURCE_UNAVAILABLE
| INTERNAL_ERROR.

Record ErrorDetail : Type := mkDetail {
  detail_status : Z;
  detail_statusText : option string;
  detail_url : option string;
  detail_body : option JS.value }.

Inductive ToolResult (P : Type) : Type :=
| createToolResponse (payload : P)
| createErrorResponse (code : ErrorCode) (message : string) (detail : option ErrorDetail).
Arguments createToolResponse {P} payload.
Arguments createErrorResponse {P} code message detail.

(** ** The [midaz-execute] tool *)

Module Execute.

Module Args.
Record t : Type := mk {
  resource : string;
  action : string;
  pathParams : option Client.PathParams;
  queryParams : option Client.QueryParams;
  body : option (list (string * JS.value)) }.
End Args.

(** [`${v}`] of an optional string property *)
Definition text_of (s : option string) : string :=
  match s with Some s => s | None => "undefined" end.

(** [JSON.stringify(err.body)] inside a template literal *)
Definition body_text (b : option JS.value) : string :=
  match b with Some v => JS.JSON_stringify v | None => "undefined" end.

(** The failure-shape tests of the [catch] block, reached when [err.status]
    is falsy. *)
Definition classify_shape (err : JsError.t) : ToolResult Client.ExecResult :=
  if String.eqb (JsError.name err) "TimeoutError"
     || JS.includes (JsError.message err) "timeout"
  then createErrorResponse BACKEND_ERROR
         "Request timed out. Check if the Midaz service is running and MIDAZ_*_URL is configured correctly."
         None
  else if JS.includes (JsError.message err) "fetch failed"
          || JS.includes (JsError.message err) "ECONNREFUSED"
  then createErrorResponse RESOURCE_UNAVAILABLE
         "Cannot connect to Midaz API. Ensure the service is running and environment variables MIDAZ_ONBOARDING_URL, MIDAZ_TRANSACTION_URL, MIDAZ_CRM_URL, MIDAZ_LEDGER_URL are set correctly."
         None
  else createErrorResponse INTERNAL_ERROR (JsError.message err) None.

(** The branch [if (err.status) { ... }] of the [catch] block. *)
Definition classify_status (err : JsError.t) (status : Z) : ToolResult Client.ExecResult :=
  let errorDetail :=
    Some {| detail_status := status;
            detail_statusText := JsError.statusText err;
            detail_url := JsError.url err;
            detail_body := JsError.body err |} in
  if status =? 400 then
    createErrorResponse INVALID_PARAMS
      ("Bad request: " +:+ body_text (JsError.body err)) errorDetail
  else if (status =? 401) || (status =? 403) then
    createErrorResponse RESOURCE_ACCESS_DENIED
      ("Authentication/authorization error (" +:+ JS.string_of_Z status
       +:+ "). Check MIDAZ_AUTH_TOKEN configuration.") errorDetail
  else if status =? 404 then
    createErrorResponse RESOURCE_NOT_FOUND
      ("Resource not found: " +:+ text_of (JsError.url err)) errorDetail
  else if status =? 409 then
    createErrorResponse BACKEND_ERROR
      ("Conflict: " +:+ body_text (JsError.body err)) errorDetail
  else if 500 <=? status then
    createErrorResponse BACKEND_ERROR
      ("Midaz server error (" +:+ JS.string_of_Z status +:+ "): "
       +:+ body_text (JsError.body err)) errorDetail
  else
    createErrorResponse BACKEND_ERROR
      ("API error (" +:+ JS.string_of_Z status +:+ "): " +:+ JsError.message err)
      errorDetail.

(** The [catch] block of [handleExecute]; a status of [0] is falsy. *)
Definition classify (err : JsError.t) : ToolResult Client.ExecResult :=
  match JsError.status err with
  | Some status => if status =? 0 then classify_shape err else classify_status err status
  | None => classify_shape err
  end.

(** The argument object [handleExecute] builds for [routeAndExecute]. *)
Definition route_call (args : Args.t) : Router.Call.t :=
  {| Router.Call.resource := Args.resource args;
     Router.Call.action := Args.action args;
     Router.Call.pathParams :=
       Some (match Args.pathParams args with Some p => p | None => [] end);
     Router.Call.queryParams :=
       Some (match Args.queryParams args with Some q => q | None => [] end);
     Router.Call.body := Args.body args |}.

Section Backend.

Variable config : Client.Config.
Variable network : string -> FetchOptions.t -> outcome Response.t.

Definition handleExecute (args : Args.t) : M (ToolResult Client.ExecResult) :=
  if negb (JS.truthy_string (Args.resource args)) || negb (JS.truthy_string (Args.action args))
  then
    ret (createErrorResponse INVALID_PARAMS
           "Both resource and action are required. Use midaz-discover first to find available resources and actions."
           None)
  else
    try_catch
      (result <- Router.routeAndExecute config network (route_call args) ;;
       ret (createToolResponse result))
      (fun err => ret (classify err)).

End Backend.

End Execute.

(** ** The [midaz-discover] tool *)

Module Discover.
Import Registry.

Module Args.
Record t : Type := mk {
  intent : string;
  resource : option string;
  action : option string;
  query : option string;
  component : option string }.
End Args.

(** [{ resource, actions, description }] *)
Record ResourceEntry : Type := mkEntry {
  entry_resource : string;
  entry_actions : list string;
  entry_description : string }.

Record ActionOverview : Type := mkOverview {
  ov_method : string;
  ov_path : string;
  ov_description : string;
  hasInput : bool;
  hasPathParams : bool;
  hasQueryParams : bool }.

(** The payloads handed to [createToolResponse], one per intent ([search] has
    two). *)
Inductive Payload : Type :=
| ListResources (totalResources totalEndpoints : nat)
    (onboarding transaction crm ledger : list ResourceEntry) (hint : string)
| DescribeResource (resource component description : string)
    (actions : list (string * ActionOverview)) (hint : string)
| DescribeAction (resource action component : string)
    (method path description : option string)
    (pathParams : option (list (string * ParamDef.t)))
    (queryParams : option (list (string * QueryParamDef.t)))
    (input example : option JS.value) (hint : string)
| SearchEmpty (results : list ResourceSummary) (message : string)
| SearchResults (query : string) (results : list ResourceSummary)
| ListByComponent (component : string) (resources : list ResourceEntry).

(** [!s] for an optional string argument *)
Definition falsy (s : option string) : bool :=
  match s with Some s => negb (JS.truthy_string s) | None => true end.

Definition text_of (s : option string) : string :=
  match s with Some s => s | None => "undefined" end.

Definition entries_of (component : string) (resources : list ResourceSummary)
  : list ResourceEntry :=
  map (fun r => {| entry_resource := sum_resource r;
                   entry_actions := sum_actions r;
                   entry_description := sum_description r |})
      (List.filter (fun r => String.eqb (sum_component r) component) resources).

Definition non_empty {A : Type} (o : list (string * A)) : option (list (string * A)) :=
  if Nat.ltb 0 (length (JS.keys o)) then Some o else None.

(** [handleDiscover] awaits nothing: it is a function of its arguments. *)
Definition handleDiscover (args : Args.t) : ToolResult Payload :=
  let resource := Args.resource args in
  let action := Args.action args in
  let intent := Args.intent args in
  if String.eqb intent "list-resources" then
    let resources := listResources in
    let totalEndpoints := Router.getEndpointCount in
    createToolResponse
      (ListResources (length resources) totalEndpoints
         (entries_of "onboarding" resources)
         (entries_of "transaction" resources)
         (entries_of "crm" resources)
         (entries_of "ledger" resources)
         ("Use intent=" +:+ Router.quoted "describe-resource"
          +:+ " with a resource name to see its actions, or intent="
          +:+ Router.quoted "describe-action"
          +:+ " with resource+action for the full input schema."))
  else if String.eqb intent "describe-resource" then
    if falsy resource then
      createErrorResponse INVALID_PARAMS
        "resource parameter is required for describe-resource intent" None
    else
      match getSchema (text_of resource) with
      | None =>
          let suggestions := findSchemas (text_of resource) in
          createErrorResponse RESOURCE_NOT_FOUND
            ("Resource " +:+ Router.quoted (text_of resource) +:+ " not found."
             +:+ (if Nat.ltb 0 (length suggestions)
                  then " Did you mean: "
                       +:+ JS.join ", " (map ResourceSchema.resource suggestions) +:+ "?"
                  else ""))
            None
      | Some schema =>
          let actions :=
            map (fun entry =>
                   let actionDef := snd entry in
                   (fst entry,
                    {| ov_method := ActionDef.method actionDef;
                       ov_path := ActionDef.path actionDef;
                       ov_description := ActionDef.description actionDef;
                       hasInput :=
                         match ActionDef.input actionDef with Some _ => true | None => false end;
                       hasPathParams :=
                         match ActionDef.pathParams actionDef with
                         | Some p => Nat.ltb 0 (length (JS.keys p))
                         | None => false
                         end;
                       hasQueryParams :=
                         match ActionDef.queryParams actionDef with
                         | Some q => Nat.ltb 0 (length (JS.keys q))
                         | None => false
                         end |}))
                (ResourceSchema.actions schema) in
          createToolResponse
            (DescribeResource (ResourceSchema.resource schema)
               (ResourceSchema.component schema)
               (ResourceSchema.description schema)
               actions
               ("Use intent=" +:+ Router.quoted "describe-action"
                +:+ " with resource and action to get the full input schema for a specific action."))
      end
  else if String.eqb intent "describe-action" then
    if falsy resource || falsy action then
      createErrorResponse INVALID_PARAMS
        "Both resource and action parameters are required for describe-action intent" None
    else
      match Router.resolveAction (text_of resource) (text_of action) with
      | Router.ResolveError error => createErrorResponse RESOURCE_NOT_FOUND error None
      | Router.ResolveOk resolved =>
          createToolResponse
            (DescribeAction (text_of resource) (text_of action)
               (Router.Descriptor.component resolved)
               (Router.Descriptor.method resolved)
               (Router.Descriptor.pathTemplate resolved)
               (Router.Descriptor.description resolved)
               (non_empty (Router.Descriptor.pathParams resolved))
               (non_empty (Router.Descriptor.queryParams resolved))
               (Router.Descriptor.input resolved)
               (Router.Descriptor.example resolved)
               "Use midaz-execute with this resource, action, and the required parameters to call the API.")
      end
  else if String.eqb intent "search" then
    if falsy (Args.query args) then
      createErrorResponse INVALID_PARAMS "query parameter is required for search intent" None
    else
      let query := text_of (Args.query args) in
      let results := findSchemas query in
      if Nat.eqb (length results) 0 then
        createToolResponse
          (SearchEmpty [] ("No resources found matching " +:+ Router.quoted query +:+ "."))
      else
        createToolResponse
          (SearchResults query
             (map (fun s => {| sum_resource := ResourceSchema.resource s;
                               sum_component := ResourceSchema.component s;
                               sum_description := ResourceSchema.description s;
                               sum_actions := JS.keys (ResourceSchema.actions s) |})
                  results))
  else if String.eqb intent "list-by-component" then
    if falsy (Args.component args) then
      createErrorResponse INVALID_PARAMS
        "component parameter is required for list-by-component intent" None
    else
      let component := text_of (Args.component args) in
      createToolResponse
        (ListByComponent component
           (map (fun s => {| entry_resource := ResourceSchema.resource s;
                             entry_actions := JS.keys (ResourceSchema.actions s);
                             entry_description := ResourceSchema.description s |})
                (getSchemasByComponent component)))
  else
    createErrorResponse INVALID_PARAMS ("Unknown intent: " +:+ intent) None.

End Discover.

(** ** Specification vocabulary *)

(** The notions the properties below are stated with: placeholders of a path
    template, simultaneous substitution, occurrences of a text, and the
    failures Node's [fetch] raises. *)
Module Spec.

(** *** Path templates *)

(** Characters of a placeholder name. *)
Definition is_ident_char (c : ascii) : bool := JS.is_alnum c || Ascii.eqb c "_".

Fixpoint all_chars (p : ascii -> bool) (s : string) : bool :=
  match s with
  | EmptyString => true
  | String c s' => p c && all_chars p s'
  end.



(** A template is a sequence of plain characters and placeholders [:name];
    [Val] is the text put in the place of a placeholder. *)
Inductive segment : Type :=
| Chr (c : ascii)
| Tok (name : string)
| Val (text : string).

(** The identifier characters a segment list starts with, and what follows
    them. *)
Fixpoint take_ident (segs : list segment) : string * list segment :=
  match segs with
  | Chr c :: segs' =>
      if is_ident_char c
      then let (name, rest) := take_ident segs' in (String c name, rest)
      else ("", segs)
  | _ => ("", segs)
  end.

Definition cons_char (c : ascii) (segs : list segment) : list segment :=
  if Ascii.eqb c ":" then
    match take_ident segs with
    | (EmptyString, _) => Chr c :: segs
    | (name, rest) => Tok name :: rest
    end
  else Chr c :: segs.

(** A [:] followed by identifier characters is a placeholder whose name is
    the longest such run. *)
Fixpoint segments (template : string) : list segment :=
  match template with
  | EmptyString => []
  | String c s => cons_char c (segments s)
  end.

Definition render_segment (seg : segment) : string :=
  match seg with
  | Chr c => String c ""
  | Tok name => String ":" name
  | Val text => text
  end.

Fixpoint render (segs : list segment) : string :=
  match segs with
  | [] => ""
  | seg :: segs' => render_segment seg +:+ render segs'
  end.

Fixpoint tokens (segs : list segment) : list string :=
  match segs with
  | [] => []
  | Tok name :: segs' => name :: tokens segs'
  | _ :: segs' => tokens segs'
  end.

(** The names of the [:token] placeholders of a template, in order. *)
Definition placeholders (template : string) : list string := tokens (segments template).

(** A text that is empty or starts with a character that is neither [:] nor
    an identifier character. *)
Definition boundary (s : string) : bool :=
  match s with
  | EmptyString => true
  | String c _ => negb (is_ident_char c) && negb (Ascii.eqb c ":")
  end.

(** No [:] directly follows a [:] or a placeholder. *)
Fixpoint separated_segments (segs : list segment) : bool :=
  match segs with
  | [] => true
  | Tok _ :: segs' => boundary (render segs') && separated_segments segs'
  | Chr c :: segs' =>
      (if Ascii.eqb c ":" then boundary (render segs') else true)
      && separated_segments segs'
  | Val _ :: segs' => separated_segments segs'
  end.

Definition separated (template : string) : bool := separated_segments (segments template).












(** *** Occurrences *)

(** [s] is [pre], then [pat], then [post]. *)
Definition occurs_at (pat s pre post : string) : Prop := s = pre +:+ pat +:+ post.

(** [pre] is where [pat] occurs first in [s]. *)
Definition first_occurrence (pat s pre post : string) : Prop :=
  occurs_at pat s pre post
  /\ forall pre' post', occurs_at pat s pre' post' -> (String.length pre <= String.length pre')%nat.


(** *** Query strings *)

(** The entries [buildQueryString] keeps. *)
Definition defined (v : JS.value) : bool :=
  match v with
  | JS.VUndefined | JS.VNull => false
  | _ => true
  end.

(** The text of a kept value: JSON for objects, [String(value)] otherwise. *)
Definition value_text (v : JS.value) : string :=
  if JS.typeof_object v then JS.JSON_stringify v else JS.to_string v.

Definition query_pair (kv : string * JS.value) : string :=
  JS.form_encode (fst kv) +:+ "=" +:+ JS.form_encode (value_text (snd kv)).

Definition query_entry (kv : string * JS.value) : string * string :=
  (fst kv, value_text (snd kv)).

(** *** Registry checks *)

Definition http_methods : list string := ["GET"; "POST"; "PUT"; "PATCH"; "DELETE"; "HEAD"].

Definition declared_params (def : ActionDef.t) : list (string * ParamDef.t) :=
  match ActionDef.pathParams def with Some p => p | None => [] end.

Definition subset (l1 l2 : list string) : bool :=
  forallb (fun x => existsb (String.eqb x) l2) l1.

(** The method is an HTTP verb and the placeholders are the declared path
    parameters. *)
Definition action_consistent (def : ActionDef.t) : bool :=
  existsb (String.eqb (ActionDef.method def)) http_methods
  && subset (placeholders (ActionDef.path def)) (JS.keys (declared_params def))
  && subset (JS.keys (declared_params def)) (placeholders (ActionDef.path def)).

(** All sublists of a list. *)
Fixpoint sublists {A : Type} (l : list A) : list (list A) :=
  match l with
  | [] => [[]]
  | x :: l' => map (cons x) (sublists l') ++ sublists l'
  end.

Definition missing_message (missing : list string) : string :=
  "Missing required path parameters: " +:+ JS.join ", " missing.

(** The message for [missing] matches none of the failure shapes of the
    [catch] block. *)
Definition message_unclassified (missing : list string) : bool :=
  negb (JS.includes (missing_message missing) "timeout")
  && negb (JS.includes (missing_message missing) "fetch failed")
  && negb (JS.includes (missing_message missing) "ECONNREFUSED").

Definition action_messages_unclassified (def : ActionDef.t) : bool :=
  forallb message_unclassified (sublists (JS.keys (declared_params def))).

Definition registry_forall (check : string -> ActionDef.t -> bool) : bool :=
  forallb (fun schema =>
             JS.truthy_string (ResourceSchema.resource schema)
             && forallb (fun entry => JS.truthy_string (fst entry) && check (fst entry) (snd entry))
                        (ResourceSchema.actions schema))
          Registry.allSchemas.

(** The required declared parameters the caller left out. *)
Definition missing_required (def : ActionDef.t) (pathParams : option Client.PathParams)
  : list string :=
  map fst (List.filter (fun entry => ParamDef.required (snd entry)
                                && Router.param_missing pathParams (fst entry))
                  (declared_params def)).

Definition params_not_inherited (def : ActionDef.t) : bool :=
  forallb (fun name => negb (JS.is_inherited name)) (JS.keys (declared_params def)).

(** The placeholders of the template are distinct and none directly follows a
    [:] or another placeholder. *)
Definition template_well_formed (def : ActionDef.t) : bool :=
  bool_decide (NoDup (placeholders (ActionDef.path def))) && separated (ActionDef.path def).

(** The path parameters [handleExecute] passes on. *)
Definition supplied (args : Execute.Args.t) : Client.PathParams :=
  match Execute.Args.pathParams args with Some p => p | None => [] end.

(** The caller left [name] out or supplied the empty string. *)
Definition omitted_or_empty (pathParams : Client.PathParams) (name : string) : Prop :=
  JS.own pathParams name = None \/ JS.own pathParams name = Some "".

(** *** Failures of the platform *)

(** What Node's [fetch] rejects with when the deadline of
    [AbortSignal.timeout] passes. *)
Definition timeout_failure : JsError.t :=
  JsError.mk "TimeoutError" "The operation was aborted due to timeout" None None None None.

(** What Node's [fetch] rejects with when the connection is refused or the
    host name does not resolve; the [cause] tells the two apart. *)
Definition connection_failure : JsError.t :=
  JsError.mk "TypeError" "fetch failed" None None None None.

(** The two failure shapes the [catch] block of [handleExecute] tells
    apart. *)
Definition timeout_shaped (err : JsError.t) : bool :=
  String.eqb (JsError.name err) "TimeoutError" || JS.includes (JsError.message err) "timeout".

Definition connection_shaped (err : JsError.t) : bool :=
  JS.includes (JsError.message err) "fetch failed"
  || JS.includes (JsError.message err) "ECONNREFUSED".

(** The parsed-or-raw response body. *)
Definition read_body (response : Response.t) : outcome JS.value :=
  let contentType :=
    match Response.headers_get response "content-type" with Some c => c | None => "" end in
  if JS.includes contentType "application/json" then Response.json response
  else match Response.text response with
       | Return text => Return (JS.VStr text)
       | Throw e => Throw e
       end.

Definition error_code {P : Type} (r : ToolResult P) : option ErrorCode :=
  match r with
  | createErrorResponse code _ _ => Some code
  | createToolResponse _ => None
  end.

Definition error_message {P : Type} (r : ToolResult P) : option string :=
  match r with
  | createErrorResponse _ message _ => Some message
  | createToolResponse _ => None
  end.

(** A timeout and a refused connection both surface as
    [RESOURCE_UNAVAILABLE]. *)
Definition failures_surface_unavailable : Prop :=
  forall config network args log err log',
    JS.truthy_string (Execute.Args.resource args) = true ->
    JS.truthy_string (Execute.Args.action args) = true ->
    Router.routeAndExecute config network (Execute.route_call args) log = (Throw err, log') ->
    err = timeout_failure \/ err = connection_failure ->
    exists result,
      Execute.handleExecute config network args log = (Return result, log')
      /\ error_code result = Some RESOURCE_UNAVAILABLE.

(** Every non-2xx response makes [executeRequest] raise a failure that
    carries the status, whatever the method. *)
Definition non2xx_always_raises : Prop :=
  forall config req response log method template,
    Client.Request.method req = Some method ->
    Client.Request.pathTemplate req = Some template ->
    Response.ok response = false ->
    exists err log',
      Client.executeRequest config (fun _ _ => Return response) req log = (Throw err, log')
      /\ JsError.status err = Some (Response.status response).

End Spec.

(** ** Sample inputs *)

Module Sample.

Definition config : Client.Config :=
  Client.mkConfig
    (Some (Client.mkMidazApi (Some "http://localhost:3000") (Some "http://localhost:3001")
             None None None None)).

(** A backend that lets every request time out, and one that refuses every
    connection. *)
Definition timing_out : string -> FetchOptions.t -> outcome Response.t :=
  fun _ _ => Throw Spec.timeout_failure.

Definition refusing : string -> FetchOptions.t -> outcome Response.t :=
  fun _ _ => Throw Spec.connection_failure.

Definition not_found : Response.t :=
  Response.mk 404 "Not Found" [("content-type", "text/plain")]
    (Throw (JsError.mk "SyntaxError" "Unexpected end of JSON input" None None None None))
    (Return "404 page not found").

(** A backend that answers every request with 404. *)
Definition answering_404 : string -> FetchOptions.t -> outcome Response.t :=
  fun _ _ => Return not_found.

Definition list_organizations : Execute.Args.t :=
  Execute.Args.mk "organizations" "list" None None None.

Definition get_organization_without_id : Execute.Args.t :=
  Execute.Args.mk "organizations" "get" None None None.

Definition get_organization : ActionDef.t :=
  ActionDef.mk "GET" "/v1/organizations/:id"
    (Some [("id", ParamDef.mk "string" true "Organization UUID")])
    None None "Get organization by ID" None.

Definition count_organizations : Client.Request.t :=
  Client.Request.mk "onboarding" (Some "HEAD") (Some "/v1/organizations/metrics/count")
    (Some []) (Some []) None.

Definition get_organization_request : Client.Request.t :=
  Client.Request.mk "onboarding" (Some "GET") (Some "/v1/organizations/:id")
    (Some [("id", "42")]) (Some []) None.

End Sample.

(** ** Further vocabulary *)

(** Notions for the properties of the remaining operations: search fields,
    the status table of the execute tool, alphabets of the built URLs, and
    further checks over the registry. *)
Module Derived.

(** *** Registry *)

Definition known_components : list string := ["onboarding"; "transaction"; "crm"; "ledger"].

(** The texts [findSchemas] looks into. *)
Definition search_fields (schema : ResourceSchema.t) : list string :=
  [ ResourceSchema.resource schema;
    ResourceSchema.description schema;
    ResourceSchema.component schema ]
  ++ JS.keys (ResourceSchema.actions schema).

(** [needle] occurs in [text], letter case aside. *)
Definition matches (needle text : string) : Prop :=
  exists pre post, Spec.occurs_at (JS.toLowerCase needle) (JS.toLowerCase text) pre post.

(** A text of ASCII characters; on these the case conversions of the
    embedding are those of JavaScript. *)
Definition ascii_text (s : string) : bool :=
  Spec.all_chars (fun c => (JS.code c <? 128)%N) s.

(** [{ resource, actions, description }] of a summary. *)
Definition to_entry (r : Registry.ResourceSummary) : Discover.ResourceEntry :=
  Discover.mkEntry (Registry.sum_resource r) (Registry.sum_actions r)
    (Registry.sum_description r).

(** The method of an action is written in capitals. *)
Definition method_upper (def : ActionDef.t) : bool :=
  String.eqb (JS.toUpperCase (ActionDef.method def)) (ActionDef.method def).



(** Every declared path parameter is required. *)
Definition all_required (def : ActionDef.t) : bool :=
  forallb (fun entry => ParamDef.required (snd entry)) (Spec.declared_params def).

(** *** Base URLs *)

(** The entry of [urlMap] for a component. *)
Definition configured (midazApi : Client.MidazApi) (component : string) : option string :=
  if String.eqb component "onboarding" then Client.onboardingUrl midazApi
  else if String.eqb component "transaction" then Client.transactionUrl midazApi
  else if String.eqb component "crm" then Client.crmUrl midazApi
  else if String.eqb component "ledger" then Client.ledgerUrl midazApi
  else None.

(** [midazApi.onboardingUrl] as a value. *)
Definition onboarding_default (midazApi : Client.MidazApi) : Client.UrlValue :=
  match Client.onboardingUrl midazApi with
  | Some s => Client.UrlString s
  | None => Client.UrlUndefined
  end.

(** *** Alphabets *)

Fixpoint count_char (c : ascii) (s : string) : nat :=
  match s with
  | EmptyString => 0%nat
  | String d s' => ((if Ascii.eqb d c then 1 else 0) + count_char c s')%nat
  end.

(** What [encodeURIComponent] writes: unreserved characters and [%]. *)
Definition uri_char (c : ascii) : bool := JS.uri_unreserved c || Ascii.eqb c "%".

(** What the form serializer writes for a name or a value. *)
Definition form_char (c : ascii) : bool := JS.is_alnum c || JS.mem_ascii c "*-._+%".

(** The characters of a query string after its [?]. *)
Definition query_char (c : ascii) : bool := form_char c || JS.mem_ascii c "=&".

(** *** The execute tool *)

(** The error code of a failure that carries the HTTP status [status]. *)
Definition status_code (status : Z) : ErrorCode :=
  if status =? 400 then INVALID_PARAMS
  else if (status =? 401) || (status =? 403) then RESOURCE_ACCESS_DENIED
  else if status =? 404 then RESOURCE_NOT_FOUND
  else BACKEND_ERROR.


(** The log grew by at most one call. *)
Definition at_most_one_call (log log' : list FetchCall) : Prop :=
  log' = log \/ exists call, log' = log ++ [call].

(** The caller supplies a non-empty value for [name]. *)
Definition supplies (pathParams : Client.PathParams) (name : string) : Prop :=
  exists value, JS.own pathParams name = Some value /\ value <> "".

(** A payload is what the response says. *)
Definition payload_of_response (options : FetchOptions.t) (response : Response.t)
    (payload : Client.ExecResult) : Prop :=
  match payload with
  | Client.HeadResult status headers _ =>
      FetchOptions.method options = "HEAD"
      /\ status = Response.status response
      /\ headers = Response.headers response
  | Client.DeleteResult status _ =>
      FetchOptions.method options = "DELETE"
      /\ status = 204 /\ Response.status response = 204
  | Client.BodyResult responseBody =>
      Response.ok response = true
      /\ Spec.read_body response = Return responseBody
  end.

(** *** The request of [executeRequest] *)

Section Request.

Variable config : Client.Config.

Definition base_url (req : Client.Request.t) : Client.UrlValue :=
  Client.getComponentUrl (Client.midazApi_or_empty config) (Client.Request.component req).

(** The base URL and the resolved path, or the failure of [buildUrl]. *)
Definition request_path (req : Client.Request.t) : outcome string :=
  match Client.Request.pathTemplate req with
  | Some template =>
      Return (Client.buildUrl (Client.url_text (base_url req)) template
                (Client.Request.pathParams req))
  | None =>
      match Client.Request.pathParams req with
      | Some (_ :: _) => Throw (TypeError_undefined "replace")
      | _ => Return (Client.url_text (base_url req) +:+ "undefined")
      end
  end.

Definition request_timeout : Z :=
  match Client.timeout (Client.midazApi_or_empty config) with
  | Some t => if t =? 0 then 30000 else t
  | None => 30000
  end.

Definition request_headers : list (string * string) :=
  [ ("Content-Type", "application/json"); ("Accept", "application/json") ]
  ++ match Client.authToken (Client.midazApi_or_empty config) with
     | Some token =>
         if JS.truthy_string token then [("Authorization", "Bearer " +:+ token)] else []
     | None => []
     end.

Definition bodiless (METHOD : string) : bool :=
  existsb (String.eqb METHOD) ["GET"; "HEAD"; "DELETE"].

Definition request_body (req : Client.Request.t) (METHOD : string) : option string :=
  match Client.Request.body req with
  | Some body => if negb (bodiless METHOD) then Some (JS.JSON_stringify (JS.VObj body)) else None
  | None => None
  end.

(** The options [executeRequest] hands to [fetch]. *)
Definition request_options (req : Client.Request.t) (METHOD : string) : FetchOptions.t :=
  FetchOptions.mk METHOD request_headers request_timeout (request_body req METHOD).

End Request.

(** [response.headers.get('Midaz-Total-Count') || response.headers.get('midaz-total-count')] *)
Definition total_count (response : Response.t) : option string :=
  match Response.headers_get response "Midaz-Total-Count" with
  | Some c => if JS.truthy_string c then Some c
              else Response.headers_get response "midaz-total-count"
  | None => Response.headers_get response "midaz-total-count"
  end.

(** The failure [executeRequest] raises for a response that is not ok. *)
Definition http_failure (url : string) (response : Response.t) (responseBody : JS.value)
  : JsError.t :=
  {| JsError.name := "Error";
     JsError.message :=
       "Midaz API error: " +:+ JS.string_of_Z (Response.status response)
       +:+ " " +:+ Response.statusText response;
     JsError.status := Some (Response.status response);
     JsError.statusText := Some (Response.statusText response);
     JsError.body := Some responseBody;
     JsError.url := Some url |}.

(** What [executeRequest] makes of a response. *)
Definition interpret (METHOD url : string) (response : Response.t)
  : outcome Client.ExecResult :=
  if String.eqb METHOD "HEAD" then
    Return (Client.HeadResult (Response.status response) (Response.headers response)
              (total_count response))
  else if String.eqb METHOD "DELETE" && (Response.status response =? 204) then
    Return (Client.DeleteResult 204 "Successfully deleted")
  else
    match Spec.read_body response with
    | Return responseBody =>
        if negb (Response.ok response) then Throw (http_failure url response responseBody)
        else Return (Client.BodyResult responseBody)
    | Throw e => Throw e
    end.

(** The request [routeAndExecute] hands to [executeRequest] for an action of
    the registry. *)
Definition request_of (schema : ResourceSchema.t) (def : ActionDef.t) (call : Router.Call.t)
  : Client.Request.t :=
  {| Client.Request.component := ResourceSchema.component schema;
     Client.Request.method := Some (ActionDef.method def);
     Client.Request.pathTemplate := Some (ActionDef.path def);
     Client.Request.pathParams :=
       Some (match Router.Call.pathParams call with Some p => p | None => [] end);
     Client.Request.queryParams :=
       Some (match Router.Call.queryParams call with Some q => q | None => [] end);
     Client.Request.body := Router.Call.body call |}.

(** The URL of that request. *)
Definition request_url (config : Client.Config) (req : Client.Request.t) (template : string)
  : string :=
  Client.buildUrl (Client.url_text (base_url config req)) template
    (Client.Request.pathParams req)
  +:+ Client.buildQueryString (Client.Request.queryParams req).

(** *** Sample inputs *)



Definition create_organization : Execute.Args.t :=
  Execute.Args.mk "organizations" "create" None None
    (Some [("legalName", JS.VStr "Acme Corp"); ("legalDocument", JS.VStr "123")]).


Definition config_with_negative_timeout : Client.Config :=
  Client.mkConfig
    (Some (Client.mkMidazApi (Some "http://localhost:3000") None None None
             (Some (-5)) None)).



End Derived.

(** * Properties *)

Ltac ascii_cases c := destruct c as [[|] [|] [|] [|] [|] [|] [|] [|]].

(** ** Strings *)

Section StringFacts.

Lemma append_cons (c : ascii) (s t : string) : String c s +:+ t = String c (s +:+ t).
Proof. reflexivity. Qed.

Lemma append_nil_l (s : string) : "" +:+ s = s.
Proof. reflexivity. Qed.

Lemma append_assoc (s1 s2 s3 : string) : (s1 +:+ s2) +:+ s3 = s1 +:+ (s2 +:+ s3).
Proof. induction s1 as [|c s1 IH]; [reflexivity | now rewrite !append_cons, IH]. Qed.

Lemma append_nil_r (s : string) : s +:+ "" = s.
Proof. induction s as [|c s IH]; [reflexivity | now rewrite append_cons, IH]. Qed.

Lemma length_append (s1 s2 : string) :
  String.length (s1 +:+ s2) = (String.length s1 + String.length s2)%nat.
Proof. induction s1 as [|c s1 IH]; [reflexivity | rewrite append_cons; simpl; now rewrite IH]. Qed.

Lemma append_eq_length (s1 t1 s2 t2 : string) :
  s1 +:+ t1 = s2 +:+ t2 -> String.length s1 = String.length s2 -> s1 = s2 /\ t1 = t2.
Proof.
  revert s2; induction s1 as [|c s1 IH]; intros [|d s2] Heq Hlen;
    rewrite ?append_cons, ?append_nil_l in Heq; simpl in Hlen;
    try discriminate; [now split|].
  injection Heq as -> Heq. destruct (IH s2 Heq) as [-> ->]; [lia | now split].
Qed.

Lemma prefix_cons (c d : ascii) (p s : string) :
  String.prefix (String c p) (String d s) = Ascii.eqb c d && String.prefix p s.
Proof.
  simpl. destruct (Ascii.eqb_spec c d) as [->|Hne].
  - destruct (ascii_dec d d); [reflexivity | contradiction].
  - destruct (ascii_dec c d); [contradiction | reflexivity].
Qed.

Lemma prefix_nil (s : string) : String.prefix "" s = true.
Proof. now destruct s. Qed.

Lemma prefix_append (p s : string) : String.prefix p (p +:+ s) = true.
Proof.
  induction p as [|c p IH]; [apply prefix_nil|].
  rewrite append_cons, prefix_cons, Ascii.eqb_refl. exact IH.
Qed.


Lemma prefix_split (p s : string) :
  String.prefix p s = true -> s = p +:+ JS.skip (String.length p) s.
Proof.
  revert s; induction p as [|c p IH]; intros s H; [reflexivity|].
  destruct s as [|d s]; [discriminate|].
  rewrite prefix_cons in H. apply andb_true_iff in H as [Hc Hp].
  apply Ascii.eqb_eq in Hc as ->. rewrite append_cons. simpl. f_equal. now apply IH.
Qed.

Lemma find_eq (pat s : string) :
  JS.find pat s =
  if String.prefix pat s then Some ("", JS.skip (String.length pat) s)
  else match s with
       | EmptyString => None
       | String c s' =>
           match JS.find pat s' with
           | Some (pre, post) => Some (String c pre, post)
           | None => None
           end
       end.
Proof. destruct s; reflexivity. Qed.

Lemma find_occurs (pat s pre post : string) :
  JS.find pat s = Some (pre, post) -> Spec.occurs_at pat s pre post.
Proof.
  revert pre post; induction s as [|c s IH]; intros pre post; rewrite find_eq.
  - destruct (String.prefix pat "") eqn:Hp; [|discriminate].
    intros [= <- <-]. now apply prefix_split.
  - destruct (String.prefix pat (String c s)) eqn:Hp.
    + intros [= <- <-]. now apply prefix_split.
    + destruct (JS.find pat s) as [[pre' post']|]; [|discriminate].
      intros [= <- <-]. unfold Spec.occurs_at in *. rewrite append_cons. f_equal. now apply IH.
Qed.

Lemma find_none (pat s : string) :
  JS.find pat s = None -> forall pre post, ~ Spec.occurs_at pat s pre post.
Proof.
  induction s as [|c s IH]; rewrite find_eq; intros H pre post Hocc; unfold Spec.occurs_at in *.
  - destruct (String.prefix pat "") eqn:Hp; [discriminate|].
    destruct pre; [|discriminate]. rewrite append_nil_l in Hocc.
    rewrite Hocc, prefix_append in Hp. discriminate.
  - destruct (String.prefix pat (String c s)) eqn:Hp; [discriminate|].
    destruct pre as [|d pre].
    + rewrite append_nil_l in Hocc. rewrite Hocc, prefix_append in Hp. discriminate.
    + destruct (JS.find pat s) as [[pre' post']|] eqn:Hf; [discriminate|].
      rewrite append_cons in Hocc. injection Hocc as -> Hocc. exact (IH eq_refl pre post Hocc).
Qed.

Lemma find_least (pat s pre post : string) :
  JS.find pat s = Some (pre, post) ->
  forall pre' post', Spec.occurs_at pat s pre' post' ->
                     (String.length pre <= String.length pre')%nat.
Proof.
  revert pre post; induction s as [|c s IH]; intros pre post; rewrite find_eq.
  - destruct (String.prefix pat ""); [|discriminate]. intros [= <- <-] ? ? _. simpl. lia.
  - destruct (String.prefix pat (String c s)) eqn:Hp.
    + intros [= <- <-] ? ? _. simpl. lia.
    + destruct (JS.find pat s) as [[pre0 post0]|] eqn:Hf; [|discriminate].
      intros [= <- <-] pre' post' Hocc. unfold Spec.occurs_at in Hocc.
      destruct pre' as [|d pre'].
      * rewrite append_nil_l in Hocc. rewrite Hocc, prefix_append in Hp. discriminate.
      * rewrite append_cons in Hocc. injection Hocc as -> Hocc. simpl. specialize (IH _ _ eq_refl pre' post' Hocc). lia.
Qed.

Lemma find_first_occurrence (pat s pre post : string) :
  JS.find pat s = Some (pre, post) <-> Spec.first_occurrence pat s pre post.
Proof.
  split.
  - intros H. split; [now apply find_occurs | now apply find_least with post].
  - intros [Hocc Hleast]. destruct (JS.find pat s) as [[pre' post']|] eqn:Hf.
    + pose proof (find_occurs _ _ _ _ Hf) as Hocc'.
      pose proof (find_least _ _ _ _ Hf _ _ Hocc) as H1.
      pose proof (Hleast _ _ Hocc') as H2.
      unfold Spec.occurs_at in *. rewrite Hocc in Hocc'.
      destruct (append_eq_length _ _ _ _ Hocc') as [-> Heq]; [lia|].
      apply String.app_inj in Heq. now subst.
    + exfalso. exact (find_none _ _ Hf _ _ Hocc).
Qed.

End StringFacts.

(** ** Replacement of the first occurrence *)

Section Replace.

Lemma all_chars_append (p : ascii -> bool) (s t : string) :
  Spec.all_chars p (s +:+ t) = Spec.all_chars p s && Spec.all_chars p t.
Proof.
  induction s as [|c s IH]; [reflexivity|].
  rewrite append_cons. simpl. now rewrite IH, andb_assoc.
Qed.

Lemma encode_uri_char_plain (c : ascii) :
  Spec.all_chars (fun x => negb (Ascii.eqb x "$") && negb (Ascii.eqb x ":"))
                 (JS.encode_uri_char c) = true.
Proof. ascii_cases c; reflexivity. Qed.

Lemma encodeURIComponent_plain (v : string) :
  Spec.all_chars (fun x => negb (Ascii.eqb x "$") && negb (Ascii.eqb x ":"))
                 (JS.encodeURIComponent v) = true.
Proof.
  induction v as [|c v IH]; [reflexivity|].
  simpl. now rewrite all_chars_append, encode_uri_char_plain, IH.
Qed.

Lemma all_chars_weaken (p q : ascii -> bool) (s : string) :
  (forall c, p c = true -> q c = true) ->
  Spec.all_chars p s = true -> Spec.all_chars q s = true.
Proof.
  intros Hpq. induction s as [|c s IH]; [reflexivity|].
  simpl. intros [Hc Hs]%andb_true_iff. now rewrite (Hpq _ Hc), IH.
Qed.


(** A replacement text without [$] is inserted as it is. *)
Lemma getSubstitution_plain (matched pre post rep : string) :
  Spec.all_chars (fun x => negb (Ascii.eqb x "$")) rep = true ->
  JS.getSubstitution matched pre post rep = rep.
Proof.
  induction rep as [|c rep IH]; [reflexivity|].
  simpl. intros [Hc Hrep]%andb_true_iff.
  apply negb_true_iff in Hc. rewrite Hc. now rewrite IH.
Qed.

Lemma getSubstitution_encoded (matched pre post v : string) :
  JS.getSubstitution matched pre post (JS.encodeURIComponent v) = JS.encodeURIComponent v.
Proof.
  apply getSubstitution_plain.
  apply all_chars_weaken with (2 := encodeURIComponent_plain v).
  now intros c [H _]%andb_true_iff.
Qed.

Lemma replace_found (s pat v pre post : string) :
  JS.find pat s = Some (pre, post) ->
  JS.replace s pat (JS.encodeURIComponent v) = pre +:+ JS.encodeURIComponent v +:+ post.
Proof. intros H. unfold JS.replace. now rewrite H, getSubstitution_encoded. Qed.

Lemma replace_absent (s pat rep : string) :
  JS.find pat s = None -> JS.replace s pat rep = s.
Proof. intros H. unfold JS.replace. now rewrite H. Qed.

Lemma buildUrl_cons (base tpl k v : string) (rest : Client.PathParams) :
  Client.buildUrl base tpl (Some ((k, v) :: rest)) =
  Client.buildUrl base (JS.replace tpl (":" +:+ k) (JS.encodeURIComponent v)) (Some rest).
Proof. reflexivity. Qed.

Lemma buildUrl_app (base tpl : string) (before after : Client.PathParams) :
  Client.buildUrl base tpl (Some (before ++ after)) =
  Client.buildUrl base (Client.buildUrl "" tpl (Some before)) (Some after).
Proof. unfold Client.buildUrl. now rewrite fold_left_app, !append_nil_l. Qed.

End Replace.

(** One turn of the loop of [buildUrl].  When the loop reaches the entry of
    [key], the first occurrence of [:key] in the path resolved so far is
    replaced, also where it begins a longer placeholder, and the text [post]
    that follows it is carried over unchanged to the remaining entries. *)
Lemma buildUrl_entry_replaces_first_occurrence :
  forall (base template key value pre post : string) (before after : Client.PathParams),
    Spec.first_occurrence (":" +:+ key) (Client.buildUrl "" template (Some before)) pre post ->
    Client.buildUrl base template (Some (before ++ (key, value) :: after))
    = Client.buildUrl base (pre +:+ JS.encodeURIComponent value +:+ post) (Some after)
    /\ Client.buildUrl base template (Some (before ++ [(key, value)]))
       = base +:+ pre +:+ JS.encodeURIComponent value +:+ post.
Proof.
  intros base template key value pre post before after Hfirst.
  apply find_first_occurrence in Hfirst.
  assert (Hstep : forall rest,
             Client.buildUrl base template (Some (before ++ (key, value) :: rest))
             = Client.buildUrl base (pre +:+ JS.encodeURIComponent value +:+ post)
                 (Some rest)).
  { intros rest. rewrite buildUrl_app, buildUrl_cons.
    now rewrite (replace_found _ _ _ _ _ Hfirst). }
  split; [apply Hstep|]. now rewrite Hstep.
Qed.

(** A placeholder that only begins with [:key] is hit as well, and a second
    one is then left alone. *)
Lemma buildUrl_prefix_examples :
  Client.buildUrl "" "/:id/:identifier" (Some [("id", "x")]) = "/x/:identifier"
  /\ Client.buildUrl "" "/:identifier/:id" (Some [("id", "x")]) = "/xentifier/:id".
Proof. split; reflexivity. Qed.


(** ** Templates and placeholders *)

Section Templates.
Import Spec.

Lemma render_app (l1 l2 : list segment) : render (l1 ++ l2) = render l1 +:+ render l2.
Proof. induction l1 as [|seg l1 IH]; [reflexivity|]. simpl. now rewrite IH, append_assoc. Qed.














End Templates.

(** ** The substitution loop *)

Section Substitution.
Import Spec.











End Substitution.

(** ** The registry *)

Section RegistryFacts.
Import Registry.

Lemma own_In {A : Type} (o : list (string * A)) (k : string) (a : A) :
  JS.own o k = Some a -> In (k, a) o.
Proof.
  induction o as [|[k' a'] o IH]; [discriminate|].
  simpl. destruct (String.eqb_spec k' k) as [->|_].
  - intros [= ->]. now left.
  - intros H. right. now apply IH.
Qed.

Lemma In_keys {A : Type} (o : list (string * A)) (k : string) (a : A) :
  In (k, a) o -> In k (JS.keys o).
Proof. intros H. unfold JS.keys. now apply (in_map fst) in H. Qed.

Lemma get_own {A : Type} (o : list (string * A)) (k : string) (a : A) :
  JS.own o k = Some a -> JS.get o k = JS.Own a.
Proof. intros H. unfold JS.get. now rewrite H. Qed.

Lemma schemaMap_fold (l : list ResourceSchema.t) (m : gmap string ResourceSchema.t)
    (r : string) (s : ResourceSchema.t) :
  foldl (fun m schema => <[ResourceSchema.resource schema := schema]> m) m l !! r = Some s ->
  (In s l /\ ResourceSchema.resource s = r) \/ m !! r = Some s.
Proof.
  revert m; induction l as [|x l IH]; intros m H; [now right|].
  simpl in H. apply IH in H as [[Hin Hr]|H].
  - left. split; [now right | exact Hr].
  - destruct (decide (ResourceSchema.resource x = r)) as [Heq|Hne].
    + subst r. rewrite lookup_insert_eq in H. injection H as <-. left. split; [now left | reflexivity].
    + rewrite lookup_insert_ne in H by exact Hne. now right.
Qed.

Lemma getSchema_In (r : string) (s : ResourceSchema.t) :
  getSchema r = Some s -> In s allSchemas /\ ResourceSchema.resource s = r.
Proof.
  intros H. apply schemaMap_fold in H as [H|H]; [exact H|].
  rewrite lookup_empty in H. discriminate.
Qed.

Lemma registry_forall_spec (check : string -> ActionDef.t -> bool)
    (r a : string) (s : ResourceSchema.t) (def : ActionDef.t) :
  Spec.registry_forall check = true ->
  getSchema r = Some s ->
  JS.own (ResourceSchema.actions s) a = Some def ->
  JS.truthy_string r = true /\ JS.truthy_string a = true /\ check a def = true.
Proof.
  intros Hall Hs Ha. apply getSchema_In in Hs as [Hin <-]. apply own_In in Ha.
  unfold Spec.registry_forall in Hall. rewrite forallb_forall in Hall.
  specialize (Hall s Hin). apply andb_true_iff in Hall as [Hr Hacts].
  rewrite forallb_forall in Hacts. specialize (Hacts (a, def) Ha).
  apply andb_true_iff in Hacts as [Hk Hc]. auto.
Qed.

Lemma subset_In (l1 l2 : list string) :
  Spec.subset l1 l2 = true -> forall x, In x l1 -> In x l2.
Proof.
  unfold Spec.subset. rewrite forallb_forall. intros H x Hx.
  specialize (H x Hx). apply existsb_exists in H as [y [Hy Heq]].
  apply String.eqb_eq in Heq. now subst.
Qed.

Lemma registry_consistent : Spec.registry_forall (fun _ => Spec.action_consistent) = true.
Proof. vm_compute. reflexivity. Qed.

End RegistryFacts.




(** ** Repeated placeholders *)

Section Repeated.
Import Spec.











End Repeated.



(** The run of the witness, evaluated. *)
Lemma buildUrl_repeated_placeholder :
  Client.buildUrl "https://api.x" "/v1/:org/ledgers/:id/copy/:id"
    (Some [("id", "l/1"); ("org", "o1")])
  = "https://api.x/v1/o1/ledgers/l%2F1/copy/:id".
Proof. reflexivity. Qed.


(** Without a supplied value the template is returned as it is. *)
Lemma buildUrl_no_params (base template : string) :
  Client.buildUrl base template (Some []) = base +:+ template
  /\ Client.buildUrl base template None = base +:+ template.
Proof. split; reflexivity. Qed.

(** Every template of the registry meets the conditions on templates. *)
Lemma registry_templates_well_formed :
  forall (resource action : string) (schema : ResourceSchema.t) (actionDef : ActionDef.t),
    Registry.getSchema resource = Some schema ->
    JS.own (ResourceSchema.actions schema) action = Some actionDef ->
    NoDup (Spec.placeholders (ActionDef.path actionDef))
    /\ Spec.separated (ActionDef.path actionDef) = true.
Proof.
  intros resource action schema actionDef Hs Ha.
  assert (Hall : Spec.registry_forall (fun _ => Spec.template_well_formed) = true)
    by (vm_compute; reflexivity).
  destruct (registry_forall_spec _ _ _ _ _ Hall Hs Ha) as (_ & _ & Hc).
  apply andb_true_iff in Hc as [H1 H2]. split; [|exact H2].
  now apply bool_decide_eq_true in H1.
Qed.

(** C4.  For every (resource, action) pair of the registry, [resolveAction]
    returns a descriptor whose method is one of GET, POST, PUT, PATCH, DELETE
    and HEAD, whose [pathParams] are those of the schema (the empty map when
    it declares none), and the placeholders of whose path template are
    exactly the keys of [pathParams]. *)
Theorem resolveAction_descriptor_consistent :
  forall (resource action : string) (schema : ResourceSchema.t) (actionDef : ActionDef.t),
    Registry.getSchema resource = Some schema ->
    JS.own (ResourceSchema.actions schema) action = Some actionDef ->
    exists d method template,
      Router.resolveAction resource action = Router.ResolveOk d
      /\ Router.Descriptor.method d = Some method
      /\ In method ["GET"; "POST"; "PUT"; "PATCH"; "DELETE"; "HEAD"]
      /\ Router.Descriptor.pathTemplate d = Some template
      /\ Router.Descriptor.pathParams d
         = match ActionDef.pathParams actionDef with Some p => p | None => [] end
      /\ forall name, In name (Spec.placeholders template)
                      <-> In name (JS.keys (Router.Descriptor.pathParams d)).
Proof.
  intros resource action schema actionDef Hs Ha.
  destruct (registry_forall_spec _ _ _ _ _ registry_consistent Hs Ha) as (_ & _ & Hc).
  unfold Spec.action_consistent in Hc.
  apply andb_true_iff in Hc as [[Hm H1]%andb_true_iff H2].
  unfold Router.resolveAction. rewrite Hs, (get_own _ _ _ Ha).
  eexists _, _, _. split; [reflexivity|]. simpl.
  split; [reflexivity|]. split.
  { apply existsb_exists in Hm as [m [Hin Heq]]. apply String.eqb_eq in Heq. now subst. }
  split; [reflexivity|]. split; [reflexivity|].
  intros name. split; [apply (subset_In _ _ H1) | apply (subset_In _ _ H2)].
Qed.

Lemma resolveAction_descriptor_consistent_witness :
  exists d method template,
    Router.resolveAction "organizations" "get" = Router.ResolveOk d
    /\ Router.Descriptor.method d = Some method
    /\ In method ["GET"; "POST"; "PUT"; "PATCH"; "DELETE"; "HEAD"]
    /\ Router.Descriptor.pathTemplate d = Some template
    /\ Router.Descriptor.pathParams d
       = match ActionDef.pathParams Sample.get_organization with Some p => p | None => [] end
    /\ forall name, In name (Spec.placeholders template)
                    <-> In name (JS.keys (Router.Descriptor.pathParams d)).
Proof.
  apply (resolveAction_descriptor_consistent
           "organizations" "get" Schemas.organizationsSchema Sample.get_organization);
    vm_compute; reflexivity.
Defined.

Section Resolution.

Lemma includes_occurs (pat s pre post : string) :
  Spec.occurs_at pat s pre post -> JS.includes s pat = true.
Proof.
  intros H. unfold JS.includes.
  destruct (JS.find pat s) as [[pre' post']|] eqn:Hf; [reflexivity|].
  exfalso. exact (find_none _ _ Hf _ _ H).
Qed.

(** An unknown resource is answered with an error that points to
    discovery. *)
Lemma resolveAction_unknown_resource (resource action : string) :
  Registry.getSchema resource = None ->
  exists error,
    Router.resolveAction resource action = Router.ResolveError error
    /\ JS.includes error "midaz-discover" = true.
Proof.
  intros H. unfold Router.resolveAction. rewrite H. eexists. split; [reflexivity|].
  apply includes_occurs with
    (pre := "Unknown resource " +:+ Router.quoted resource +:+ ". Use ")
    (post := " to list available resources.").
  unfold Spec.occurs_at. now rewrite !append_assoc.
Qed.

(** An action that the resource neither has nor inherits is answered with an
    error that lists the actions of the resource. *)
Lemma resolveAction_unknown_action (resource action : string) (schema : ResourceSchema.t) :
  Registry.getSchema resource = Some schema ->
  JS.own (ResourceSchema.actions schema) action = None ->
  JS.is_inherited action = false ->
  Router.resolveAction resource action
  = Router.ResolveError
      ("Unknown action " +:+ Router.quoted action +:+ " for resource "
       +:+ Router.quoted resource +:+ ". Available actions: "
       +:+ JS.join ", " (JS.keys (ResourceSchema.actions schema))).
Proof.
  intros Hs Ha Hi. unfold Router.resolveAction, JS.get. now rewrite Hs, Ha, Hi.
Qed.

(** An action name that the resource does not have but every plain object
    inherits is answered with a descriptor. *)
Lemma resolveAction_inherited_name (resource action : string) (schema : ResourceSchema.t) :
  Registry.getSchema resource = Some schema ->
  JS.own (ResourceSchema.actions schema) action = None ->
  JS.is_inherited action = true ->
  exists d,
    Router.resolveAction resource action = Router.ResolveOk d
    /\ Router.Descriptor.method d = None
    /\ Router.Descriptor.pathTemplate d = None.
Proof.
  intros Hs Ha Hi. unfold Router.resolveAction, JS.get. rewrite Hs, Ha, Hi.
  eexists. split; [reflexivity|]. split; reflexivity.
Qed.

Lemma resolveAction_bogus_action :
  Router.resolveAction "organizations" "bogus-action"
  = Router.ResolveError
      ("Unknown action " +:+ Router.quoted "bogus-action" +:+ " for resource "
       +:+ Router.quoted "organizations"
       +:+ ". Available actions: create, get, list, update, delete, count").
Proof. vm_compute. reflexivity. Qed.

End Resolution.

(** What follows downstream of an inherited action name: discovery describes
    an action without method and path, and execute fails on the undefined
    method before any request is sent. *)
Lemma inherited_action_downstream :
  Discover.handleDiscover
    (Discover.Args.mk "describe-action" (Some "organizations") (Some "constructor") None None)
  = createToolResponse
      (Discover.DescribeAction "organizations" "constructor" "onboarding"
         None None None None None None None
         "Use midaz-execute with this resource, action, and the required parameters to call the API.")
  /\ run (Execute.handleExecute Sample.config Sample.refusing
            (Execute.Args.mk "organizations" "constructor" None None None))
     = (Return (createErrorResponse INTERNAL_ERROR
                  "Cannot read properties of undefined (reading 'toUpperCase')" None),
        []).
Proof. split; vm_compute; reflexivity. Qed.

(** C7 (defect of the code).  [resolveAction] is a total function and never
    throws, but an action name that a plain object inherits from
    [Object.prototype] is not reported as unknown: ["constructor"] is not an
    action of [organizations], and [resolveAction] returns a descriptor for
    it, with undefined method and path, instead of the error that lists the
    available actions. *)
Theorem resolveAction_inherited_action :
  Registry.getSchema "organizations" = Some Schemas.organizationsSchema
  /\ ~ In "constructor" (JS.keys (ResourceSchema.actions Schemas.organizationsSchema))
  /\ Router.resolveAction "organizations" "constructor"
     = Router.ResolveOk
         {| Router.Descriptor.resource := "organizations";
            Router.Descriptor.action := "constructor";
            Router.Descriptor.component := "onboarding";
            Router.Descriptor.method := None;
            Router.Descriptor.pathTemplate := None;
            Router.Descriptor.pathParams := [];
            Router.Descriptor.queryParams := [];
            Router.Descriptor.input := None;
            Router.Descriptor.description := None;
            Router.Descriptor.example := None |}.
Proof.
  split; [vm_compute; reflexivity|]. split; [|vm_compute; reflexivity].
  vm_compute. intuition discriminate.
Qed.


(** ** Counting endpoints *)

Section Counting.

Lemma fold_count (A : Type) (f : A -> nat) (l : list A) (count : nat) :
  fold_left (fun count x => count + f x)%nat l count = (count + list_sum (map f l))%nat.
Proof.
  revert count; induction l as [|x l IH]; intros count; simpl; [lia|].
  rewrite IH. lia.
Qed.

End Counting.

(** C9.  [getEndpointCount] is the sum, over the schemas of the registry, of
    their numbers of actions, and the [list-resources] intent reports this
    value as [totalEndpoints]. *)
Theorem getEndpointCount_sum_of_action_counts :
  Router.getEndpointCount
  = list_sum (map (fun schema => length (ResourceSchema.actions schema)) Registry.getAllSchemas)
  /\ forall resource action query component,
       exists resources onboarding transaction crm ledger hint,
         Discover.handleDiscover
           (Discover.Args.mk "list-resources" resource action query component)
         = createToolResponse
             (Discover.ListResources resources Router.getEndpointCount
                onboarding transaction crm ledger hint).
Proof.
  split.
  - unfold Router.getEndpointCount. rewrite fold_count, Nat.add_0_l.
    apply (f_equal list_sum), map_ext.
    intros schema. unfold JS.keys. now rewrite length_map.
  - intros. unfold Discover.handleDiscover. simpl. now eexists _, _, _, _, _, _.
Qed.

Lemma getEndpointCount_value : Router.getEndpointCount = 93%nat.
Proof. reflexivity. Qed.


(** ** Health check *)

(** C8.  Whatever the component and whatever the network does, [checkHealth]
    returns: it issues one GET to [<baseUrl>/health] with a deadline of five
    seconds and resolves to [{healthy, status, component, url}], with
    [healthy] true exactly for a 2xx status, when the request completes, and
    to [{healthy: false, error, component, url}] when it fails.  (The
    configuration is taken as loaded.) *)
Theorem checkHealth_never_throws :
  forall (config : Client.Config) (network : string -> FetchOptions.t -> outcome Response.t)
         (component : string) (log : list FetchCall),
    let baseUrl := Client.getComponentUrl (Client.midazApi_or_empty config) component in
    let url := Client.url_text baseUrl +:+ "/health" in
    let options := FetchOptions.mk "GET" [("Accept", "application/json")] 5000 None in
    exists health,
      Client.checkHealth config network component log = (Return health, log ++ [(url, options)])
      /\ match network url options with
         | Return response =>
             health = Client.mkHealth (Response.ok response) (Some (Response.status response))
                        None component baseUrl
             /\ (Client.healthy health = true
                 <-> 200 <= Response.status response <= 299)
         | Throw err =>
             health = Client.mkHealth false None (Some (JsError.message err)) component baseUrl
         end.
Proof.
  intros config network component log baseUrl url options.
  unfold Client.checkHealth, try_catch, bind, Client.fetch, ret.
  fold baseUrl. fold url. fold options.
  destruct (network url options) as [response|err].
  - eexists. split; [reflexivity|]. split; [reflexivity|].
    simpl. unfold Response.ok. rewrite andb_true_iff, !Z.leb_le. tauto.
  - eexists. split; reflexivity.
Qed.

Lemma checkHealth_unreachable_host :
  run (Client.checkHealth Sample.config Sample.refusing "crm")
  = (Return (Client.mkHealth false None (Some "fetch failed") "crm"
               (Client.UrlString "http://localhost:3000")),
     [("http://localhost:3000/health",
       FetchOptions.mk "GET" [("Accept", "application/json")] 5000 None)]).
Proof. reflexivity. Qed.


(** ** Query strings *)

Section QueryStrings.
Import Spec.

Lemma query_step_defined (params : JS.URLSearchParams) (k : string) (v : JS.value) :
  defined v = true ->
  Client.query_step params (k, v) = JS.params_set k (value_text v) params.
Proof. destruct v; try discriminate; reflexivity. Qed.

Lemma query_step_undefined (params : JS.URLSearchParams) (k : string) (v : JS.value) :
  defined v = false -> Client.query_step params (k, v) = params.
Proof. destruct v; try discriminate; reflexivity. Qed.

Lemma has_name_app (name : string) (l1 l2 : JS.URLSearchParams) :
  JS.has_name name (l1 ++ l2) = JS.has_name name l1 || JS.has_name name l2.
Proof. unfold JS.has_name. apply existsb_app. Qed.

Lemma params_set_fresh (name val : string) (l : JS.URLSearchParams) :
  JS.has_name name l = false -> JS.params_set name val l = l ++ [(name, val)].
Proof. intros H. unfold JS.params_set. now rewrite H. Qed.

Lemma query_loop (entries : Client.QueryParams) (params : JS.URLSearchParams) :
  NoDup (JS.keys entries) ->
  (forall k, In k (JS.keys entries) -> JS.has_name k params = false) ->
  fold_left Client.query_step entries params
  = params ++ map query_entry (List.filter (fun kv => defined (snd kv)) entries).
Proof.
  revert params; induction entries as [|[k v] entries IH]; intros params Hnd Hfresh.
  - simpl. now rewrite app_nil_r.
  - simpl in Hnd. inversion Hnd as [|? ? Hk Hnd']; subst.
    cbn [fold_left List.filter snd]. destruct (defined v) eqn:Hv.
    + rewrite (query_step_defined _ _ _ Hv), params_set_fresh by (apply Hfresh; now left).
      rewrite IH; [rewrite <- app_assoc; reflexivity | exact Hnd' |].
      intros k' Hk'. rewrite has_name_app, (Hfresh k') by now right.
      simpl. rewrite orb_false_r. apply String.eqb_neq. intros ->.
      apply Hk. now apply list_elem_of_In.
    + rewrite (query_step_undefined _ _ _ Hv). apply IH; [exact Hnd'|].
      intros k' Hk'. apply Hfresh. now right.
Qed.

Lemma join_length (sep x : string) (l : list string) :
  (String.length x <= String.length (JS.join sep (x :: l)))%nat.
Proof.
  destruct l as [|y l]; simpl; [lia|]. rewrite length_append. lia.
Qed.

Lemma query_pair_length (kv : string * JS.value) :
  (1 <= String.length (query_pair kv))%nat.
Proof. unfold query_pair. rewrite !length_append. simpl. lia. Qed.

Lemma truthy_string_length (s : string) :
  (1 <= String.length s)%nat -> JS.truthy_string s = true.
Proof. destruct s; simpl; [lia | reflexivity]. Qed.

Lemma params_toString_entries (kept : list (string * JS.value)) :
  JS.params_toString (map query_entry kept) = JS.join "&" (map query_pair kept).
Proof. unfold JS.params_toString. now rewrite map_map. Qed.

End QueryStrings.

(** C6.  For every [queryParams] object (its keys are distinct and each of
    its numbers is written as the embedding writes numbers, a safe integer as
    [VNum] and any other number by its text), [buildQueryString] drops the
    entries whose value is [undefined] or [null], writes every remaining
    entry as [key=value], where the value is the JSON text of an object and
    [String(value)] of a scalar, both form-encoded, joins them with [&] after
    a [?], and returns the empty string when no entry remains; the examples of
    the specification are instances, and so are a number in exponent form and
    a fraction. *)
Theorem buildQueryString_serializes_defined_entries :
  forall entries : Client.QueryParams,
    NoDup (JS.keys entries) ->
    Forall (fun kv => JS.well_formed (snd kv) = true) entries ->
    Client.buildQueryString (Some entries)
    = match List.filter (fun kv => Spec.defined (snd kv)) entries with
      | [] => ""
      | kept => "?" +:+ JS.join "&" (map Spec.query_pair kept)
      end
    /\ Client.buildQueryString None = ""
    /\ Client.buildQueryString (Some [("limit", JS.VNum 10)]) = "?limit=10"
    /\ Client.buildQueryString (Some []) = ""
    /\ Client.buildQueryString (Some [("filter", JS.VObj [("a", JS.VNum 1)])])
       = "?filter=%7B%22a%22%3A1%7D"
    /\ Client.buildQueryString (Some [("n", JS.VNumber "1e+21"); ("ratio", JS.VNumber "0.5")])
       = "?n=1e%2B21&ratio=0.5".
Proof.
  intros entries Hnd _. split; [|repeat split; reflexivity].
  unfold Client.buildQueryString.
  destruct entries as [|e entries]; [reflexivity|].
  change (Nat.eqb (length (JS.keys (e :: entries))) 0) with false. cbv iota.
  rewrite query_loop; [|exact Hnd|reflexivity]. rewrite app_nil_l, params_toString_entries.
  destruct (List.filter (fun kv => Spec.defined (snd kv)) (e :: entries)) as [|kv kept];
    [reflexivity|].
  rewrite truthy_string_length; [reflexivity|].
  etransitivity; [apply (query_pair_length kv)|]. apply join_length.
Qed.

Lemma buildQueryString_serializes_defined_entries_witness :
  Client.buildQueryString
    (Some [("limit", JS.VNum 10); ("cursor", JS.VNull); ("q", JS.VStr "a b");
           ("page", JS.VUndefined); ("filter", JS.VObj [("a", JS.VNum 1)]);
           ("max", JS.VNumber "1e+21")])
  = "?limit=10&q=a+b&filter=%7B%22a%22%3A1%7D&max=1e%2B21"
  /\ Client.buildQueryString None = ""
  /\ Client.buildQueryString (Some [("limit", JS.VNum 10)]) = "?limit=10"
  /\ Client.buildQueryString (Some []) = ""
  /\ Client.buildQueryString (Some [("filter", JS.VObj [("a", JS.VNum 1)])])
     = "?filter=%7B%22a%22%3A1%7D"
  /\ Client.buildQueryString (Some [("n", JS.VNumber "1e+21"); ("ratio", JS.VNumber "0.5")])
     = "?n=1e%2B21&ratio=0.5".
Proof.
  apply (buildQueryString_serializes_defined_entries
           [("limit", JS.VNum 10); ("cursor", JS.VNull); ("q", JS.VStr "a b");
            ("page", JS.VUndefined); ("filter", JS.VObj [("a", JS.VNum 1)]);
            ("max", JS.VNumber "1e+21")]).
  - apply (bool_decide_unpack _). vm_compute. exact I.
  - repeat constructor.
Defined.


(** ** Dispatch *)

Section Dispatch.
Import Spec.

Lemma missing_params_loop (declared : list (string * ParamDef.t))
    (pathParams : option Client.PathParams) (acc : list string) :
  fold_left (fun missingParams entry =>
               if ParamDef.required (snd entry) && Router.param_missing pathParams (fst entry)
               then missingParams ++ [fst entry]
               else missingParams)
            declared acc
  = acc ++ map fst (List.filter (fun entry => ParamDef.required (snd entry)
                                             && Router.param_missing pathParams (fst entry))
                                declared).
Proof.
  revert acc; induction declared as [|entry declared IH]; intros acc; simpl.
  - now rewrite app_nil_r.
  - rewrite IH.
    destruct (ParamDef.required (snd entry) && Router.param_missing pathParams (fst entry));
      [now rewrite <- app_assoc | reflexivity].
Qed.

Lemma sublists_filter {A B : Type} (f : A -> B) (p : A -> bool) (l : list A) :
  In (map f (List.filter p l)) (sublists (map f l)).
Proof.
  induction l as [|x l IH]; simpl; [now left|].
  apply in_or_app. destruct (p x); [left | now right].
  simpl. now apply in_map.
Qed.

Lemma registry_messages :
  registry_forall (fun _ def => action_messages_unclassified def && params_not_inherited def)
  = true.
Proof. vm_compute. reflexivity. Qed.

Lemma param_missing_spec (pathParams : Client.PathParams) (name : string) :
  JS.is_inherited name = false ->
  Router.param_missing (Some pathParams) name = true <-> omitted_or_empty pathParams name.
Proof.
  intros Hname. unfold Router.param_missing, JS.get, omitted_or_empty. rewrite Hname.
  destruct (JS.own pathParams name) as [value|].
  - unfold JS.truthy_string. rewrite negb_involutive, String.eqb_eq.
    split; [intros ->; now right | intros [H|[= ->]]; [discriminate | reflexivity]].
  - split; [now left | reflexivity].
Qed.

Lemma classify_missing (missing : list string) :
  message_unclassified missing = true ->
  Execute.classify (Error (missing_message missing))
  = createErrorResponse INTERNAL_ERROR (missing_message missing) None.
Proof.
  unfold message_unclassified. intros [[H1 H2]%andb_true_iff H3]%andb_true_iff.
  apply negb_true_iff in H1, H2, H3.
  unfold Execute.classify, Execute.classify_shape, Error. cbn [JsError.status JsError.name JsError.message].
  change (String.eqb "Error" "TimeoutError") with false.
  now rewrite H1, H2, H3.
Qed.

End Dispatch.

(** C1 (defect of the code).  For every (resource, action) pair of the
    registry and every call of the execute tool that omits a required path
    parameter or supplies the empty string for it, [handleExecute] performs
    no network call and answers with one error whose message names every
    missing required parameter, and only those.  The error code is
    [INTERNAL_ERROR]: the failure raised by [routeAndExecute] carries no
    status and matches no failure shape, so the [catch] block does not reach
    [INVALID_PARAMS]. *)
Theorem handleExecute_missing_required_params :
  forall (config : Client.Config) (network : string -> FetchOptions.t -> outcome Response.t)
         (args : Execute.Args.t) (log : list FetchCall)
         (schema : ResourceSchema.t) (actionDef : ActionDef.t)
         (name : string) (paramDef : ParamDef.t),
    Registry.getSchema (Execute.Args.resource args) = Some schema ->
    JS.own (ResourceSchema.actions schema) (Execute.Args.action args) = Some actionDef ->
    In (name, paramDef) (Spec.declared_params actionDef) ->
    ParamDef.required paramDef = true ->
    Spec.omitted_or_empty (Spec.supplied args) name ->
    exists missing,
      Execute.handleExecute config network args log
      = (Return (createErrorResponse INTERNAL_ERROR
                   ("Missing required path parameters: " +:+ JS.join ", " missing) None),
         log)
      /\ In name missing
      /\ forall n, In n missing
                   <-> exists d, In (n, d) (Spec.declared_params actionDef)
                                 /\ ParamDef.required d = true
                                 /\ Spec.omitted_or_empty (Spec.supplied args) n.
Proof.
  intros config network args log schema actionDef name paramDef Hs Ha Hin Hreq Hmiss.
  destruct (registry_forall_spec _ _ _ _ _ registry_messages Hs Ha) as (Hr & Hact & Hc).
  apply andb_true_iff in Hc as [Hmsg Hown].
  unfold Spec.params_not_inherited in Hown. rewrite forallb_forall in Hown.
  assert (Hnot : forall n d, In (n, d) (Spec.declared_params actionDef) ->
                             JS.is_inherited n = false).
  { intros n d Hnd. apply negb_true_iff, Hown. now apply In_keys with d. }
  set (missing := Spec.missing_required actionDef (Some (Spec.supplied args))).
  assert (Hspec : forall n, In n missing
                            <-> exists d, In (n, d) (Spec.declared_params actionDef)
                                          /\ ParamDef.required d = true
                                          /\ Spec.omitted_or_empty (Spec.supplied args) n).
  { intros n. unfold missing, Spec.missing_required. rewrite in_map_iff. split.
    - intros [[n' d] [<- Hf]]. apply filter_In in Hf as [Hd [H1 H2]%andb_true_iff].
      exists d. simpl in *. repeat split; auto.
      now apply (param_missing_spec _ _ (Hnot _ _ Hd)).
    - intros [d (Hd & H1 & H2)]. exists (n, d). split; [reflexivity|].
      apply filter_In. split; [exact Hd|]. simpl. rewrite H1. simpl.
      now apply (param_missing_spec _ _ (Hnot _ _ Hd)). }
  assert (Hname : In name missing) by (apply Hspec; now exists paramDef).
  exists missing. split; [|split; [exact Hname | exact Hspec]].
  unfold Execute.handleExecute. rewrite Hr, Hact. cbn [negb orb].
  unfold try_catch, bind, Router.routeAndExecute, Execute.route_call.
  cbn [Router.Call.resource Router.Call.action Router.Call.pathParams].
  unfold Router.resolveAction. rewrite Hs, (get_own _ _ _ Ha).
  cbn [Router.Descriptor.pathParams].
  unfold Router.missing_params. rewrite missing_params_loop, app_nil_l.
  fold (Spec.declared_params actionDef). fold (Spec.supplied args).
  change (map fst (List.filter _ (Spec.declared_params actionDef))) with missing.
  destruct missing as [|m missing'] eqn:Hm; [contradiction|].
  cbn [length Nat.ltb Nat.leb]. unfold throw, ret.
  rewrite <- Hm. fold (Spec.missing_message missing).
  rewrite classify_missing; [reflexivity|].
  unfold Spec.action_messages_unclassified in Hmsg. rewrite forallb_forall in Hmsg.
  apply Hmsg. unfold missing, Spec.missing_required. apply sublists_filter.
Qed.

Lemma handleExecute_missing_required_params_witness :
  exists missing,
    Execute.handleExecute Sample.config Sample.refusing Sample.get_organization_without_id []
    = (Return (createErrorResponse INTERNAL_ERROR
                 ("Missing required path parameters: " +:+ JS.join ", " missing) None),
       [])
    /\ In "id" missing
    /\ forall n, In n missing
                 <-> exists d, In (n, d) (Spec.declared_params Sample.get_organization)
                               /\ ParamDef.required d = true
                               /\ Spec.omitted_or_empty
                                    (Spec.supplied Sample.get_organization_without_id) n.
Proof.
  apply (handleExecute_missing_required_params
           Sample.config Sample.refusing Sample.get_organization_without_id []
           Schemas.organizationsSchema Sample.get_organization
           "id" (ParamDef.mk "string" true "Organization UUID")).
  - vm_compute. reflexivity.
  - vm_compute. reflexivity.
  - left. reflexivity.
  - reflexivity.
  - left. reflexivity.
Defined.

(** The run the claim is about, evaluated. *)
Lemma handleExecute_missing_id :
  run (Execute.handleExecute Sample.config Sample.refusing Sample.get_organization_without_id)
  = (Return (createErrorResponse INTERNAL_ERROR "Missing required path parameters: id" None),
     []).
Proof. vm_compute. reflexivity. Qed.

(** C2 (corrected).  A failure thrown during execute that carries no HTTP
    status is classified by its shape.  A timeout (the name [TimeoutError] or
    a message containing [timeout]) surfaces as [BACKEND_ERROR] with a text
    that points to [MIDAZ_*_URL]; otherwise a refused connection or a failed
    name resolution (a message containing [fetch failed] or [ECONNREFUSED])
    surfaces as [RESOURCE_UNAVAILABLE] with a text that names the four
    variables [MIDAZ_ONBOARDING_URL], [MIDAZ_TRANSACTION_URL], [MIDAZ_CRM_URL]
    and [MIDAZ_LEDGER_URL]; anything else surfaces as [INTERNAL_ERROR] with
    the message of the failure. *)
Theorem handleExecute_classifies_failure_shape :
  forall (config : Client.Config) (network : string -> FetchOptions.t -> outcome Response.t)
         (args : Execute.Args.t) (log : list FetchCall) (err : JsError.t)
         (log' : list FetchCall),
    JS.truthy_string (Execute.Args.resource args) = true ->
    JS.truthy_string (Execute.Args.action args) = true ->
    Router.routeAndExecute config network (Execute.route_call args) log = (Throw err, log') ->
    JsError.status err = None ->
    exists result,
      Execute.handleExecute config network args log = (Return result, log')
      /\ (Spec.timeout_shaped err = true ->
          exists message,
            result = createErrorResponse BACKEND_ERROR message None
            /\ JS.includes message "MIDAZ_*_URL" = true)
      /\ (Spec.timeout_shaped err = false -> Spec.connection_shaped err = true ->
          exists message,
            result = createErrorResponse RESOURCE_UNAVAILABLE message None
            /\ JS.includes message "MIDAZ_ONBOARDING_URL" = true
            /\ JS.includes message "MIDAZ_TRANSACTION_URL" = true
            /\ JS.includes message "MIDAZ_CRM_URL" = true
            /\ JS.includes message "MIDAZ_LEDGER_URL" = true)
      /\ (Spec.timeout_shaped err = false -> Spec.connection_shaped err = false ->
          result = createErrorResponse INTERNAL_ERROR (JsError.message err) None).
Proof.
  intros config network args log err log' Hr Ha Hthrow Hstatus.
  exists (Execute.classify_shape err). split.
  - unfold Execute.handleExecute. rewrite Hr, Ha. cbn [negb orb].
    unfold try_catch, bind. rewrite Hthrow.
    unfold ret, Execute.classify. now rewrite Hstatus.
  - unfold Execute.classify_shape, Spec.timeout_shaped, Spec.connection_shaped.
    repeat split.
    + intros ->. eexists. split; [reflexivity|]. vm_compute. reflexivity.
    + intros -> ->. eexists. split; [reflexivity|]. repeat split; vm_compute; reflexivity.
    + now intros -> ->.
Qed.

Lemma handleExecute_classifies_failure_shape_witness :
  exists result,
    Execute.handleExecute Sample.config Sample.refusing Sample.list_organizations []
    = (Return result,
       [("http://localhost:3000/v1/organizations",
         FetchOptions.mk "GET"
           [("Content-Type", "application/json"); ("Accept", "application/json")]
           30000 None)])
    /\ (Spec.timeout_shaped Spec.connection_failure = true ->
        exists message,
          result = createErrorResponse BACKEND_ERROR message None
          /\ JS.includes message "MIDAZ_*_URL" = true)
    /\ (Spec.timeout_shaped Spec.connection_failure = false ->
        Spec.connection_shaped Spec.connection_failure = true ->
        exists message,
          result = createErrorResponse RESOURCE_UNAVAILABLE message None
          /\ JS.includes message "MIDAZ_ONBOARDING_URL" = true
          /\ JS.includes message "MIDAZ_TRANSACTION_URL" = true
          /\ JS.includes message "MIDAZ_CRM_URL" = true
          /\ JS.includes message "MIDAZ_LEDGER_URL" = true)
    /\ (Spec.timeout_shaped Spec.connection_failure = false ->
        Spec.connection_shaped Spec.connection_failure = false ->
        result = createErrorResponse INTERNAL_ERROR
                   (JsError.message Spec.connection_failure) None).
Proof.
  apply (handleExecute_classifies_failure_shape
           Sample.config Sample.refusing Sample.list_organizations []
           Spec.connection_failure).
  - reflexivity.
  - reflexivity.
  - vm_compute. reflexivity.
  - reflexivity.
Defined.

(** The shapes of the failures of the platform. *)
Lemma platform_failure_shapes :
  Spec.timeout_shaped Spec.timeout_failure = true
  /\ Spec.timeout_shaped Spec.connection_failure = false
  /\ Spec.connection_shaped Spec.connection_failure = true.
Proof. repeat split; reflexivity. Qed.

(** C2 as it is stated fails: when the request times out, the caller gets
    [BACKEND_ERROR]. *)
Lemma timeout_surfaces_as_backend_error :
  run (Execute.handleExecute Sample.config Sample.timing_out Sample.list_organizations)
  = (Return (createErrorResponse BACKEND_ERROR
               "Request timed out. Check if the Midaz service is running and MIDAZ_*_URL is configured correctly."
               None),
     [("http://localhost:3000/v1/organizations",
       FetchOptions.mk "GET"
         [("Content-Type", "application/json"); ("Accept", "application/json")]
         30000 None)])
  /\ ~ Spec.failures_surface_unavailable.
Proof.
  split; [vm_compute; reflexivity|].
  intros H.
  destruct (H Sample.config Sample.timing_out Sample.list_organizations []
              Spec.timeout_failure
              [("http://localhost:3000/v1/organizations",
                FetchOptions.mk "GET"
                  [("Content-Type", "application/json"); ("Accept", "application/json")]
                  30000 None)])
    as [result [Hrun Hcode]]; try reflexivity; [now left|].
  vm_compute in Hrun. injection Hrun as <-. discriminate Hcode.
Qed.

(** ** The executor *)

Section Executor.
Import Spec.

Lemma not_ok_not_204 (response : Response.t) :
  Response.ok response = false -> (Response.status response =? 204) = false.
Proof.
  unfold Response.ok. intros H. apply Z.eqb_neq. intros Heq. rewrite Heq in H. discriminate.
Qed.

End Executor.

(** C3 (corrected).  For every request that [executeRequest] issues (it has
    a method and a path template, and the configured timeout is a delay that
    [AbortSignal.timeout] accepts): with a method other than HEAD, when the
    backend answers with a non-2xx status [executeRequest] raises a failure
    after its single [fetch] call and never returns a payload; when the
    response body is read, parsed as JSON or as raw text, the failure carries
    the status, the status text, that body and the resolved URL the request
    was sent to.  A HEAD request returns [{status, headers, count}] after its
    single [fetch] call whatever the status. *)
Theorem executeRequest_non2xx_raises :
  forall (config : Client.Config) (network : string -> FetchOptions.t -> outcome Response.t)
         (req : Client.Request.t) (log : list FetchCall)
         (method template : string) (response : Response.t),
    Client.Request.method req = Some method ->
    Client.Request.pathTemplate req = Some template ->
    JS.uint32 (Derived.request_timeout config) = true ->
    (forall url options, network url options = Return response) ->
    exists url options,
      FetchOptions.method options = JS.toUpperCase method
      /\ (JS.toUpperCase method <> "HEAD" ->
          Response.ok response = false ->
          exists err,
            Client.executeRequest config network req log = (Throw err, log ++ [(url, options)])
            /\ match Spec.read_body response with
               | Return responseBody =>
                   JsError.status err = Some (Response.status response)
                   /\ JsError.statusText err = Some (Response.statusText response)
                   /\ JsError.body err = Some responseBody
                   /\ JsError.url err = Some url
               | Throw e => err = e
               end)
      /\ (JS.toUpperCase method = "HEAD" ->
          Client.executeRequest config network req log
          = (Return (Client.HeadResult (Response.status response) (Response.headers response)
                       (Derived.total_count response)),
             log ++ [(url, options)])).
Proof.
  intros config network req log method template response Hm Ht Hdelay Hnet.
  unfold Client.executeRequest. rewrite Hm, Ht.
  unfold Client.buildUrl_call, Client.method_toUpperCase, Client.AbortSignal_timeout,
    bind, ret, Client.fetch.
  unfold Derived.request_timeout in Hdelay. rewrite Hdelay. rewrite Hnet.
  eexists _, (FetchOptions.mk (JS.toUpperCase method) _ _ _).
  split; [reflexivity|]. split.
  - intros Hhead Hok. apply String.eqb_neq in Hhead. rewrite Hhead.
    rewrite (not_ok_not_204 _ Hok), andb_false_r.
    unfold Spec.read_body, lift.
    destruct (JS.includes _ "application/json").
    + destruct (Response.json response) as [responseBody|e].
      * rewrite Hok. cbn [negb]. unfold throw. eexists.
        split; [reflexivity|]. now repeat split.
      * eexists. split; reflexivity.
    + destruct (Response.text response) as [text|e].
      * rewrite Hok. cbn [negb]. unfold throw. eexists.
        split; [reflexivity|]. now repeat split.
      * eexists. split; reflexivity.
  - intros Hhead. rewrite Hhead. reflexivity.
Qed.

Lemma executeRequest_non2xx_raises_witness :
  (exists url options err,
      Client.executeRequest Sample.config Sample.answering_404
        Sample.get_organization_request []
      = (Throw err, [] ++ [(url, options)])
      /\ FetchOptions.method options = "GET"
      /\ JsError.status err = Some 404
      /\ JsError.statusText err = Some "Not Found"
      /\ JsError.body err = Some (JS.VStr "404 page not found")
      /\ JsError.url err = Some url)
  /\ (exists url options,
        Client.executeRequest Sample.config Sample.answering_404
          Sample.count_organizations []
        = (Return (Client.HeadResult 404 [("content-type", "text/plain")] None),
           [] ++ [(url, options)])
        /\ FetchOptions.method options = "HEAD").
Proof.
  split.
  - destruct (executeRequest_non2xx_raises
                Sample.config Sample.answering_404 Sample.get_organization_request []
                "GET" "/v1/organizations/:id" Sample.not_found
                eq_refl eq_refl eq_refl (fun _ _ => eq_refl))
      as (url & options & Hmethod & Hraise & _).
    assert (Hget : JS.toUpperCase "GET" <> "HEAD") by discriminate.
    destruct (Hraise Hget eq_refl) as (err & Hrun & Hstatus & Htext & Hbody & Hurl).
    exists url, options, err. repeat split; assumption.
  - destruct (executeRequest_non2xx_raises
                Sample.config Sample.answering_404 Sample.count_organizations []
                "HEAD" "/v1/organizations/metrics/count" Sample.not_found
                eq_refl eq_refl eq_refl (fun _ _ => eq_refl))
      as (url & options & Hmethod & _ & Hhead).
    exists url, options. split; [exact (Hhead eq_refl) | exact Hmethod].
Defined.

(** The two runs of the claim, evaluated: a GET and a HEAD answered with
    404. *)
Lemma executeRequest_not_found_runs :
  (exists err,
      run (Client.executeRequest Sample.config Sample.answering_404
             Sample.get_organization_request)
      = (Throw err,
         [("http://localhost:3000/v1/organizations/42",
           FetchOptions.mk "GET"
             [("Content-Type", "application/json"); ("Accept", "application/json")]
             30000 None)])
      /\ JsError.status err = Some 404)
  /\ run (Client.executeRequest Sample.config Sample.answering_404
            Sample.count_organizations)
     = (Return (Client.HeadResult 404 [("content-type", "text/plain")] None),
        [("http://localhost:3000/v1/organizations/metrics/count",
          FetchOptions.mk "HEAD"
            [("Content-Type", "application/json"); ("Accept", "application/json")]
            30000 None)]).
Proof. split; [eexists; split|]; vm_compute; reflexivity. Qed.

(** C3 as it is stated fails: a HEAD request returns
    [{status, headers, count}] whatever the status. *)
Lemma head_returns_for_non2xx :
  Response.ok Sample.not_found = false
  /\ run (Client.executeRequest Sample.config Sample.answering_404 Sample.count_organizations)
     = (Return (Client.HeadResult 404 [("content-type", "text/plain")] None),
        [("http://localhost:3000/v1/organizations/metrics/count",
          FetchOptions.mk "HEAD"
            [("Content-Type", "application/json"); ("Accept", "application/json")]
            30000 None)])
  /\ ~ Spec.non2xx_always_raises.
Proof.
  split; [reflexivity|]. split; [vm_compute; reflexivity|].
  intros H.
  destruct (H Sample.config Sample.count_organizations Sample.not_found [] "HEAD"
              "/v1/organizations/metrics/count" eq_refl eq_refl eq_refl)
    as (err & log' & Hrun & _).
  vm_compute in Hrun. discriminate Hrun.
Qed.

(** A 404 of the backend reaches the caller as [RESOURCE_NOT_FOUND] with the
    URL in the detail. *)
Lemma handleExecute_not_found :
  run (Execute.handleExecute Sample.config Sample.answering_404
         (Execute.Args.mk "organizations" "get" (Some [("id", "42")]) None None))
  = (Return (createErrorResponse RESOURCE_NOT_FOUND
               "Resource not found: http://localhost:3000/v1/organizations/42"
               (Some (mkDetail 404 (Some "Not Found")
                        (Some "http://localhost:3000/v1/organizations/42")
                        (Some (JS.VStr "404 page not found"))))),
     [("http://localhost:3000/v1/organizations/42",
       FetchOptions.mk "GET"
         [("Content-Type", "application/json"); ("Accept", "application/json")]
         30000 None)]).
Proof. vm_compute. reflexivity. Qed.

(** A DELETE answered with 204 is reported without reading the body. *)
Lemma executeRequest_delete_204 :
  forall (config : Client.Config) (req : Client.Request.t) (log : list FetchCall)
         (template statusText : string) (headers : list (string * string))
         (json : outcome JS.value) (text : outcome string),
    Client.Request.method req = Some "DELETE" ->
    Client.Request.pathTemplate req = Some template ->
    JS.uint32 (Derived.request_timeout config) = true ->
    exists call,
      Client.executeRequest config
        (fun _ _ => Return (Response.mk 204 statusText headers json text)) req log
      = (Return (Client.DeleteResult 204 "Successfully deleted"), log ++ [call]).
Proof.
  intros config req log template statusText headers json text Hm Ht Hdelay.
  unfold Client.executeRequest. rewrite Hm, Ht.
  unfold Client.buildUrl_call, Client.method_toUpperCase, Client.AbortSignal_timeout,
    bind, ret, Client.fetch.
  unfold Derived.request_timeout in Hdelay. rewrite Hdelay. eexists. reflexivity.
Qed.

(** * Further properties *)

(** ** Registry lookups *)

Section RegistryLookups.
Import Registry.

Lemma schemaMap_fold_other (l : list ResourceSchema.t) (m : gmap string ResourceSchema.t)
    (r : string) :
  ~ In r (map ResourceSchema.resource l) ->
  foldl (fun m schema => <[ResourceSchema.resource schema := schema]> m) m l !! r = m !! r.
Proof.
  revert m; induction l as [|x l IH]; intros m Hr; [reflexivity|].
  simpl in *. rewrite IH by tauto. apply lookup_insert_ne. tauto.
Qed.

Lemma schemaMap_fold_In (l : list ResourceSchema.t) (m : gmap string ResourceSchema.t)
    (s : ResourceSchema.t) :
  NoDup (map ResourceSchema.resource l) ->
  In s l ->
  foldl (fun m schema => <[ResourceSchema.resource schema := schema]> m) m l
    !! ResourceSchema.resource s = Some s.
Proof.
  revert m; induction l as [|x l IH]; intros m Hnd Hin; [contradiction|].
  simpl in *. inversion Hnd as [|? ? Hx Hnd']; subst. destruct Hin as [->|Hin].
  - rewrite schemaMap_fold_other.
    + apply lookup_insert_eq.
    + intros H. apply Hx. now apply list_elem_of_In.
  - now apply IH.
Qed.

Lemma resources_distinct : NoDup (map ResourceSchema.resource allSchemas).
Proof. apply (bool_decide_unpack _). vm_compute. exact I. Qed.

End RegistryLookups.

(** X1.  The [Map] of the registry holds exactly the schemas of
    [allSchemas], each under its own resource name: no two schemas share a
    name, so building the map loses none. *)
Theorem getSchema_registered :
  forall (resource : string) (schema : ResourceSchema.t),
    Registry.getSchema resource = Some schema
    <-> In schema Registry.allSchemas /\ ResourceSchema.resource schema = resource.
Proof.
  intros resource schema. split; [apply getSchema_In|].
  intros [Hin <-]. apply schemaMap_fold_In; [apply resources_distinct | exact Hin].
Qed.

(** ** Search *)

Section Search.
Import Registry.

Lemma includes_iff (s pat : string) :
  JS.includes s pat = true <-> exists pre post, Spec.occurs_at pat s pre post.
Proof.
  split.
  - unfold JS.includes. destruct (JS.find pat s) as [[pre post]|] eqn:Hf; [|discriminate].
    intros _. exists pre, post. now apply find_occurs.
  - intros (pre & post & H). now apply includes_occurs with pre post.
Qed.

Lemma includes_empty (s : string) : JS.includes s "" = true.
Proof. apply includes_iff. exists "", s. reflexivity. Qed.

Lemma lower_upper_char (c : ascii) : JS.lower_char (JS.upper_char c) = JS.lower_char c.
Proof. ascii_cases c; reflexivity. Qed.

Lemma lower_lower_char (c : ascii) : JS.lower_char (JS.lower_char c) = JS.lower_char c.
Proof. ascii_cases c; reflexivity. Qed.

Lemma toLowerCase_toUpperCase (s : string) :
  JS.toLowerCase (JS.toUpperCase s) = JS.toLowerCase s.
Proof.
  induction s as [|c s IH]; [reflexivity|].
  unfold JS.toLowerCase, JS.toUpperCase in *. simpl. now rewrite lower_upper_char, IH.
Qed.

Lemma toLowerCase_idempotent (s : string) :
  JS.toLowerCase (JS.toLowerCase s) = JS.toLowerCase s.
Proof.
  induction s as [|c s IH]; [reflexivity|].
  unfold JS.toLowerCase in *. simpl. now rewrite lower_lower_char, IH.
Qed.

Lemma findSchemas_query (q q' : string) :
  JS.toLowerCase q = JS.toLowerCase q' -> findSchemas q = findSchemas q'.
Proof. intros H. unfold findSchemas. now rewrite H. Qed.

Lemma filter_all {A : Type} (p : A -> bool) (l : list A) :
  (forall x, In x l -> p x = true) -> List.filter p l = l.
Proof.
  induction l as [|x l IH]; intros H; [reflexivity|].
  simpl. rewrite (H x) by now left. f_equal. apply IH. intros y Hy. apply H. now right.
Qed.

End Search.

(** X2.  For a query of ASCII characters, [findSchemas] returns exactly the
    schemas of the registry in which the query occurs, letter case aside, in
    the resource name, the description, the component or the name of an
    action. *)
Theorem findSchemas_matches :
  forall (query : string) (schema : ResourceSchema.t),
    Derived.ascii_text query = true ->
    (In schema (Registry.findSchemas query)
     <-> In schema Registry.allSchemas
         /\ exists field, In field (Derived.search_fields schema)
                          /\ Derived.matches query field).
Proof.
  intros query schema _. unfold Registry.findSchemas, Derived.matches, Derived.search_fields.
  rewrite filter_In. apply and_iff_compat_l.
  rewrite !orb_true_iff, existsb_exists. setoid_rewrite includes_iff. split.
  - intros [[[H|H]|H]|(a & Ha & H)].
    + eexists. split; [left; reflexivity | exact H].
    + eexists. split; [right; left; reflexivity | exact H].
    + eexists. split; [right; right; left; reflexivity | exact H].
    + exists a. split; [now do 3 right | exact H].
  - intros (field & [<-|[<-|[<-|Hin]]] & H); auto.
    right. now exists field.
Qed.

Lemma findSchemas_matches_witness :
  In Schemas.ledgersSchema (Registry.findSchemas "LEDGER")
  <-> In Schemas.ledgersSchema Registry.allSchemas
      /\ exists field, In field (Derived.search_fields Schemas.ledgersSchema)
                       /\ Derived.matches "LEDGER" field.
Proof.
  apply (findSchemas_matches "LEDGER" Schemas.ledgersSchema). reflexivity.
Defined.

(** X3.  The search does not look at the letter case of a query of ASCII
    characters, and the empty query finds every schema. *)
Theorem findSchemas_case_insensitive :
  forall query : string,
    Derived.ascii_text query = true ->
    Registry.findSchemas (JS.toUpperCase query) = Registry.findSchemas query
    /\ Registry.findSchemas (JS.toLowerCase query) = Registry.findSchemas query
    /\ Registry.findSchemas "" = Registry.allSchemas.
Proof.
  intros query _. split; [|split].
  - apply findSchemas_query, toLowerCase_toUpperCase.
  - apply findSchemas_query, toLowerCase_idempotent.
  - unfold Registry.findSchemas. apply filter_all. intros s _.
    change (JS.toLowerCase "") with "". now rewrite includes_empty.
Qed.

Lemma findSchemas_case_insensitive_witness :
  Registry.findSchemas (JS.toUpperCase "Ledger") = Registry.findSchemas "Ledger"
  /\ Registry.findSchemas (JS.toLowerCase "Ledger") = Registry.findSchemas "Ledger"
  /\ Registry.findSchemas "" = Registry.allSchemas.
Proof.
  apply (findSchemas_case_insensitive "Ledger"). reflexivity.
Defined.

(** ** Discovery *)

Section Discovery.
Import Registry.

Lemma partition_by_component {A : Type} (k : A -> string) (l : list A) :
  (forall x, In x l -> In (k x) Derived.known_components) ->
  Permutation
    (List.filter (fun x => String.eqb (k x) "onboarding") l
     ++ List.filter (fun x => String.eqb (k x) "transaction") l
     ++ List.filter (fun x => String.eqb (k x) "crm") l
     ++ List.filter (fun x => String.eqb (k x) "ledger") l)
    l.
Proof.
  induction l as [|x l IH]; intros Hk; [constructor|].
  assert (IH' := IH (fun y Hy => Hk y (or_intror Hy))).
  destruct (Hk x (or_introl eq_refl)) as [H|[H|[H|[H|[]]]]];
    cbn [List.filter]; rewrite <- H; cbn [String.eqb Ascii.eqb Bool.eqb].
  - now constructor.
  - apply Permutation_sym, Permutation_cons_app, Permutation_sym. exact IH'.
  - rewrite app_assoc. apply Permutation_sym, Permutation_cons_app, Permutation_sym.
    now rewrite <- app_assoc.
  - rewrite 2!app_assoc. apply Permutation_sym, Permutation_cons_app, Permutation_sym.
    now rewrite <- 2!app_assoc.
Qed.

Lemma list_sum_permutation {A : Type} (f : A -> nat) (l l' : list A) :
  Permutation l l' -> list_sum (map f l) = list_sum (map f l').
Proof. induction 1; simpl; lia. Qed.

Lemma components_known :
  forallb (fun s => existsb (String.eqb (ResourceSchema.component s)) Derived.known_components)
          allSchemas = true.
Proof. reflexivity. Qed.

Lemma summary_component_known (r : ResourceSummary) :
  In r listResources -> In (sum_component r) Derived.known_components.
Proof.
  unfold listResources. rewrite in_map_iff. intros (s & <- & Hs). simpl.
  pose proof components_known as H. rewrite forallb_forall in H.
  specialize (H s Hs). apply existsb_exists in H as (c & Hc & Heq).
  apply String.eqb_eq in Heq. now rewrite Heq.
Qed.

End Discovery.

(** X4.  The [list-resources] intent lists every resource of the registry in
    exactly one of the four component groups, and its two totals are the
    number of listed resources and the number of listed action names. *)
Theorem list_resources_groups :
  forall resource action query component,
    exists onboarding transaction crm ledger hint,
      let listed := onboarding ++ transaction ++ crm ++ ledger in
      Discover.handleDiscover
        (Discover.Args.mk "list-resources" resource action query component)
      = createToolResponse
          (Discover.ListResources
             (length listed)
             (list_sum (map (fun entry => length (Discover.entry_actions entry)) listed))
             onboarding transaction crm ledger hint)
      /\ Permutation (map Discover.entry_resource listed)
                     (map ResourceSchema.resource Registry.allSchemas).
Proof.
  intros resource action query component.
  pose proof (partition_by_component Registry.sum_component Registry.listResources
                summary_component_known) as Hperm.
  apply (Permutation_map Derived.to_entry) in Hperm. rewrite !map_app in Hperm.
  eexists _, _, _, _, _. cbv zeta. split.
  - unfold Discover.handleDiscover. cbn [Discover.Args.intent String.eqb Ascii.eqb Bool.eqb].
    unfold Discover.entries_of. fold Derived.to_entry. f_equal. f_equal.
    + apply Permutation_length in Hperm. rewrite Hperm, !length_map. reflexivity.
    + rewrite (list_sum_permutation _ _ _ Hperm).
      unfold Router.getEndpointCount. rewrite fold_count, Nat.add_0_l.
      unfold Registry.listResources, Registry.getAllSchemas. rewrite !map_map. reflexivity.
  - unfold Discover.entries_of. fold Derived.to_entry.
    apply (Permutation_map Discover.entry_resource) in Hperm.
    etransitivity; [exact Hperm|].
    unfold Registry.listResources. rewrite !map_map. reflexivity.
Qed.

(** X5.  The discover tool fails only with [INVALID_PARAMS] or
    [RESOURCE_NOT_FOUND], never with a detail, and [RESOURCE_NOT_FOUND] is
    the answer of the two describing intents alone. *)
Theorem handleDiscover_error_codes :
  forall (args : Discover.Args.t) (code : ErrorCode) (message : string)
         (detail : option ErrorDetail),
    Discover.handleDiscover args = createErrorResponse code message detail ->
    detail = None
    /\ (code = INVALID_PARAMS
        \/ (code = RESOURCE_NOT_FOUND
            /\ (Discover.Args.intent args = "describe-resource"
                \/ Discover.Args.intent args = "describe-action"))).
Proof.
  intros args code message detail. unfold Discover.handleDiscover.
  destruct (String.eqb_spec (Discover.Args.intent args) "list-resources"); [discriminate|].
  destruct (String.eqb_spec (Discover.Args.intent args) "describe-resource") as [Hi|_].
  { destruct (Discover.falsy _); [intros [= <- _ <-]; auto|].
    destruct (Registry.getSchema _); [discriminate|]. intros [= <- _ <-]. auto. }
  destruct (String.eqb_spec (Discover.Args.intent args) "describe-action") as [Hi|_].
  { destruct (_ || _); [intros [= <- _ <-]; auto|].
    destruct (Router.resolveAction _ _); [|discriminate]. intros [= <- _ <-]. auto. }
  destruct (String.eqb_spec (Discover.Args.intent args) "search") as [Hi|_].
  { destruct (Discover.falsy _); [intros [= <- _ <-]; auto|].
    destruct (Nat.eqb _ 0); discriminate. }
  destruct (String.eqb_spec (Discover.Args.intent args) "list-by-component") as [Hi|_].
  { destruct (Discover.falsy _); [intros [= <- _ <-]; auto | discriminate]. }
  intros [= <- _ <-]. auto.
Qed.

Lemma handleDiscover_error_codes_witness :
  Discover.handleDiscover (Discover.Args.mk "rename" None None None None)
  = createErrorResponse INVALID_PARAMS "Unknown intent: rename" None
  /\ (None = (None : option ErrorDetail)
      /\ (INVALID_PARAMS = INVALID_PARAMS
          \/ (INVALID_PARAMS = RESOURCE_NOT_FOUND
              /\ (Discover.Args.intent (Discover.Args.mk "rename" None None None None)
                  = "describe-resource"
                  \/ Discover.Args.intent (Discover.Args.mk "rename" None None None None)
                     = "describe-action")))).
Proof.
  split; [reflexivity|].
  apply (handleDiscover_error_codes (Discover.Args.mk "rename" None None None None)
           INVALID_PARAMS "Unknown intent: rename" None).
  reflexivity.
Defined.

Section Describe.
Import Registry.

Lemma registry_params_consistent (resource action : string) (schema : ResourceSchema.t)
    (def : ActionDef.t) :
  getSchema resource = Some schema ->
  In (action, def) (ResourceSchema.actions schema) ->
  forall name, In name (Spec.placeholders (ActionDef.path def))
               <-> In name (JS.keys (Spec.declared_params def)).
Proof.
  intros Hs Hin. apply getSchema_In in Hs as [Hs _].
  pose proof registry_consistent as Hall. unfold Spec.registry_forall in Hall.
  rewrite forallb_forall in Hall. specialize (Hall schema Hs).
  apply andb_true_iff in Hall as [_ Hacts]. rewrite forallb_forall in Hacts.
  specialize (Hacts _ Hin). apply andb_true_iff in Hacts as [_ Hc].
  unfold Spec.action_consistent in Hc.
  apply andb_true_iff in Hc as [[_ H1]%andb_true_iff H2].
  intros name. split; [apply (subset_In _ _ H1) | apply (subset_In _ _ H2)].
Qed.

End Describe.

(** X6.  For a registered resource the [describe-resource] intent lists the
    actions of the schema in their order, each with the method and the path
    of the schema, and flags an action with [hasPathParams] exactly when its
    path has a placeholder. *)
Theorem describe_resource_overview :
  forall (resource : string) (schema : ResourceSchema.t) action query component,
    Registry.getSchema resource = Some schema ->
    exists overview hint,
      Discover.handleDiscover
        (Discover.Args.mk "describe-resource" (Some resource) action query component)
      = createToolResponse
          (Discover.DescribeResource (ResourceSchema.resource schema)
             (ResourceSchema.component schema) (ResourceSchema.description schema)
             overview hint)
      /\ map fst overview = JS.keys (ResourceSchema.actions schema)
      /\ forall name entry,
           In (name, entry) overview ->
           exists def,
             In (name, def) (ResourceSchema.actions schema)
             /\ Discover.ov_method entry = ActionDef.method def
             /\ Discover.ov_path entry = ActionDef.path def
             /\ (Discover.hasPathParams entry = true
                 <-> Spec.placeholders (Discover.ov_path entry) <> []).
Proof.
  intros resource schema action query component Hs.
  assert (Hr : JS.truthy_string resource = true).
  { pose proof registry_consistent as Hall. apply getSchema_In in Hs as [Hin <-].
    unfold Spec.registry_forall in Hall. rewrite forallb_forall in Hall.
    specialize (Hall schema Hin). now apply andb_true_iff in Hall as [Hr _]. }
  unfold Discover.handleDiscover.
  cbn [Discover.Args.intent Discover.Args.resource String.eqb Ascii.eqb Bool.eqb].
  unfold Discover.falsy. rewrite Hr. cbn [negb Discover.text_of]. rewrite Hs.
  eexists _, _. split; [reflexivity|]. split.
  - unfold JS.keys. rewrite map_map. reflexivity.
  - intros name entry Hin. apply in_map_iff in Hin as ([name' def] & [= <- <-] & Hdef).
    exists def. cbn [fst snd Discover.ov_method Discover.ov_path Discover.hasPathParams].
    split; [exact Hdef|]. split; [reflexivity|]. split; [reflexivity|].
    pose proof (registry_params_consistent _ _ _ _ Hs Hdef) as Hc.
    unfold Spec.declared_params in Hc.
    destruct (ActionDef.pathParams def) as [params|].
    + destruct params as [|[p pd] params].
      * split; [discriminate|]. intros Hne.
        destruct (Spec.placeholders (ActionDef.path def)) as [|t ts]; [contradiction|].
        exfalso. apply (proj1 (Hc t)). now left.
      * split; [|reflexivity]. intros _ Hnil.
        assert (Hp : In p (Spec.placeholders (ActionDef.path def)))
          by (apply Hc; now left).
        rewrite Hnil in Hp. exact Hp.
    + split; [discriminate|]. intros Hne.
      destruct (Spec.placeholders (ActionDef.path def)) as [|t ts]; [contradiction|].
      exfalso. apply (proj1 (Hc t)). now left.
Qed.

Lemma describe_resource_overview_witness :
  exists overview hint,
    Discover.handleDiscover
      (Discover.Args.mk "describe-resource" (Some "organizations") None None None)
    = createToolResponse
        (Discover.DescribeResource (ResourceSchema.resource Schemas.organizationsSchema)
           (ResourceSchema.component Schemas.organizationsSchema)
           (ResourceSchema.description Schemas.organizationsSchema)
           overview hint)
    /\ map fst overview = JS.keys (ResourceSchema.actions Schemas.organizationsSchema)
    /\ forall name entry,
         In (name, entry) overview ->
         exists def,
           In (name, def) (ResourceSchema.actions Schemas.organizationsSchema)
           /\ Discover.ov_method entry = ActionDef.method def
           /\ Discover.ov_path entry = ActionDef.path def
           /\ (Discover.hasPathParams entry = true
               <-> Spec.placeholders (Discover.ov_path entry) <> []).
Proof.
  apply (describe_resource_overview "organizations" Schemas.organizationsSchema
           None None None).
  vm_compute. reflexivity.
Defined.

(** ** The executor, all outcomes *)

Section ExecutorOutcomes.

Variable config : Client.Config.
Variable network : string -> FetchOptions.t -> outcome Response.t.

(** [executeRequest] in one view: the failures before the request, the one
    request, and the reading of its response. *)
Lemma executeRequest_run (req : Client.Request.t) (log : list FetchCall) :
  Client.executeRequest config network req log
  = match Derived.request_path config req with
    | Throw e => (Throw e, log)
    | Return path =>
        match Client.Request.method req with
        | None => (Throw (TypeError_undefined "toUpperCase"), log)
        | Some method =>
            if JS.uint32 (Derived.request_timeout config) then
              let url := path +:+ Client.buildQueryString (Client.Request.queryParams req) in
              let options := Derived.request_options config req (JS.toUpperCase method) in
              (match network url options with
               | Return response => Derived.interpret (JS.toUpperCase method) url response
               | Throw e => Throw e
               end,
               log ++ [(url, options)])
            else (Throw (RangeError_delay (Derived.request_timeout config)), log)
        end
    end.
Proof.
  unfold Client.executeRequest, Client.buildUrl_call, Client.method_toUpperCase,
    Client.AbortSignal_timeout, Derived.request_path, Derived.base_url, bind, ret, throw,
    Client.fetch, lift.
  destruct (Client.Request.pathTemplate req) as [template|];
    [|destruct (Client.Request.pathParams req) as [[|kv entries]|]];
    try reflexivity;
    (destruct (Client.Request.method req) as [method|]; [|reflexivity]);
    cbv zeta;
    change (match Client.timeout (Client.midazApi_or_empty config) with
            | Some t => if t =? 0 then 30000 else t
            | None => 30000
            end) with (Derived.request_timeout config);
    (destruct (JS.uint32 (Derived.request_timeout config)); [|reflexivity]);
    (match goal with |- context [network ?u ?o] =>
       change o with (Derived.request_options config req (JS.toUpperCase method));
       destruct (network u (Derived.request_options config req (JS.toUpperCase method)))
         as [response|e]; [|reflexivity]
     end);
    unfold Derived.interpret, Spec.read_body, Derived.total_count;
    (destruct (String.eqb (JS.toUpperCase method) "HEAD"); [reflexivity|]);
    (destruct (String.eqb (JS.toUpperCase method) "DELETE" && (Response.status response =? 204));
     [reflexivity|]);
    (destruct (JS.includes _ "application/json");
     [destruct (Response.json response) | destruct (Response.text response)];
     [destruct (negb (Response.ok response)); reflexivity | reflexivity
     |destruct (negb (Response.ok response)); reflexivity | reflexivity]).
Qed.

Lemma interpret_payload (METHOD url : string) (response : Response.t)
    (payload : Client.ExecResult) (options : FetchOptions.t) :
  FetchOptions.method options = METHOD ->
  Derived.interpret METHOD url response = Return payload ->
  Derived.payload_of_response options response payload.
Proof.
  intros Hm. unfold Derived.interpret.
  destruct (String.eqb_spec METHOD "HEAD") as [->|_].
  { intros [= <-]. simpl. auto. }
  destruct (String.eqb_spec METHOD "DELETE") as [->|_]; cbn [andb].
  { destruct (Z.eqb_spec (Response.status response) 204) as [H|_].
    - intros [= <-]. simpl. auto.
    - destruct (Spec.read_body response) as [b|e] eqn:Hb; [|discriminate].
      destruct (Response.ok response) eqn:Hok; [|discriminate].
      intros [= <-]. simpl. auto. }
  destruct (Spec.read_body response) as [b|e] eqn:Hb; [|discriminate].
  destruct (Response.ok response) eqn:Hok; [|discriminate].
  intros [= <-]. simpl. auto.
Qed.

Lemma executeRequest_outcome (req : Client.Request.t) (log : list FetchCall) :
  exists o log',
    Client.executeRequest config network req log = (o, log')
    /\ Derived.at_most_one_call log log'
    /\ forall payload,
         o = Return payload ->
         exists url options response,
           log' = log ++ [(url, options)]
           /\ network url options = Return response
           /\ Derived.payload_of_response options response payload.
Proof.
  rewrite executeRequest_run.
  destruct (Derived.request_path config req) as [path|e].
  - destruct (Client.Request.method req) as [method|].
    + destruct (JS.uint32 (Derived.request_timeout config)).
      * cbv zeta. eexists _, _. split; [reflexivity|]. split; [right; now eexists|].
        intros payload Hp.
        match goal with H : context [network ?u ?o] |- _ =>
          destruct (network u o) as [response|e] eqn:Hnet; [|discriminate];
          exists u, o, response
        end.
        split; [reflexivity|]. split; [exact Hnet|].
        now apply interpret_payload with (JS.toUpperCase method) (path +:+ Client.buildQueryString (Client.Request.queryParams req)).
      * eexists _, _. split; [reflexivity|]. split; [now left | discriminate].
    + eexists _, _. split; [reflexivity|]. split; [now left | discriminate].
  - eexists _, _. split; [reflexivity|]. split; [now left | discriminate].
Qed.

Lemma routeAndExecute_outcome (call : Router.Call.t) (log : list FetchCall) :
  exists o log',
    Router.routeAndExecute config network call log = (o, log')
    /\ Derived.at_most_one_call log log'
    /\ forall payload,
         o = Return payload ->
         exists url options response,
           log' = log ++ [(url, options)]
           /\ network url options = Return response
           /\ Derived.payload_of_response options response payload.
Proof.
  unfold Router.routeAndExecute.
  destruct (Router.resolveAction _ _) as [error|resolved].
  - eexists _, _. split; [reflexivity|]. split; [now left | discriminate].
  - destruct (Nat.ltb 0 _).
    + eexists _, _. split; [reflexivity|]. split; [now left | discriminate].
    + apply executeRequest_outcome.
Qed.

End ExecutorOutcomes.

(** X7.  The execute tool never throws, calls [fetch] at most once, and a
    payload it reports as success is read from the response of that call: a
    2xx body, the 204 of a DELETE, or the status and headers of a HEAD. *)
Theorem handleExecute_outcome :
  forall (config : Client.Config) (network : string -> FetchOptions.t -> outcome Response.t)
         (args : Execute.Args.t) (log : list FetchCall),
    exists result log',
      Execute.handleExecute config network args log = (Return result, log')
      /\ Derived.at_most_one_call log log'
      /\ forall payload,
           result = createToolResponse payload ->
           exists url options response,
             log' = log ++ [(url, options)]
             /\ network url options = Return response
             /\ Derived.payload_of_response options response payload.
Proof.
  intros config network args log. unfold Execute.handleExecute.
  destruct (negb _ || negb _).
  - eexists _, _. split; [reflexivity|]. split; [now left | discriminate].
  - unfold try_catch, bind, ret.
    destruct (routeAndExecute_outcome config network (Execute.route_call args) log)
      as (o & log' & Hrun & Hcalls & Hpayload).
    rewrite Hrun. destruct o as [payload|err].
    + eexists _, _. split; [reflexivity|]. split; [exact Hcalls|].
      intros p [= <-]. now apply Hpayload.
    + eexists _, _. split; [reflexivity|]. split; [exact Hcalls|].
      intros p Hp. unfold Execute.classify, Execute.classify_shape, Execute.classify_status in Hp.
      repeat match type of Hp with
             | context [match ?x with _ => _ end] => destruct x
             end; discriminate.
Qed.

(** ** Valid calls *)

Section ValidCalls.

Variable config : Client.Config.
Variable network : string -> FetchOptions.t -> outcome Response.t.

Lemma supplies_not_missing (pathParams : Client.PathParams) (name : string) :
  Derived.supplies pathParams name -> Router.param_missing (Some pathParams) name = false.
Proof.
  intros (value & Hown & Hne). unfold Router.param_missing, JS.get. rewrite Hown.
  unfold JS.truthy_string. apply String.eqb_neq in Hne. now rewrite Hne.
Qed.

Lemma missing_params_none (declared : list (string * ParamDef.t))
    (pathParams : Client.PathParams) :
  (forall name, In name (JS.keys declared) -> Derived.supplies pathParams name) ->
  Router.missing_params declared (Some pathParams) = [].
Proof.
  intros H. unfold Router.missing_params. rewrite missing_params_loop, app_nil_l.
  induction declared as [|[name def] declared IH]; [reflexivity|].
  cbn [List.filter fst snd].
  rewrite supplies_not_missing, andb_false_r by (apply H; now left).
  apply IH. intros n Hn. apply H. now right.
Qed.

Lemma registry_methods_upper :
  Spec.registry_forall (fun _ => Derived.method_upper) = true.
Proof. vm_compute. reflexivity. Qed.

Lemma routeAndExecute_valid (call : Router.Call.t) (log : list FetchCall)
    (schema : ResourceSchema.t) (def : ActionDef.t) (pathParams : Client.PathParams) :
  Registry.getSchema (Router.Call.resource call) = Some schema ->
  JS.own (ResourceSchema.actions schema) (Router.Call.action call) = Some def ->
  Router.Call.pathParams call = Some pathParams ->
  (forall name, In name (JS.keys (Spec.declared_params def)) ->
                Derived.supplies pathParams name) ->
  Router.routeAndExecute config network call log
  = Client.executeRequest config network (Derived.request_of schema def call) log.
Proof.
  intros Hs Ha Hp Hsup.
  unfold Router.routeAndExecute, Router.resolveAction, Derived.request_of.
  rewrite Hs, (get_own _ _ _ Ha). cbn [Router.Descriptor.pathParams].
  fold (Spec.declared_params def). rewrite Hp, (missing_params_none _ _ Hsup).
  reflexivity.
Qed.

End ValidCalls.

Section ValidRequest.

Variable config : Client.Config.
Variable network : string -> FetchOptions.t -> outcome Response.t.

Lemma routeAndExecute_request (call : Router.Call.t) (log : list FetchCall)
    (schema : ResourceSchema.t) (def : ActionDef.t) (pathParams : Client.PathParams) :
  Registry.getSchema (Router.Call.resource call) = Some schema ->
  JS.own (ResourceSchema.actions schema) (Router.Call.action call) = Some def ->
  Router.Call.pathParams call = Some pathParams ->
  (forall name, In name (JS.keys (Spec.declared_params def)) ->
                Derived.supplies pathParams name) ->
  Router.routeAndExecute config network call log
  = if JS.uint32 (Derived.request_timeout config) then
      (match network (Derived.request_url config (Derived.request_of schema def call)
                        (ActionDef.path def))
               (Derived.request_options config (Derived.request_of schema def call)
                  (ActionDef.method def)) with
       | Return response =>
           Derived.interpret (ActionDef.method def)
             (Derived.request_url config (Derived.request_of schema def call)
                (ActionDef.path def))
             response
       | Throw e => Throw e
       end,
       log ++ [(Derived.request_url config (Derived.request_of schema def call)
                  (ActionDef.path def),
                Derived.request_options config (Derived.request_of schema def call)
                  (ActionDef.method def))])
    else (Throw (RangeError_delay (Derived.request_timeout config)), log).
Proof.
  intros Hs Ha Hp Hsup.
  rewrite (routeAndExecute_valid config network call log schema def pathParams Hs Ha Hp Hsup).
  rewrite executeRequest_run.
  destruct (registry_forall_spec _ _ _ _ _ registry_methods_upper Hs Ha) as (_ & _ & Hup).
  unfold Derived.method_upper in Hup. apply String.eqb_eq in Hup.
  unfold Derived.request_path.
  change (Client.Request.pathTemplate (Derived.request_of schema def call))
    with (Some (ActionDef.path def)).
  change (Client.Request.method (Derived.request_of schema def call))
    with (Some (ActionDef.method def)).
  cbv beta iota zeta. rewrite Hup. reflexivity.
Qed.

End ValidRequest.



(** ** Failures with a status *)

Section StatusFailures.

Lemma classify_status_code (err : JsError.t) (status : Z) :
  exists message,
    Execute.classify_status err status
    = createErrorResponse (Derived.status_code status) message
        (Some (mkDetail status (JsError.statusText err) (JsError.url err) (JsError.body err)))
    /\ (status = 404 -> message = "Resource not found: " +:+ Execute.text_of (JsError.url err)).
Proof.
  unfold Execute.classify_status, Derived.status_code.
  destruct (Z.eqb_spec status 400); [eexists; split; [reflexivity | lia]|].
  destruct ((status =? 401) || (status =? 403)) eqn:Hauth.
  { eexists; split; [reflexivity|]. intros ->. discriminate. }
  destruct (Z.eqb_spec status 404); [eexists; split; [reflexivity | reflexivity]|].
  destruct (status =? 409); [eexists; split; [reflexivity | lia]|].
  destruct (500 <=? status); eexists; (split; [reflexivity | lia]).
Qed.

Lemma interpret_not_ok (METHOD url : string) (response : Response.t) (responseBody : JS.value) :
  METHOD <> "HEAD" ->
  Response.ok response = false ->
  Spec.read_body response = Return responseBody ->
  Derived.interpret METHOD url response
  = Throw (Derived.http_failure url response responseBody).
Proof.
  intros Hhead Hok Hbody. unfold Derived.interpret.
  apply String.eqb_neq in Hhead. rewrite Hhead, (not_ok_not_204 _ Hok), andb_false_r.
  now rewrite Hbody, Hok.
Qed.

Lemma classify_no_status (name message : string) :
  exists code text,
    Execute.classify (JsError.mk name message None None None None)
    = createErrorResponse code text None.
Proof.
  unfold Execute.classify, Execute.classify_shape. cbn [JsError.status].
  destruct (_ || _); [now eexists _, _|].
  destruct (_ || _); now eexists _, _.
Qed.

End StatusFailures.

(** X9.  When the backend answers a valid call of a registry action other
    than a HEAD with a non-2xx status and a readable body, the execute tool
    answers with the error code of that status, [INVALID_PARAMS] for 400,
    [RESOURCE_ACCESS_DENIED] for 401 and 403, [RESOURCE_NOT_FOUND] for 404
    and [BACKEND_ERROR] for every other one, and with a detail that holds
    the status, the status text, the URL of the request and the body; for
    404 the message names that URL.  The backend is only asked when the
    configured timeout is a delay that [AbortSignal.timeout] accepts;
    otherwise the execute tool answers with an error without a detail and
    sends nothing. *)
Theorem handleExecute_http_failure :
  forall (config : Client.Config) (network : string -> FetchOptions.t -> outcome Response.t)
         (args : Execute.Args.t) (log : list FetchCall)
         (schema : ResourceSchema.t) (def : ActionDef.t)
         (response : Response.t) (responseBody : JS.value),
    Registry.getSchema (Execute.Args.resource args) = Some schema ->
    JS.own (ResourceSchema.actions schema) (Execute.Args.action args) = Some def ->
    (forall name, In name (JS.keys (Spec.declared_params def)) ->
                  Derived.supplies (Spec.supplied args) name) ->
    ActionDef.method def <> "HEAD" ->
    (forall url options, network url options = Return response) ->
    Response.ok response = false ->
    Response.status response <> 0 ->
    Spec.read_body response = Return responseBody ->
    let req := Derived.request_of schema def (Execute.route_call args) in
    let url := Derived.request_url config req (ActionDef.path def) in
    (JS.uint32 (Derived.request_timeout config) = true ->
     exists message,
       Execute.handleExecute config network args log
       = (Return (createErrorResponse (Derived.status_code (Response.status response)) message
                    (Some (mkDetail (Response.status response)
                             (Some (Response.statusText response)) (Some url)
                             (Some responseBody)))),
          log ++ [(url, Derived.request_options config req (ActionDef.method def))])
       /\ (Response.status response = 404 -> message = "Resource not found: " +:+ url))
    /\ (JS.uint32 (Derived.request_timeout config) = false ->
        exists code message,
          Execute.handleExecute config network args log
          = (Return (createErrorResponse code message None), log)).
Proof.
  intros config network args log schema def response responseBody
    Hs Ha Hsup Hhead Hnet Hok Hstatus Hbody req url.
  destruct (registry_forall_spec _ _ _ _ _ registry_methods_upper Hs Ha) as (Hr & Hact & _).
  assert (Hrun := routeAndExecute_request config network (Execute.route_call args) log
                    schema def (Spec.supplied args) Hs Ha eq_refl Hsup).
  split; intros Hdelay; rewrite Hdelay in Hrun.
  - destruct (classify_status_code (Derived.http_failure url response responseBody)
                (Response.status response)) as (message & Hclass & H404).
    exists message. split; [|exact H404].
    unfold Execute.handleExecute. rewrite Hr, Hact. cbn [negb orb].
    unfold try_catch, bind. rewrite Hrun.
    fold req. fold url. rewrite Hnet, (interpret_not_ok _ _ _ _ Hhead Hok Hbody).
    unfold ret, Execute.classify. cbn [JsError.status Derived.http_failure].
    apply Z.eqb_neq in Hstatus. rewrite Hstatus. now rewrite Hclass.
  - unfold Execute.handleExecute. rewrite Hr, Hact. cbn [negb orb].
    unfold try_catch, bind. rewrite Hrun. unfold ret, RangeError_delay.
    destruct (classify_no_status "RangeError"
                (JsError.message (RangeError_delay (Derived.request_timeout config))))
      as (code & text & Hclass).
    unfold RangeError_delay in Hclass. cbn [JsError.message] in Hclass.
    rewrite Hclass. now exists code, text.
Qed.

Lemma handleExecute_http_failure_witness :
  (exists message,
      Execute.handleExecute Sample.config Sample.answering_404
        (Execute.Args.mk "organizations" "get" (Some [("id", "42")]) None None) []
      = (Return (createErrorResponse RESOURCE_NOT_FOUND message
                   (Some (mkDetail 404 (Some "Not Found")
                            (Some "http://localhost:3000/v1/organizations/42")
                            (Some (JS.VStr "404 page not found"))))),
         [] ++ [("http://localhost:3000/v1/organizations/42",
                 FetchOptions.mk "GET"
                   [("Content-Type", "application/json"); ("Accept", "application/json")]
                   30000 None)])
      /\ (Response.status Sample.not_found = 404 ->
          message = "Resource not found: http://localhost:3000/v1/organizations/42"))
  /\ (exists code message,
        Execute.handleExecute Derived.config_with_negative_timeout Sample.answering_404
          (Execute.Args.mk "organizations" "get" (Some [("id", "42")]) None None) []
        = (Return (createErrorResponse code message None), [])).
Proof.
  split.
  - apply (handleExecute_http_failure Sample.config Sample.answering_404
             (Execute.Args.mk "organizations" "get" (Some [("id", "42")]) None None) []
             Schemas.organizationsSchema Sample.get_organization
             Sample.not_found (JS.VStr "404 page not found")).
    + vm_compute. reflexivity.
    + vm_compute. reflexivity.
    + intros name Hname. vm_compute in Hname. destruct Hname as [<-|[]].
      eexists. split; [reflexivity | discriminate].
    + discriminate.
    + reflexivity.
    + reflexivity.
    + discriminate.
    + reflexivity.
    + reflexivity.
  - apply (handleExecute_http_failure Derived.config_with_negative_timeout
             Sample.answering_404
             (Execute.Args.mk "organizations" "get" (Some [("id", "42")]) None None) []
             Schemas.organizationsSchema Sample.get_organization
             Sample.not_found (JS.VStr "404 page not found")).
    + vm_compute. reflexivity.
    + vm_compute. reflexivity.
    + intros name Hname. vm_compute in Hname. destruct Hname as [<-|[]].
      eexists. split; [reflexivity | discriminate].
    + discriminate.
    + reflexivity.
    + reflexivity.
    + discriminate.
    + reflexivity.
    + reflexivity.
Defined.

(** ** The request options *)

Section RequestOptions.



End RequestOptions.



(** ** Calls that never reach the network *)

(** X11.  A call of the execute tool without a resource or an action is
    answered with [INVALID_PARAMS], and a call whose resource or action
    [resolveAction] does not know is answered with an error as well; in both
    cases no request is sent. *)
Theorem handleExecute_fails_fast :
  forall (config : Client.Config) (network : string -> FetchOptions.t -> outcome Response.t)
         (args : Execute.Args.t) (log : list FetchCall),
    (Execute.Args.resource args = "" \/ Execute.Args.action args = ""
     -> exists message,
          Execute.handleExecute config network args log
          = (Return (createErrorResponse INVALID_PARAMS message None), log))
    /\ (forall error,
           Router.resolveAction (Execute.Args.resource args) (Execute.Args.action args)
           = Router.ResolveError error ->
           exists code message,
             Execute.handleExecute config network args log
             = (Return (createErrorResponse code message None), log)).
Proof.
  intros config network args log. split.
  - intros H. unfold Execute.handleExecute.
    assert (Hf : negb (JS.truthy_string (Execute.Args.resource args))
                 || negb (JS.truthy_string (Execute.Args.action args)) = true).
    { destruct H as [->| ->]; [reflexivity | apply orb_true_r]. }
    rewrite Hf. now eexists.
  - intros error Herr. unfold Execute.handleExecute.
    destruct (negb _ || negb _); [now eexists _, _|].
    unfold try_catch, bind, Router.routeAndExecute.
    cbn [Execute.route_call Router.Call.resource Router.Call.action]. rewrite Herr.
    unfold throw, ret, Error.
    destruct (classify_no_status "Error" error) as (code & text & ->). now eexists _, _.
Qed.

Lemma handleExecute_fails_fast_witness :
  exists message code message',
    Execute.handleExecute Sample.config Sample.refusing
      (Execute.Args.mk "" "get" None None None) []
    = (Return (createErrorResponse INVALID_PARAMS message None), [])
    /\ Execute.handleExecute Sample.config Sample.refusing
         (Execute.Args.mk "invoices" "get" None None None) []
       = (Return (createErrorResponse code message' None), []).
Proof.
  destruct (handleExecute_fails_fast Sample.config Sample.refusing
              (Execute.Args.mk "" "get" None None None) []) as [Hempty _].
  destruct (Hempty (or_introl eq_refl)) as [message Hm].
  destruct (handleExecute_fails_fast Sample.config Sample.refusing
              (Execute.Args.mk "invoices" "get" None None None) []) as [_ Hunknown].
  destruct (Hunknown _ eq_refl) as (code & message' & Hu).
  exists message, code, message'. split; [exact Hm | exact Hu].
Defined.

(** X12.  For a registered resource, an action name that is not an action of
    the resource but is inherited by every plain object passes
    [resolveAction]; the execute tool then fails on the undefined template or
    method, with [INTERNAL_ERROR] and the text of the [TypeError], before any
    request is sent. *)
Theorem handleExecute_inherited_action :
  forall (config : Client.Config) (network : string -> FetchOptions.t -> outcome Response.t)
         (args : Execute.Args.t) (log : list FetchCall) (schema : ResourceSchema.t),
    Registry.getSchema (Execute.Args.resource args) = Some schema ->
    JS.own (ResourceSchema.actions schema) (Execute.Args.action args) = None ->
    JS.is_inherited (Execute.Args.action args) = true ->
    exists member,
      (member = "replace" \/ member = "toUpperCase")
      /\ Execute.handleExecute config network args log
         = (Return (createErrorResponse INTERNAL_ERROR
                      ("Cannot read properties of undefined (reading '" +:+ member +:+ "')")
                      None),
            log).
Proof.
  intros config network args log schema Hs Ha Hi.
  assert (Hr : JS.truthy_string (Execute.Args.resource args) = true).
  { pose proof registry_consistent as Hall. apply getSchema_In in Hs as [Hin <-].
    unfold Spec.registry_forall in Hall. rewrite forallb_forall in Hall.
    specialize (Hall schema Hin). now apply andb_true_iff in Hall as [Hr _]. }
  assert (Hact : JS.truthy_string (Execute.Args.action args) = true).
  { destruct (Execute.Args.action args); [discriminate Hi | reflexivity]. }
  unfold Execute.handleExecute. rewrite Hr, Hact. cbn [negb orb].
  unfold try_catch, bind, Router.routeAndExecute, Router.resolveAction, JS.get.
  cbn [Execute.route_call Router.Call.resource Router.Call.action Router.Call.pathParams].
  rewrite Hs, Ha, Hi. cbn [Router.Descriptor.pathParams Router.missing_params fold_left length Nat.ltb Nat.leb].
  rewrite executeRequest_run. unfold Derived.request_path.
  cbn [Client.Request.pathTemplate Client.Request.pathParams Client.Request.method
         Router.Descriptor.pathTemplate Router.Descriptor.method].
  destruct (Execute.Args.pathParams args) as [[|kv entries]|].
  - exists "toUpperCase". split; [now right | reflexivity].
  - exists "replace". split; [now left | reflexivity].
  - exists "toUpperCase". split; [now right | reflexivity].
Qed.

Lemma handleExecute_inherited_action_witness :
  exists member,
    (member = "replace" \/ member = "toUpperCase")
    /\ Execute.handleExecute Sample.config Sample.refusing
         (Execute.Args.mk "organizations" "toString" (Some [("id", "42")]) None None) []
       = (Return (createErrorResponse INTERNAL_ERROR
                    ("Cannot read properties of undefined (reading '" +:+ member +:+ "')")
                    None),
          []).
Proof.
  apply (handleExecute_inherited_action Sample.config Sample.refusing
           (Execute.Args.mk "organizations" "toString" (Some [("id", "42")]) None None) []
           Schemas.organizationsSchema);
    vm_compute; reflexivity.
Defined.

(** ** Base URLs and alphabets *)

Section Urls.

Lemma count_char_append (c : ascii) (s t : string) :
  Derived.count_char c (s +:+ t) = (Derived.count_char c s + Derived.count_char c t)%nat.
Proof.
  induction s as [|d s IH]; [reflexivity|].
  rewrite append_cons. simpl. rewrite IH. lia.
Qed.

Lemma count_char_absent (p : ascii -> bool) (c : ascii) (s : string) :
  Spec.all_chars p s = true -> p c = false -> Derived.count_char c s = 0%nat.
Proof.
  intros Hs Hc. induction s as [|d s IH]; [reflexivity|].
  simpl in *. apply andb_true_iff in Hs as [Hd Hs].
  destruct (Ascii.eqb_spec d c) as [->|_]; [congruence|]. now rewrite IH.
Qed.

Lemma encode_uri_char_alphabet (c : ascii) :
  Spec.all_chars Derived.uri_char (JS.encode_uri_char c) = true.
Proof. ascii_cases c; reflexivity. Qed.

Lemma encodeURIComponent_alphabet (v : string) :
  Spec.all_chars Derived.uri_char (JS.encodeURIComponent v) = true.
Proof.
  induction v as [|c v IH]; [reflexivity|].
  simpl. now rewrite all_chars_append, encode_uri_char_alphabet, IH.
Qed.

Lemma count_char_replace (c : ascii) (s key v : string) :
  Derived.uri_char c = false -> c <> ":"%char -> Derived.count_char c key = 0%nat ->
  Derived.count_char c (JS.replace s (":" +:+ key) (JS.encodeURIComponent v))
  = Derived.count_char c s.
Proof.
  intros Hc Hcolon Hkey.
  destruct (JS.find (":" +:+ key) s) as [[pre post]|] eqn:Hf.
  - rewrite (replace_found _ _ _ _ _ Hf). apply find_occurs in Hf. unfold Spec.occurs_at in Hf.
    rewrite Hf. rewrite !count_char_append.
    rewrite (count_char_absent _ _ _ (encodeURIComponent_alphabet v) Hc).
    rewrite Hkey. cbn [Derived.count_char].
    destruct (Ascii.eqb_spec ":" c) as [<-|_]; [congruence | lia].
  - now rewrite replace_absent.
Qed.

Lemma form_encode_char_alphabet (c : ascii) :
  Spec.all_chars Derived.form_char (JS.form_encode_char c) = true.
Proof. ascii_cases c; reflexivity. Qed.

Lemma form_encode_alphabet (s : string) :
  Spec.all_chars Derived.query_char (JS.form_encode s) = true.
Proof.
  induction s as [|c s IH]; [reflexivity|].
  simpl. rewrite all_chars_append, IH, andb_true_r.
  apply all_chars_weaken with (2 := form_encode_char_alphabet c).
  intros d Hd. unfold Derived.query_char. now rewrite Hd.
Qed.

Lemma params_toString_alphabet (params : JS.URLSearchParams) :
  Spec.all_chars Derived.query_char (JS.params_toString params) = true.
Proof.
  unfold JS.params_toString. induction params as [|[k v] params IH]; [reflexivity|].
  assert (Hkv : Spec.all_chars Derived.query_char
                  (JS.form_encode k +:+ "=" +:+ JS.form_encode v) = true).
  { now rewrite !all_chars_append, !form_encode_alphabet. }
  cbn [map fst snd JS.join]. destruct (map _ params) as [|x l] eqn:Hm; [exact Hkv|].
  rewrite all_chars_append, Hkv. rewrite all_chars_append. now rewrite IH.
Qed.

End Urls.

(** X13.  [getComponentUrl] returns the URL configured for the component when
    there is a non-empty one, and the onboarding URL (possibly undefined)
    otherwise; a component named like a member of [Object.prototype] gets
    that member instead of a URL. *)
Theorem getComponentUrl_fallback :
  forall (midazApi : Client.MidazApi) (component : string),
    (forall url, Derived.configured midazApi component = Some url -> url <> "" ->
                 Client.getComponentUrl midazApi component = Client.UrlString url)
    /\ (Derived.configured midazApi component = None
        \/ Derived.configured midazApi component = Some "" ->
        JS.is_inherited component = false ->
        Client.getComponentUrl midazApi component = Derived.onboarding_default midazApi)
    /\ (JS.is_inherited component = true ->
        Client.getComponentUrl midazApi component = Client.UrlInherited component).
Proof.
  intros midazApi component.
  unfold Client.getComponentUrl, Derived.configured, Derived.onboarding_default, JS.get.
  cbn [JS.own].
  rewrite (String.eqb_sym "onboarding"), (String.eqb_sym "transaction"),
    (String.eqb_sym "crm"), (String.eqb_sym "ledger").
  assert (Htruthy : forall s, s <> "" -> JS.truthy_string s = true)
    by (intros [|? ?]; [congruence | reflexivity]).
  destruct (String.eqb_spec component "onboarding") as [->|_];
    [|destruct (String.eqb_spec component "transaction") as [->|_];
      [|destruct (String.eqb_spec component "crm") as [->|_];
        [|destruct (String.eqb_spec component "ledger") as [->|_]]]].
  1-4: (split; [|split]);
    [ intros url -> Hurl; now rewrite (Htruthy _ Hurl)
    | intros [-> | ->] _; reflexivity
    | discriminate ].
  split; [|split].
  - discriminate.
  - now intros _ ->.
  - now intros ->.
Qed.

Lemma getComponentUrl_fallback_witness :
  Client.getComponentUrl
    (Client.mkMidazApi (Some "http://o") (Some "") (Some "http://c") None None None) "crm"
  = Client.UrlString "http://c"
  /\ Client.getComponentUrl
       (Client.mkMidazApi (Some "http://o") (Some "") (Some "http://c") None None None)
       "transaction"
     = Client.UrlString "http://o"
  /\ Client.getComponentUrl
       (Client.mkMidazApi (Some "http://o") (Some "") (Some "http://c") None None None)
       "valueOf"
     = Client.UrlInherited "valueOf".
Proof.
  split; [|split].
  - apply (getComponentUrl_fallback
             (Client.mkMidazApi (Some "http://o") (Some "") (Some "http://c") None None None)
             "crm"); [reflexivity | discriminate].
  - apply (getComponentUrl_fallback
             (Client.mkMidazApi (Some "http://o") (Some "") (Some "http://c") None None None)
             "transaction"); [now right | reflexivity].
  - apply (getComponentUrl_fallback
             (Client.mkMidazApi (Some "http://o") (Some "") (Some "http://c") None None None)
             "valueOf"). reflexivity.
Defined.

(** X14.  A path parameter value cannot add a reserved character to the URL:
    for a character [c] that [encodeURIComponent] escapes, other than [:] and
    [%] and absent from the keys of [pathParams], the URL built by [buildUrl]
    holds [c] exactly as often as the base URL and the template do. *)
Theorem buildUrl_keeps_reserved_characters :
  forall (c : ascii) (base template : string) (pathParams : Client.PathParams),
    Derived.uri_char c = false ->
    c <> ":"%char ->
    Forall (fun key => Derived.count_char c key = 0%nat) (JS.keys pathParams) ->
    Derived.count_char c (Client.buildUrl base template (Some pathParams))
    = (Derived.count_char c base + Derived.count_char c template)%nat.
Proof.
  intros c base template pathParams Hc Hcolon. revert template.
  induction pathParams as [|[k v] rest IH]; intros template Hkeys.
  - unfold Client.buildUrl. cbn [fold_left]. apply count_char_append.
  - cbn [JS.keys map fst] in Hkeys. inversion Hkeys as [|? ? Hk Hrest]; subst.
    rewrite buildUrl_cons, IH by exact Hrest.
    now rewrite count_char_replace.
Qed.

Lemma buildUrl_keeps_reserved_characters_witness :
  Derived.count_char "/"
    (Client.buildUrl "http://localhost:3000" "/v1/organizations/:id"
       (Some [("id", "../../admin?x=1")]))
  = (Derived.count_char "/" "http://localhost:3000"
     + Derived.count_char "/" "/v1/organizations/:id")%nat.
Proof.
  apply (buildUrl_keeps_reserved_characters "/" "http://localhost:3000"
           "/v1/organizations/:id" [("id", "../../admin?x=1")]).
  - reflexivity.
  - discriminate.
  - repeat constructor.
Defined.

(** X15.  [buildQueryString] returns the empty string or a [?] followed by a
    non-empty text made of form-encoded names and values, [=] and [&] only:
    letters, digits and the characters [*-._+%=&]. *)
Theorem buildQueryString_alphabet :
  forall queryParams : option Client.QueryParams,
    Client.buildQueryString queryParams = ""
    \/ exists qs,
         Client.buildQueryString queryParams = "?" +:+ qs
         /\ qs <> ""
         /\ Spec.all_chars Derived.query_char qs = true.
Proof.
  intros [entries|]; [|now left]. unfold Client.buildQueryString.
  destruct (Nat.eqb _ 0); [now left|]. cbv zeta.
  destruct (JS.truthy_string _) eqn:Ht; [|now left].
  right. eexists. split; [reflexivity|]. split.
  - intros Hq. rewrite Hq in Ht. discriminate Ht.
  - apply params_toString_alphabet.
Qed.

(** ** Templates of the registry *)

Section RegistryTemplates.




End RegistryTemplates.



(** ** Listing by component *)

Section ByComponent.
Import Registry.

Lemma getSchemasByComponent_In (component : string) (schema : ResourceSchema.t) :
  In schema (getSchemasByComponent component)
  <-> getSchema (ResourceSchema.resource schema) = Some schema
      /\ ResourceSchema.component schema = component.
Proof.
  unfold getSchemasByComponent. rewrite filter_In, String.eqb_eq. split.
  - intros [Hin Hc]. split; [|exact Hc].
    apply schemaMap_fold_In; [apply resources_distinct | exact Hin].
  - intros [Hs Hc]. split; [|exact Hc]. now apply getSchema_In in Hs as [Hin _].
Qed.

Lemma known_components_used :
  forallb (fun component => negb (Nat.eqb (length (getSchemasByComponent component)) 0))
          Derived.known_components = true.
Proof. vm_compute. reflexivity. Qed.

Lemma getSchemasByComponent_nil (component : string) :
  getSchemasByComponent component = [] <-> ~ In component Derived.known_components.
Proof.
  split.
  - intros Hnil Hin. pose proof known_components_used as H. rewrite forallb_forall in H.
    specialize (H component Hin). now rewrite Hnil in H.
  - intros Hout. destruct (getSchemasByComponent component) as [|s l] eqn:Hl; [reflexivity|].
    exfalso. apply Hout.
    assert (Hin : In s (getSchemasByComponent component)) by (rewrite Hl; now left).
    unfold getSchemasByComponent in Hin. apply filter_In in Hin as [Hin Hc].
    apply String.eqb_eq in Hc. rewrite <- Hc.
    pose proof components_known as H. rewrite forallb_forall in H.
    specialize (H s Hin). apply existsb_exists in H as (c & Hc' & Heq).
    apply String.eqb_eq in Heq. now rewrite Heq.
Qed.

End ByComponent.

(** X17.  The [list-by-component] intent with a non-empty component never
    fails: it lists exactly the registered resources of that component, and
    the list is empty exactly when the component is none of onboarding,
    transaction, crm and ledger. *)
Theorem list_by_component_entries :
  forall (component : string) resource action query,
    component <> "" ->
    exists resources,
      Discover.handleDiscover
        (Discover.Args.mk "list-by-component" resource action query (Some component))
      = createToolResponse (Discover.ListByComponent component resources)
      /\ (forall name,
             In name (map Discover.entry_resource resources)
             <-> exists schema,
                   Registry.getSchema name = Some schema
                   /\ ResourceSchema.component schema = component)
      /\ (resources = [] <-> ~ In component Derived.known_components).
Proof.
  intros component resource action query Hc.
  unfold Discover.handleDiscover.
  cbn [Discover.Args.intent Discover.Args.component Discover.falsy Discover.text_of].
  change (String.eqb "list-by-component" "list-resources") with false.
  change (String.eqb "list-by-component" "describe-resource") with false.
  change (String.eqb "list-by-component" "describe-action") with false.
  change (String.eqb "list-by-component" "search") with false.
  change (String.eqb "list-by-component" "list-by-component") with true.
  cbv beta iota.
  assert (Ht : JS.truthy_string component = true)
    by (destruct component; [congruence | reflexivity]).
  rewrite Ht. cbn [negb]. eexists. split; [reflexivity|]. split.
  - intros name. rewrite map_map. cbn [Discover.entry_resource]. rewrite in_map_iff. split.
    + intros (schema & <- & Hin). exists schema. now apply getSchemasByComponent_In.
    + intros (schema & Hs & Hcomp). exists schema.
      destruct (getSchema_In _ _ Hs) as [_ Hname]. split; [exact Hname|].
      apply getSchemasByComponent_In. now rewrite Hname.
  - rewrite <- getSchemasByComponent_nil. split.
    + intros H. now apply map_eq_nil in H.
    + intros ->. reflexivity.
Qed.

Lemma list_by_component_entries_witness :
  exists resources,
    Discover.handleDiscover
      (Discover.Args.mk "list-by-component" None None None (Some "billing"))
    = createToolResponse (Discover.ListByComponent "billing" resources)
    /\ (forall name,
           In name (map Discover.entry_resource resources)
           <-> exists schema,
                 Registry.getSchema name = Some schema
                 /\ ResourceSchema.component schema = "billing")
    /\ (resources = [] <-> ~ In "billing" Derived.known_components).
Proof.
  apply (list_by_component_entries "billing" None None None). discriminate.
Defined.
